(** * The UDS index lifecycle and request engine (src/utils/uds/index.c)

    A shallow embedding of [index.c]: the load / replay / rebuild / save
    state machine and the per-zone request engine.  The functions of the
    file are Rocq functions over the fields of [struct index],
    [struct index_zone] and [Request] that the file reads and writes.
    Everything the file calls but does not define (the master index, the
    volume, the sparse cache, the open chapter, the index-state
    persistence, the chapter writer) is a collaborator: a call appends
    an event to a chronological trace and takes its answer from an
    environment that may depend on the whole history of calls. *)

From Stdlib Require Import ZArith List Bool Lia.
From Stdlib.Strings Require Import Byte.
Import ListNotations.
Local Open Scope Z_scope.

(** ** Machine integers *)

(** [uint64_t] arithmetic wraps modulo 2^64, [unsigned int] modulo 2^32. *)
Definition wrap64 (z : Z) : Z := z mod 2 ^ 64.
Definition wrap32 (z : Z) : Z := z mod 2 ^ 32.

Definition UINT64_MAX : Z := 2 ^ 64 - 1.

(** [UINT_MAX] of <limits.h>: [unsigned int] is 32 bits wide on every
    target the code is built for. *)
Definition UINT_MAX : Z := 2 ^ 32 - 1.

(** index.c:29, [static const uint64_t NO_LAST_CHECKPOINT = UINT_MAX;]
    (the conversion from [unsigned int] to [uint64_t] keeps the value). *)
Definition NO_LAST_CHECKPOINT : Z := UINT_MAX.

(** ** Enumerations *)

(** Modelled from the spec: the header that assigns numbers to the status
    codes (uds.h, errors.h) is not among the sources.  The error kinds of
    the spec's error table are distinct codes, [ENOMEM] is the errno
    value, and index.c only compares codes for equality, so a code is a
    constructor; [UDS_OTHER] stands for every code index.c never names. *)
Inductive status : Type :=
| UDS_SUCCESS
| ENOMEM
| UDS_OVERFLOW
| UDS_DUPLICATE_NAME
| UDS_INDEX_NOT_SAVED_CLEANLY
| UDS_CORRUPT_COMPONENT
| UDS_CORRUPT_DATA
| UDS_NO_INDEX
| UDS_SHUTTINGDOWN
| UDS_INVALID_ARGUMENT
| UDS_ASSERTION_FAILED
| UDS_OTHER (code : Z).

Definition is_success (s : status) : bool :=
  match s with UDS_SUCCESS => true | _ => false end.

Inductive load_type : Type :=
| LOAD_UNDEFINED | LOAD_CREATE | LOAD_LOAD | LOAD_REBUILD | LOAD_EMPTY
| LOAD_REPLAY.

Definition load_type_eqb (a b : load_type) : bool :=
  match a, b with
  | LOAD_UNDEFINED, LOAD_UNDEFINED | LOAD_CREATE, LOAD_CREATE
  | LOAD_LOAD, LOAD_LOAD | LOAD_REBUILD, LOAD_REBUILD
  | LOAD_EMPTY, LOAD_EMPTY | LOAD_REPLAY, LOAD_REPLAY => true
  | _, _ => false
  end.

Inductive IndexLookupMode : Type := LOOKUP_NORMAL | LOOKUP_FOR_REBUILD.

Inductive IndexLoadStatus : Type :=
| INDEX_OPENING | INDEX_READY | INDEX_SUSPENDING | INDEX_SUSPENDED
| INDEX_FREEING.

(** The [default:] arm of the dispatcher's switch is reachable, since an
    enum object can hold any int: [REQUEST_INVALID] carries such a value. *)
Inductive RequestAction : Type :=
| REQUEST_INDEX | REQUEST_UPDATE | REQUEST_QUERY | REQUEST_DELETE
| REQUEST_INVALID (code : Z).

Inductive IndexRegion : Type :=
| LOC_UNAVAILABLE | LOC_IN_OPEN_CHAPTER | LOC_IN_DENSE | LOC_IN_SPARSE.

Inductive CacheProbeType : Type :=
| CACHE_PROBE_INDEX_FIRST | CACHE_PROBE_RECORD_FIRST.

Inductive component : Type := MASTER_INDEX_INFO | INDEX_PAGE_MAP_INFO.

(** ** Structures *)

Definition uds_chunk_name : Type := list byte.
Definition uds_chunk_data : Type := list byte.

(** The fields of [struct geometry] that index.c reads; all of them are
    [unsigned int]. *)
Record geometry : Type := mk_geometry {
  chapters_per_volume : Z;
  pages_per_chapter : Z;
  index_pages_per_chapter : Z;
  record_pages_per_chapter : Z;
  records_per_page : Z
}.

(** [struct index_zone], without its back pointer: wherever the C code
    follows [zone->index] the model takes the index as an argument. *)
Record index_zone : Type := mk_index_zone {
  id : nat;
  newestVirtualChapter : Z
}.

(** [struct index].  [lookupMode] and [geometry] are reached in C through
    [index->volume]; [master_index] is [None] for a NULL pointer. *)
Record index : Type := mk_index {
  existed : bool;
  has_saved_open_chapter : bool;
  loaded_type : load_type;
  load_context : option IndexLoadStatus;
  zone_count : nat;
  zones : list index_zone;
  oldest_virtual_chapter : Z;
  newest_virtual_chapter : Z;
  last_checkpoint : Z;
  prev_checkpoint : Z;
  master_index : option nat;
  lookupMode : IndexLookupMode;
  volume_geometry : geometry
}.

Definition set_has_saved_open_chapter (b : bool) (i : index) : index :=
  mk_index (existed i) b (loaded_type i) (load_context i) (zone_count i)
    (zones i) (oldest_virtual_chapter i) (newest_virtual_chapter i)
    (last_checkpoint i) (prev_checkpoint i) (master_index i) (lookupMode i)
    (volume_geometry i).

Definition set_loaded_type (t : load_type) (i : index) : index :=
  mk_index (existed i) (has_saved_open_chapter i) t (load_context i)
    (zone_count i) (zones i) (oldest_virtual_chapter i)
    (newest_virtual_chapter i) (last_checkpoint i) (prev_checkpoint i)
    (master_index i) (lookupMode i) (volume_geometry i).

Definition set_load_context (c : option IndexLoadStatus) (i : index) : index :=
  mk_index (existed i) (has_saved_open_chapter i) (loaded_type i) c
    (zone_count i) (zones i) (oldest_virtual_chapter i)
    (newest_virtual_chapter i) (last_checkpoint i) (prev_checkpoint i)
    (master_index i) (lookupMode i) (volume_geometry i).

Definition set_oldest_virtual_chapter (v : Z) (i : index) : index :=
  mk_index (existed i) (has_saved_open_chapter i) (loaded_type i)
    (load_context i) (zone_count i) (zones i) v (newest_virtual_chapter i)
    (last_checkpoint i) (prev_checkpoint i) (master_index i) (lookupMode i)
    (volume_geometry i).

Definition set_newest_virtual_chapter (v : Z) (i : index) : index :=
  mk_index (existed i) (has_saved_open_chapter i) (loaded_type i)
    (load_context i) (zone_count i) (zones i) (oldest_virtual_chapter i) v
    (last_checkpoint i) (prev_checkpoint i) (master_index i) (lookupMode i)
    (volume_geometry i).

Definition set_last_checkpoint (v : Z) (i : index) : index :=
  mk_index (existed i) (has_saved_open_chapter i) (loaded_type i)
    (load_context i) (zone_count i) (zones i) (oldest_virtual_chapter i)
    (newest_virtual_chapter i) v (prev_checkpoint i) (master_index i)
    (lookupMode i) (volume_geometry i).

Definition set_prev_checkpoint (v : Z) (i : index) : index :=
  mk_index (existed i) (has_saved_open_chapter i) (loaded_type i)
    (load_context i) (zone_count i) (zones i) (oldest_virtual_chapter i)
    (newest_virtual_chapter i) (last_checkpoint i) v (master_index i)
    (lookupMode i) (volume_geometry i).

Definition set_master_index (m : option nat) (i : index) : index :=
  mk_index (existed i) (has_saved_open_chapter i) (loaded_type i)
    (load_context i) (zone_count i) (zones i) (oldest_virtual_chapter i)
    (newest_virtual_chapter i) (last_checkpoint i) (prev_checkpoint i) m
    (lookupMode i) (volume_geometry i).

Definition set_lookupMode (m : IndexLookupMode) (i : index) : index :=
  mk_index (existed i) (has_saved_open_chapter i) (loaded_type i)
    (load_context i) (zone_count i) (zones i) (oldest_virtual_chapter i)
    (newest_virtual_chapter i) (last_checkpoint i) (prev_checkpoint i)
    (master_index i) m (volume_geometry i).

(** What index.c reads of a [MasterIndexRecord] after a lookup. *)
Record MasterIndexRecord : Type := mk_record {
  isFound : bool;
  isCollision : bool;
  virtualChapter : Z
}.

Record MasterIndexTriage : Type := mk_triage {
  inSampledChapter : bool;
  triage_virtualChapter : Z
}.

Record delta_index_page : Type := mk_delta_index_page {
  lowest_list_number : Z;
  highest_list_number : Z
}.

Record Request : Type := mk_request {
  chunkName : uds_chunk_name;
  zoneNumber : nat;
  action : RequestAction;
  update : bool;
  requeued : bool;
  newMetadata : uds_chunk_data;
  oldMetadata : uds_chunk_data;
  location : IndexRegion
}.

(** The [metadata] argument of [putRecordInZone] points at one of two
    fields of the request: [&request->newMetadata] or
    [&request->oldMetadata]. *)
Inductive metadata_field : Type := NEW_METADATA | OLD_METADATA.

Definition set_location (l : IndexRegion) (r : Request) : Request :=
  mk_request (chunkName r) (zoneNumber r) (action r) (update r) (requeued r)
    (newMetadata r) (oldMetadata r) l.

(** ** Collaborators *)

(** One event per call that leaves index.c, with the arguments that
    identify it. *)
Inductive event : Type :=
| EvAllocateIndex (zone_count : nat) (lt : load_type)
| EvMakeMasterIndex (zone_count : nat)
| EvAddIndexStateComponent (c : component)
| EvMakeChapterWriter
| EvFreeChapterWriter
| EvFreeMasterIndex
| EvReleaseIndex
| EvDiscardIndexStateData
| EvLoadIndexState
| EvSaveIndexState
| EvWaitForIdleChapterWriter
| EvFinishCheckpointing
| EvFindVolumeChapterBoundaries (mode : IndexLookupMode)
| EvSetActiveChapters (zone : nat)
| EvSetMasterIndexOpenChapter (vcn : Z)
| EvLoadContextLocked
| EvLoadContextSuspended
| EvLoadContextReady
| EvGetLastUpdate
| EvPrefetchVolumePages (first_page count : Z)
| EvGetPage (chapter page : Z) (probe : CacheProbeType)
| EvUpdateIndexPageMap (vcn chapter page highest_list : Z)
| EvGetMasterIndexRecord (name : uds_chunk_name)
| EvSetMasterIndexRecordChapter (record : MasterIndexRecord) (vcn : Z)
| EvPutMasterIndexRecord (record : MasterIndexRecord) (vcn : Z)
| EvRemoveMasterIndexRecord (record : MasterIndexRecord)
| EvSearchVolumePageCache (name : uds_chunk_name) (vcn : Z)
| EvGetRecordFromZone (zone : nat) (name : uds_chunk_name) (vcn : Z)
| EvSearchSparseCacheInZone (zone : nat) (name : uds_chunk_name) (vcn : Z)
| EvPutRecordInZone (zone : nat) (name : uds_chunk_name)
    (metadata : metadata_field)
| EvRemoveFromOpenChapter (zone : nat) (name : uds_chunk_name)
| EvLookupMasterIndexName (name : uds_chunk_name)
| EvExecuteSparseCacheBarrierMessage (zone : nat) (vcn : Z).

Definition trace : Type := list event.

(** The answers of the code outside index.c.  A field that takes the
    trace is a call with effects: its answer may depend on every call made
    before it.  The other fields are pure helpers and constants whose
    definitions are in headers that are not among the sources.

    The collaborators receive the request by pointer.  Of what they may
    write there index.c reads nothing back (the old metadata that a lookup
    fills in is only handed on to [putRecordInZone]), so in the model they
    read the request and index.c alone writes its [location].

    [finish_checkpointing] is handed the index itself, and index.c reads
    [newest_virtual_chapter] and [last_checkpoint] after it returns;
    [load_index_state] is handed [index->state], through which the saved
    checkpoint reaches the index that [load_index] reads next.  Both hand
    back the index as they leave it.  [save_index_state] is handed
    [index->state] to write it out. *)
Record collaborators : Type := mk_collaborators {
  (* lifecycle *)
  allocate_index : trace -> nat -> load_type -> status * index;
  makeMasterIndex : trace -> nat -> status * nat;
  add_index_state_component : trace -> component -> status;
  make_chapter_writer : trace -> status;
  load_index_state : trace -> index -> status * bool * index;
  save_index_state : trace -> status;
  finish_checkpointing : trace -> index -> status * index;
  findVolumeChapterBoundaries :
    trace -> IndexLookupMode -> status * (Z * Z * bool);
  setActiveChapters : trace -> index -> index_zone -> index_zone;
  (* the load context, shared with the embedder's thread *)
  load_context_status : trace -> IndexLoadStatus;
  wait_ended_by_freeing : trace -> bool;
  (* volume and index page map *)
  get_last_update : trace -> Z;
  getPage :
    trace -> Z -> Z -> CacheProbeType ->
    status * (list byte * delta_index_page);
  update_index_page_map : trace -> Z -> Z -> Z -> Z -> status;
  searchVolumePageCache : trace -> uds_chunk_name -> Z -> status * bool;
  (* master index *)
  getMasterIndexRecord :
    trace -> uds_chunk_name -> status * MasterIndexRecord;
  setMasterIndexRecordChapter : trace -> MasterIndexRecord -> Z -> status;
  putMasterIndexRecord : trace -> MasterIndexRecord -> Z -> status;
  removeMasterIndexRecord : trace -> MasterIndexRecord -> status;
  lookupMasterIndexName : trace -> uds_chunk_name -> MasterIndexTriage;
  (* zone, open chapter and sparse cache *)
  getRecordFromZone : trace -> index_zone -> Request -> Z -> status * bool;
  searchSparseCacheInZone :
    trace -> index_zone -> Request -> Z -> status * bool;
  putRecordInZone :
    trace -> index_zone -> Request -> metadata_field -> status;
  removeFromOpenChapter : trace -> index_zone -> uds_chunk_name -> bool;
  executeSparseCacheBarrierMessage : trace -> index_zone -> Z -> status;
  (* pure helpers *)
  isMasterIndexSample : uds_chunk_name -> bool;
  is_sparse : geometry -> bool;
  is_chapter_sparse : geometry -> Z -> Z -> Z -> bool;
  isZoneChapterSparse : index_zone -> Z -> bool;
  computeIndexRegion : index_zone -> Z -> IndexRegion;
  mapToPhysicalPage : geometry -> Z -> Z -> Z;
  makeUnrecoverable : status -> status;
  logUnrecoverable : status -> status;
  (* constants *)
  BYTES_PER_RECORD : Z;
  UDS_CHUNK_NAME_SIZE : nat
}.

(** Modelled from the spec: logger.h is not among the sources.  The spec
    has the callers "fail with NOT_SAVED_CLEANLY", "CORRUPT_COMPONENT",
    "CORRUPT_DATA", "INVALID_ARGUMENT": the logging helpers that take an
    error code write a message and hand the code back unchanged. *)
Definition logErrorWithStringError (errnum : status) : status := errnum.
Definition logFatalWithStringError (errnum : status) : status := errnum.
Definition logWarningWithStringError (errnum : status) : status := errnum.

(** Modelled from the spec: the [ASSERT] macro (permassert.h) is not among
    the sources.  The spec has remove "assert the name was present": the
    macro yields success when the condition holds and an assertion
    failure code when it does not. *)
Definition ASSERT (condition : bool) : status :=
  if condition then UDS_SUCCESS else UDS_ASSERTION_FAILED.

(** Modelled from the spec: geometry.h is not among the sources.  The spec
    gives the mapping of a virtual chapter to its slot of the ring as
    [physical = VCN mod chapters_per_volume]. *)
Definition map_to_physical_chapter (g : geometry) (vcn : Z) : Z :=
  vcn mod chapters_per_volume g.

Definition are_same_physical_chapter (g : geometry) (chapter1 chapter2 : Z)
  : bool :=
  map_to_physical_chapter g chapter1 =? map_to_physical_chapter g chapter2.

(** ** The call monad *)

Definition M (A : Type) : Type := trace -> A * trace.

Definition ret {A : Type} (a : A) : M A := fun tr => (a, tr).

Definition bind {A B : Type} (m : M A) (k : A -> M B) : M B :=
  fun tr => let (a, tr') := m tr in k a tr'.

(** A call to a collaborator: the answer is taken on the history so far,
    then the call is recorded. *)
Definition call {R : Type} (ev : event) (answer : trace -> R) : M R :=
  fun tr => (answer tr, tr ++ [ev]).

Declare Scope call_scope.
Delimit Scope call_scope with call.
Notation "x <- m ;; k" := (bind m (fun x => k))
  (at level 100, m at next level, right associativity) : call_scope.
Notation "' p <- m ;; k" := (bind m (fun x => let 'p := x in k))
  (at level 100, p pattern, m at next level, right associativity)
  : call_scope.
Notation "m ;;; k" := (bind m (fun _ => k))
  (at level 100, right associativity) : call_scope.
Local Open Scope call_scope.

(** ** index.c *)

(** index.c:767 [begin_save]. *)
Definition begin_save (idx : index) (checkpoint : bool)
    (open_chapter_number : Z) : index :=
  let idx := set_prev_checkpoint (last_checkpoint idx) idx in
  set_last_checkpoint
    (if open_chapter_number =? 0 then NO_LAST_CHECKPOINT
     else open_chapter_number - 1)
    idx.

(** index.c:955 [advance_active_chapters]. *)
Definition advance_active_chapters (idx : index) : index :=
  let idx :=
    set_newest_virtual_chapter (wrap64 (newest_virtual_chapter idx + 1)) idx in
  if are_same_physical_chapter (volume_geometry idx)
       (newest_virtual_chapter idx) (oldest_virtual_chapter idx)
  then set_oldest_virtual_chapter (wrap64 (oldest_virtual_chapter idx + 1)) idx
  else idx.

(** [index->zones[i]]; the C code never indexes past [zone_count]. *)
Definition default_zone : index_zone := mk_index_zone 0 0.

Definition get_zone (idx : index) (i : nat) : index_zone :=
  nth i (zones idx) default_zone.

Fixpoint replace_nth {A : Type} (i : nat) (a : A) (l : list A) : list A :=
  match l, i with
  | [], _ => []
  | _ :: t, O => a :: t
  | h :: t, S j => h :: replace_nth j a t
  end.

Definition set_zone (i : nat) (z : index_zone) (idx : index) : index :=
  mk_index (existed idx) (has_saved_open_chapter idx) (loaded_type idx)
    (load_context idx) (zone_count idx) (replace_nth i z (zones idx))
    (oldest_virtual_chapter idx) (newest_virtual_chapter idx)
    (last_checkpoint idx) (prev_checkpoint idx) (master_index idx)
    (lookupMode idx) (volume_geometry idx).

(** index.c:337 [get_request_zone]. *)
Definition get_request_zone (idx : index) (request : Request) : index_zone :=
  get_zone idx (zoneNumber request).

Section Engine.

Variable E : collaborators.

(** The loop [for (i = 0; i < index->zone_count; i++)
    setActiveChapters(index->zones[i]);], from zone [i] on for [n] zones. *)
Fixpoint set_active_chapters_from (i n : nat) (idx : index) : M index :=
  match n with
  | O => ret idx
  | S n' =>
      z <- call (EvSetActiveChapters i)
             (fun tr => setActiveChapters E tr idx (get_zone idx i)) ;;
      set_active_chapters_from (S i) n' (set_zone i z idx)
  end.

(** index.c:788 [check_for_suspend].  The wait on the condition variable
    is a single call whose answer tells which of the two statuses that
    end the wait, [INDEX_OPENING] or [INDEX_FREEING], was seen. *)
Definition check_for_suspend (idx : index) : M (bool * index) :=
  match load_context idx with
  | None => ret (false, idx)
  | Some _ =>
      st <- call EvLoadContextLocked (load_context_status E) ;;
      match st with
      | INDEX_SUSPENDING =>
          freeing <- call EvLoadContextSuspended (wait_ended_by_freeing E) ;;
          ret (freeing,
               set_load_context
                 (Some (if freeing then INDEX_FREEING else INDEX_OPENING))
                 idx)
      | _ => ret (false, set_load_context (Some st) idx)
      end
  end.

(** index.c:618 [rebuild_index_page_map]: the loop over the index pages of
    a chapter, from page [index_page_number] on for [n] pages. *)
Fixpoint rebuild_index_page_map_from (vcn chapter : Z)
    (expected_list_number index_page_number : Z) (n : nat) : M status :=
  match n with
  | O => ret UDS_SUCCESS
  | S n' =>
      '(result, (_, chapter_index_page)) <-
        call (EvGetPage chapter index_page_number CACHE_PROBE_INDEX_FIRST)
          (fun tr =>
             getPage E tr chapter index_page_number CACHE_PROBE_INDEX_FIRST) ;;
      match result with
      | UDS_SUCCESS =>
          let lowest_delta_list := lowest_list_number chapter_index_page in
          let highest_delta_list := highest_list_number chapter_index_page in
          if negb (lowest_delta_list =? expected_list_number)
          then ret (logErrorWithStringError UDS_CORRUPT_DATA)
          else
            result <-
              call (EvUpdateIndexPageMap vcn chapter index_page_number
                      highest_delta_list)
                (fun tr =>
                   update_index_page_map E tr vcn chapter index_page_number
                     highest_delta_list) ;;
            match result with
            | UDS_SUCCESS =>
                rebuild_index_page_map_from vcn chapter
                  (wrap32 (highest_delta_list + 1))
                  (wrap32 (index_page_number + 1)) n'
            | _ => ret (logErrorWithStringError result)
            end
      | _ => ret (logErrorWithStringError result)
      end
  end.

Definition rebuild_index_page_map (idx : index) (vcn : Z) : M status :=
  let g := volume_geometry idx in
  let chapter := map_to_physical_chapter g vcn in
  rebuild_index_page_map_from vcn chapter 0 0
    (Z.to_nat (index_pages_per_chapter g)).

(** index.c:679 [replay_record]. *)
Definition replay_record (idx : index) (name : uds_chunk_name)
    (virtual_chapter : Z) (will_be_sparse_chapter : bool) : M status :=
  if will_be_sparse_chapter && negb (isMasterIndexSample E name)
  then ret UDS_SUCCESS
  else
    '(result, record) <-
      call (EvGetMasterIndexRecord name)
        (fun tr => getMasterIndexRecord E tr name) ;;
    match result with
    | UDS_SUCCESS =>
        let finish (update_record : bool) : M status :=
          result <-
            (if update_record
             then call (EvSetMasterIndexRecordChapter record virtual_chapter)
                    (fun tr =>
                       setMasterIndexRecordChapter E tr record virtual_chapter)
             else call (EvPutMasterIndexRecord record virtual_chapter)
                    (fun tr =>
                       putMasterIndexRecord E tr record virtual_chapter)) ;;
          match result with
          | UDS_DUPLICATE_NAME | UDS_OVERFLOW => ret UDS_SUCCESS
          | _ => ret result
          end in
        if isFound record then
          if isCollision record then
            if virtualChapter record =? virtual_chapter
            then ret UDS_SUCCESS
            else finish true
          else if virtualChapter record =? virtual_chapter
          then finish false
          else
            '(result, update_record) <-
              call (EvSearchVolumePageCache name (virtualChapter record))
                (fun tr =>
                   searchVolumePageCache E tr name (virtualChapter record)) ;;
            match result with
            | UDS_SUCCESS => finish update_record
            | _ => ret result
            end
        else finish false
    | _ => ret result
    end.

(** The loops of [replay_volume] answer [Some r] when the C code executes
    [return r] inside them and [None] when they run to their end. *)

(** index.c:887, the loop over the records of a record page. *)
Fixpoint replay_records_from (idx : index) (vcn : Z)
    (will_be_sparse_chapter : bool) (record_page : list byte) (k : Z)
    (n : nat) : M (option status) :=
  match n with
  | O => ret None
  | S n' =>
      let name :=
        firstn (UDS_CHUNK_NAME_SIZE E)
          (skipn (Z.to_nat (wrap32 (k * BYTES_PER_RECORD E))) record_page) in
      result <- replay_record idx name vcn will_be_sparse_chapter ;;
      match result with
      | UDS_SUCCESS =>
          replay_records_from idx vcn will_be_sparse_chapter record_page
            (wrap32 (k + 1)) n'
      | _ => ret (Some (logUnrecoverable E result))
      end
  end.

(** index.c:872, the loop over the record pages of a chapter. *)
Fixpoint replay_record_pages_from (idx : index) (vcn chapter : Z)
    (will_be_sparse_chapter : bool) (j : Z) (n : nat) : M (option status) :=
  match n with
  | O => ret None
  | S n' =>
      let g := volume_geometry idx in
      let record_page_number := wrap32 (index_pages_per_chapter g + j) in
      '(result, (record_page, _)) <-
        call (EvGetPage chapter record_page_number CACHE_PROBE_RECORD_FIRST)
          (fun tr =>
             getPage E tr chapter record_page_number
               CACHE_PROBE_RECORD_FIRST) ;;
      match result with
      | UDS_SUCCESS =>
          returned <-
            replay_records_from idx vcn will_be_sparse_chapter record_page 0
              (Z.to_nat (records_per_page g)) ;;
          match returned with
          | None =>
              replay_record_pages_from idx vcn chapter will_be_sparse_chapter
                (wrap32 (j + 1)) n'
          | Some r => ret (Some r)
          end
      | _ => ret (Some (logUnrecoverable E result))
      end
  end.

(** index.c:849, the loop over the chapters [vcn .. upto_vcn - 1].  Every
    [return] but the one after [check_for_suspend] first restores the
    volume's lookup mode. *)
Fixpoint replay_chapters_from (idx : index) (old_lookup_mode : IndexLookupMode)
    (from_vcn upto_vcn vcn : Z) (n : nat) : M (option status * index) :=
  match n with
  | O => ret (None, idx)
  | S n' =>
      '(stop, idx) <- check_for_suspend idx ;;
      if (stop : bool) then ret (Some UDS_SHUTTINGDOWN, idx)
      else
        let g := volume_geometry idx in
        let will_be_sparse_chapter :=
          is_chapter_sparse E g from_vcn upto_vcn vcn in
        let chapter := map_to_physical_chapter g vcn in
        call (EvPrefetchVolumePages (mapToPhysicalPage E g chapter 0)
                (pages_per_chapter g)) (fun _ => tt) ;;;
        call (EvSetMasterIndexOpenChapter vcn) (fun _ => tt) ;;;
        result <- rebuild_index_page_map idx vcn ;;
        match result with
        | UDS_SUCCESS =>
            returned <-
              replay_record_pages_from idx vcn chapter will_be_sparse_chapter
                0 (Z.to_nat (record_pages_per_chapter g)) ;;
            match returned with
            | None =>
                replay_chapters_from idx old_lookup_mode from_vcn upto_vcn
                  (vcn + 1) n'
            | Some r => ret (Some r, set_lookupMode old_lookup_mode idx)
            end
        | _ =>
            ret (Some (logErrorWithStringError result),
                 set_lookupMode old_lookup_mode idx)
        end
  end.

(** index.c:816 [replay_volume]. *)
Definition replay_volume (idx : index) (from_vcn : Z) : M (status * index) :=
  let upto_vcn := newest_virtual_chapter idx in
  call (EvSetMasterIndexOpenChapter upto_vcn) (fun _ => tt) ;;;
  call (EvSetMasterIndexOpenChapter from_vcn) (fun _ => tt) ;;;
  let old_lookup_mode := lookupMode idx in
  let idx := set_lookupMode LOOKUP_FOR_REBUILD idx in
  old_ipm_update <- call EvGetLastUpdate (get_last_update E) ;;
  '(returned, idx) <-
    replay_chapters_from idx old_lookup_mode from_vcn upto_vcn from_vcn
      (Z.to_nat (upto_vcn - from_vcn)) ;;
  match returned with
  | Some r => ret (r, idx)
  | None =>
      let idx := set_lookupMode old_lookup_mode idx in
      call (EvSetMasterIndexOpenChapter upto_vcn) (fun _ => tt) ;;;
      new_ipm_update <- call EvGetLastUpdate (get_last_update E) ;;
      ret (UDS_SUCCESS, idx)
  end.

(** index.c:41 [replay_index_from_checkpoint]. *)
Definition replay_index_from_checkpoint (idx : index)
    (last_checkpoint_chapter : Z) : M (status * index) :=
  let old_lookup_mode := lookupMode idx in
  let idx := set_lookupMode LOOKUP_FOR_REBUILD idx in
  '(result, (lowest_vcn, highest_vcn, is_empty)) <-
    call (EvFindVolumeChapterBoundaries (lookupMode idx))
      (fun tr => findVolumeChapterBoundaries E tr (lookupMode idx)) ;;
  let idx := set_lookupMode old_lookup_mode idx in
  match result with
  | UDS_SUCCESS =>
      if lowest_vcn >? highest_vcn then ret (UDS_CORRUPT_COMPONENT, idx)
      else if (is_empty : bool) then
        if negb (newest_virtual_chapter idx =? 0)
        then ret (UDS_CORRUPT_COMPONENT, idx)
        else ret (UDS_SUCCESS, idx)
      else
        let chapters_per_volume := chapters_per_volume (volume_geometry idx) in
        let idx := set_oldest_virtual_chapter lowest_vcn idx in
        let idx := set_newest_virtual_chapter (wrap64 (highest_vcn + 1)) idx in
        let idx :=
          if newest_virtual_chapter idx
             =? wrap64 (lowest_vcn + chapters_per_volume)
          then set_oldest_virtual_chapter
                 (wrap64 (oldest_virtual_chapter idx + 1)) idx
          else idx in
        let first_replay_chapter :=
          if last_checkpoint_chapter <? oldest_virtual_chapter idx
          then oldest_virtual_chapter idx
          else last_checkpoint_chapter in
        replay_volume idx first_replay_chapter
  | _ => ret (logFatalWithStringError result, idx)
  end.

(** index.c:90 [load_index]. *)
Definition load_index (idx : index) (allow_replay : bool)
  : M (status * index) :=
  '(result, replay_required, idx) <-
    call EvLoadIndexState (fun tr => load_index_state E tr idx) ;;
  match result with
  | UDS_SUCCESS =>
      if (replay_required : bool) && negb allow_replay
      then ret (logErrorWithStringError UDS_INDEX_NOT_SAVED_CLEANLY, idx)
      else
        let last_checkpoint_chapter :=
          if negb (last_checkpoint idx =? NO_LAST_CHECKPOINT)
          then last_checkpoint idx
          else 0 in
        '(result, idx) <-
          (if replay_required
           then replay_index_from_checkpoint idx last_checkpoint_chapter
           else ret (UDS_SUCCESS, idx)) ;;
        match result with
        | UDS_SUCCESS =>
            idx <- set_active_chapters_from 0 (zone_count idx) idx ;;
            ret (UDS_SUCCESS,
                 set_loaded_type
                   (if replay_required then LOAD_REPLAY else LOAD_LOAD) idx)
        | _ => ret (result, idx)
        end
  | _ => ret (result, idx)
  end.

(** index.c:131 [rebuild_index]. *)
Definition rebuild_index (idx : index) : M (status * index) :=
  let old_lookup_mode := lookupMode idx in
  let idx := set_lookupMode LOOKUP_FOR_REBUILD idx in
  '(result, (lowest_vcn, highest_vcn, is_empty)) <-
    call (EvFindVolumeChapterBoundaries (lookupMode idx))
      (fun tr => findVolumeChapterBoundaries E tr (lookupMode idx)) ;;
  let idx := set_lookupMode old_lookup_mode idx in
  match result with
  | UDS_SUCCESS =>
      if lowest_vcn >? highest_vcn then ret (UDS_CORRUPT_COMPONENT, idx)
      else
        let idx :=
          if (is_empty : bool) then
            set_newest_virtual_chapter 0 (set_oldest_virtual_chapter 0 idx)
          else
            let num_chapters := chapters_per_volume (volume_geometry idx) in
            let idx :=
              set_newest_virtual_chapter (wrap64 (highest_vcn + 1)) idx in
            let idx := set_oldest_virtual_chapter lowest_vcn idx in
            if newest_virtual_chapter idx
               =? wrap64 (oldest_virtual_chapter idx + num_chapters)
            then set_oldest_virtual_chapter
                   (wrap64 (oldest_virtual_chapter idx + 1)) idx
            else idx in
        if wrap64 (newest_virtual_chapter idx - oldest_virtual_chapter idx)
           >? chapters_per_volume (volume_geometry idx)
        then ret (logFatalWithStringError UDS_CORRUPT_COMPONENT, idx)
        else
          call (EvSetMasterIndexOpenChapter 0) (fun _ => tt) ;;;
          if is_empty then ret (UDS_SUCCESS, set_loaded_type LOAD_EMPTY idx)
          else
            '(result, idx) <- replay_volume idx (oldest_virtual_chapter idx) ;;
            match result with
            | UDS_SUCCESS =>
                idx <- set_active_chapters_from 0 (zone_count idx) idx ;;
                ret (UDS_SUCCESS, set_loaded_type LOAD_REBUILD idx)
            | _ => ret (result, idx)
            end
  | _ => ret (logFatalWithStringError result, idx)
  end.

(** index.c:293 [free_index], for a non-NULL index. *)
Definition free_index (idx : index) : M unit :=
  call EvFreeChapterWriter (fun _ => tt) ;;;
  (match master_index idx with
   | Some _ => call EvFreeMasterIndex (fun _ => tt)
   | None => ret tt
   end) ;;;
  call EvReleaseIndex (fun _ => tt).

(** index.c:248, the [switch (result)] that follows [load_index] in
    [make_index]. *)
Definition after_load_index (load_type : load_type) (result : status)
    (idx : index) : M (status * index) :=
  match result with
  | UDS_SUCCESS => ret (result, idx)
  | ENOMEM => ret (result, idx)
  | _ =>
      if load_type_eqb load_type LOAD_REBUILD
      then rebuild_index idx
      else ret (result, idx)
  end.

(** index.c:273, the end of [make_index], once a load type was served. *)
Definition finish_make_index (result : status) (idx : index)
  : M (status * option index) :=
  match result with
  | UDS_SUCCESS =>
      idx <-
        (match load_context idx with
         | Some _ =>
             call EvLoadContextReady (fun _ => tt) ;;;
             ret (set_load_context (Some INDEX_READY) idx)
         | None => ret idx
         end) ;;
      ret (UDS_SUCCESS,
           Some (set_has_saved_open_chapter
                   (load_type_eqb (loaded_type idx) LOAD_LOAD) idx))
  | _ => free_index idx ;;; ret (logUnrecoverable E result, None)
  end.

(** index.c:192 [make_index].  The layout, the configuration and the user
    parameters are opaque to index.c and reach the collaborators only;
    the new index is [None] when the function fails. *)
Definition make_index (zone_count : nat) (load_type : load_type)
    (load_context : option IndexLoadStatus) : M (status * option index) :=
  '(result, idx) <-
    call (EvAllocateIndex zone_count load_type)
      (fun tr => allocate_index E tr zone_count load_type) ;;
  match result with
  | UDS_SUCCESS =>
      let idx := set_load_context load_context idx in
      '(result, mi) <-
        call (EvMakeMasterIndex zone_count)
          (fun tr => makeMasterIndex E tr zone_count) ;;
      match result with
      | UDS_SUCCESS =>
          let idx := set_master_index (Some mi) idx in
          result <-
            call (EvAddIndexStateComponent MASTER_INDEX_INFO)
              (fun tr => add_index_state_component E tr MASTER_INDEX_INFO) ;;
          match result with
          | UDS_SUCCESS =>
              result <-
                call (EvAddIndexStateComponent INDEX_PAGE_MAP_INFO)
                  (fun tr =>
                     add_index_state_component E tr INDEX_PAGE_MAP_INFO) ;;
              match result with
              | UDS_SUCCESS =>
                  result <-
                    call EvMakeChapterWriter (make_chapter_writer E) ;;
                  match result with
                  | UDS_SUCCESS =>
                      if load_type_eqb load_type LOAD_LOAD
                         || load_type_eqb load_type LOAD_REBUILD
                      then
                        if negb (existed idx)
                        then free_index idx ;;; ret (UDS_NO_INDEX, None)
                        else
                          '(result, idx) <-
                            load_index idx
                              (load_type_eqb load_type LOAD_REBUILD) ;;
                          '(result, idx) <-
                            after_load_index load_type result idx ;;
                          finish_make_index result idx
                      else
                        let idx := set_loaded_type LOAD_CREATE idx in
                        call EvDiscardIndexStateData (fun _ => tt) ;;;
                        finish_make_index result idx
                  | _ => free_index idx ;;; ret (result, None)
                  end
              | _ => free_index idx ;;; ret (result, None)
              end
          | _ => free_index idx ;;; ret (result, None)
          end
      | _ => free_index idx ;;; ret (logErrorWithStringError result, None)
      end
  | _ => ret (logErrorWithStringError result, None)
  end.

(** index.c:307 [save_index]. *)
Definition save_index (idx : index) : M (status * index) :=
  call EvWaitForIdleChapterWriter (fun _ => tt) ;;;
  '(result, idx) <-
    call EvFinishCheckpointing (fun tr => finish_checkpointing E tr idx) ;;
  match result with
  | UDS_SUCCESS =>
      let idx := begin_save idx false (newest_virtual_chapter idx) in
      result <- call EvSaveIndexState (save_index_state E) ;;
      match result with
      | UDS_SUCCESS => ret (result, set_has_saved_open_chapter true idx)
      | _ => ret (result, set_last_checkpoint (prev_checkpoint idx) idx)
      end
  | _ => ret (result, idx)
  end.

Definition is_action (a b : RequestAction) : bool :=
  match a, b with
  | REQUEST_INDEX, REQUEST_INDEX | REQUEST_UPDATE, REQUEST_UPDATE
  | REQUEST_QUERY, REQUEST_QUERY | REQUEST_DELETE, REQUEST_DELETE => true
  | REQUEST_INVALID m, REQUEST_INVALID n => m =? n
  | _, _ => false
  end.

Definition is_location (a b : IndexRegion) : bool :=
  match a, b with
  | LOC_UNAVAILABLE, LOC_UNAVAILABLE
  | LOC_IN_OPEN_CHAPTER, LOC_IN_OPEN_CHAPTER
  | LOC_IN_DENSE, LOC_IN_DENSE | LOC_IN_SPARSE, LOC_IN_SPARSE => true
  | _, _ => false
  end.

(** index.c:438, the end of [search_index_zone]: the result of
    [setMasterIndexRecordChapter] or [putMasterIndexRecord] is examined
    and the record goes to the open chapter. *)
Definition finish_search (zone : index_zone) (request : Request)
    (found : bool) (result : status) : M (status * Request) :=
  match result with
  | UDS_OVERFLOW => ret (UDS_SUCCESS, request)
  | UDS_SUCCESS =>
      let metadata :=
        if negb found || is_action (action request) REQUEST_UPDATE
        then NEW_METADATA
        else OLD_METADATA in
      result <-
        call (EvPutRecordInZone (id zone) (chunkName request) metadata)
          (fun tr => putRecordInZone E tr zone request metadata) ;;
      ret (result, request)
  | _ => ret (result, request)
  end.

(** index.c:351 [search_index_zone]. *)
Definition search_index_zone (idx : index) (zone : index_zone)
    (request : Request) : M (status * Request) :=
  '(result, record) <-
    call (EvGetMasterIndexRecord (chunkName request))
      (fun tr => getMasterIndexRecord E tr (chunkName request)) ;;
  match result with
  | UDS_SUCCESS =>
      '(result, found) <-
        (if isFound record
         then call (EvGetRecordFromZone (id zone) (chunkName request)
                      (virtualChapter record))
                (fun tr =>
                   getRecordFromZone E tr zone request (virtualChapter record))
         else ret (UDS_SUCCESS, false)) ;;
      match result with
      | UDS_SUCCESS =>
          let request :=
            if (found : bool)
            then set_location
                   (computeIndexRegion E zone (virtualChapter record)) request
            else request in
          let overflow_record :=
            isFound record && isCollision record && negb found in
          let chapter := newestVirtualChapter zone in
          if found || overflow_record then
            if is_action (action request) REQUEST_QUERY
               && (negb (update request) || overflow_record)
            then ret (UDS_SUCCESS, request)
            else if negb (virtualChapter record =? chapter) then
              result <-
                call (EvSetMasterIndexRecordChapter record chapter)
                  (fun tr => setMasterIndexRecordChapter E tr record chapter) ;;
              finish_search zone request found result
            else if negb (is_action (action request) REQUEST_UPDATE)
            then ret (UDS_SUCCESS, request)
            else finish_search zone request found result
          else
            '(result, found) <-
              (if negb (isMasterIndexSample E (chunkName request))
                  && is_sparse E (volume_geometry idx)
               then call (EvSearchSparseCacheInZone (id zone)
                            (chunkName request) UINT64_MAX)
                      (fun tr =>
                         searchSparseCacheInZone E tr zone request UINT64_MAX)
               else ret (UDS_SUCCESS, found)) ;;
            match result with
            | UDS_SUCCESS =>
                let request :=
                  if (found : bool) then set_location LOC_IN_SPARSE request
                  else request in
                if is_action (action request) REQUEST_QUERY
                   && (negb found || negb (update request))
                then ret (UDS_SUCCESS, request)
                else
                  result <-
                    call (EvPutMasterIndexRecord record chapter)
                      (fun tr => putMasterIndexRecord E tr record chapter) ;;
                  finish_search zone request found result
            | _ => ret (result, request)
            end
      | _ => ret (result, request)
      end
  | _ => ret (result, request)
  end.

(** index.c:496, the second half of [remove_from_index_zone], once the
    record is known to be the one to remove. *)
Definition remove_located (zone : index_zone) (request : Request)
    (record : MasterIndexRecord) : M (status * Request) :=
  let request :=
    set_location (computeIndexRegion E zone (virtualChapter record)) request in
  result <-
    call (EvRemoveMasterIndexRecord record)
      (fun tr => removeMasterIndexRecord E tr record) ;;
  match result with
  | UDS_SUCCESS =>
      if is_location (location request) LOC_IN_OPEN_CHAPTER then
        hash_exists <-
          call (EvRemoveFromOpenChapter (id zone) (chunkName request))
            (fun tr => removeFromOpenChapter E tr zone (chunkName request)) ;;
        match ASSERT hash_exists with
        | UDS_SUCCESS => ret (UDS_SUCCESS, request)
        | result => ret (result, request)
        end
      else ret (UDS_SUCCESS, request)
  | _ => ret (result, request)
  end.

(** index.c:464 [remove_from_index_zone]. *)
Definition remove_from_index_zone (idx : index) (zone : index_zone)
    (request : Request) : M (status * Request) :=
  '(result, record) <-
    call (EvGetMasterIndexRecord (chunkName request))
      (fun tr => getMasterIndexRecord E tr (chunkName request)) ;;
  match result with
  | UDS_SUCCESS =>
      if negb (isFound record) then ret (UDS_SUCCESS, request)
      else if negb (isCollision record) then
        '(result, found) <-
          call (EvGetRecordFromZone (id zone) (chunkName request)
                  (virtualChapter record))
            (fun tr =>
               getRecordFromZone E tr zone request (virtualChapter record)) ;;
        match result with
        | UDS_SUCCESS =>
            if negb found then ret (UDS_SUCCESS, request)
            else remove_located zone request record
        | _ => ret (result, request)
        end
      else remove_located zone request record
  | _ => ret (result, request)
  end.

(** index.c:966 [triage_index_request]. *)
Definition triage_index_request (idx : index) (request : Request) : M Z :=
  triage <-
    call (EvLookupMasterIndexName (chunkName request))
      (fun tr => lookupMasterIndexName E tr (chunkName request)) ;;
  if negb (inSampledChapter triage) then ret UINT64_MAX
  else
    let zone := get_request_zone idx request in
    if negb (isZoneChapterSparse E zone (triage_virtualChapter triage))
    then ret UINT64_MAX
    else ret (triage_virtualChapter triage).

(** index.c:538 [simulate_index_zone_barrier_message]. *)
Definition simulate_index_zone_barrier_message (idx : index)
    (zone : index_zone) (request : Request) : M status :=
  if (1 <? zone_count idx)%nat || negb (is_sparse E (volume_geometry idx))
  then ret UDS_SUCCESS
  else
    sparse_virtual_chapter <- triage_index_request idx request ;;
    if sparse_virtual_chapter =? UINT64_MAX then ret UDS_SUCCESS
    else
      call (EvExecuteSparseCacheBarrierMessage (id zone)
              sparse_virtual_chapter)
        (fun tr =>
           executeSparseCacheBarrierMessage E tr zone sparse_virtual_chapter).

(** index.c:569 [dispatch_index_zone_request]. *)
Definition dispatch_index_zone_request (idx : index) (zone : index_zone)
    (request : Request) : M (status * Request) :=
  result <-
    (if negb (requeued request)
     then simulate_index_zone_barrier_message idx zone request
     else ret UDS_SUCCESS) ;;
  match result with
  | UDS_SUCCESS =>
      let request := set_location LOC_UNAVAILABLE request in
      match action request with
      | REQUEST_INDEX | REQUEST_UPDATE | REQUEST_QUERY =>
          '(result, request) <- search_index_zone idx zone request ;;
          ret (makeUnrecoverable E result, request)
      | REQUEST_DELETE =>
          '(result, request) <- remove_from_index_zone idx zone request ;;
          ret (makeUnrecoverable E result, request)
      | REQUEST_INVALID _ =>
          ret (logWarningWithStringError UDS_INVALID_ARGUMENT, request)
      end
  | _ => ret (result, request)
  end.

(** index.c:611 [dispatch_index_request]. *)
Definition dispatch_index_request (idx : index) (request : Request)
  : M (status * Request) :=
  dispatch_index_zone_request idx (get_request_zone idx request) request.

End Engine.

(** ** Concrete collaborators

    A small, fully scripted environment on which the statements below are
    run: every call answers the same way whatever the history. *)

Definition small_geometry : geometry :=
  {| chapters_per_volume := 8;
     pages_per_chapter := 2;
     index_pages_per_chapter := 1;
     record_pages_per_chapter := 1;
     records_per_page := 2 |}.

Definition fresh_index : index :=
  {| existed := true;
     has_saved_open_chapter := false;
     loaded_type := LOAD_UNDEFINED;
     load_context := None;
     zone_count := 1;
     zones := [mk_index_zone 0 0];
     oldest_virtual_chapter := 0;
     newest_virtual_chapter := 0;
     last_checkpoint := 0;
     prev_checkpoint := 0;
     master_index := None;
     lookupMode := LOOKUP_NORMAL;
     volume_geometry := small_geometry |}.

(** The knobs: the volume boundaries, the answer of [load_index_state],
    the master-index record every lookup finds, whether the zone confirms
    the name, the result of every master-index mutation, whether names are
    samples, whether the geometry is sparse, the triage answer, the result
    of a barrier message and the region of every chapter. *)
Definition scripted (boundaries : status * (Z * Z * bool))
    (loaded : status * bool) (record : MasterIndexRecord) (in_zone : bool)
    (master_result : status) (sample sparse : bool)
    (triage : MasterIndexTriage) (barrier : status) (region : IndexRegion)
  : collaborators :=
  {| allocate_index := fun _ _ _ => (UDS_SUCCESS, fresh_index);
     makeMasterIndex := fun _ _ => (UDS_SUCCESS, 1%nat);
     add_index_state_component := fun _ _ => UDS_SUCCESS;
     make_chapter_writer := fun _ => UDS_SUCCESS;
     load_index_state := fun _ idx => (fst loaded, snd loaded, idx);
     save_index_state := fun _ => UDS_SUCCESS;
     finish_checkpointing := fun _ idx => (UDS_SUCCESS, idx);
     findVolumeChapterBoundaries := fun _ _ => boundaries;
     setActiveChapters :=
       fun _ idx z => mk_index_zone (id z) (newest_virtual_chapter idx);
     load_context_status := fun _ => INDEX_OPENING;
     wait_ended_by_freeing := fun _ => false;
     get_last_update := fun _ => 0;
     getPage := fun _ _ _ _ => (UDS_SUCCESS, ([], mk_delta_index_page 0 0));
     update_index_page_map := fun _ _ _ _ _ => UDS_SUCCESS;
     searchVolumePageCache := fun _ _ _ => (UDS_SUCCESS, in_zone);
     getMasterIndexRecord := fun _ _ => (UDS_SUCCESS, record);
     setMasterIndexRecordChapter := fun _ _ _ => master_result;
     putMasterIndexRecord := fun _ _ _ => master_result;
     removeMasterIndexRecord := fun _ _ => master_result;
     lookupMasterIndexName := fun _ _ => triage;
     getRecordFromZone := fun _ _ _ _ => (UDS_SUCCESS, in_zone);
     searchSparseCacheInZone := fun _ _ _ _ => (UDS_SUCCESS, false);
     putRecordInZone := fun _ _ _ _ => UDS_SUCCESS;
     removeFromOpenChapter := fun _ _ _ => true;
     executeSparseCacheBarrierMessage := fun _ _ _ => barrier;
     isMasterIndexSample := fun _ => sample;
     is_sparse := fun _ => sparse;
     is_chapter_sparse := fun _ _ _ _ => false;
     isZoneChapterSparse := fun _ _ => sparse;
     computeIndexRegion := fun _ _ => region;
     mapToPhysicalPage :=
       fun g chapter page => 1 + chapter * pages_per_chapter g + page;
     makeUnrecoverable :=
       fun s => match s with UDS_SUCCESS => s | _ => UDS_OTHER 131072 end;
     logUnrecoverable :=
       fun s => match s with UDS_SUCCESS => s | _ => UDS_OTHER 131072 end;
     BYTES_PER_RECORD := 32;
     UDS_CHUNK_NAME_SIZE := 16 |}.

Definition no_record : MasterIndexRecord := mk_record false false 0.
Definition no_triage : MasterIndexTriage := mk_triage false 0.

(** Nothing is indexed, the volume is empty and every call succeeds. *)
Definition quiet : collaborators :=
  scripted (UDS_SUCCESS, (0, 0, true)) (UDS_SUCCESS, false) no_record false
    UDS_SUCCESS false false no_triage UDS_SUCCESS LOC_IN_DENSE.

Definition some_name : uds_chunk_name := [x01; x02; x03; x04]%byte.

Definition some_request (a : RequestAction) (upd : bool) : Request :=
  {| chunkName := some_name;
     zoneNumber := 0;
     action := a;
     update := upd;
     requeued := false;
     newMetadata := [x0a]%byte;
     oldMetadata := [x0b]%byte;
     location := LOC_IN_DENSE |}.

Definition zone0 : index_zone := mk_index_zone 0 5.

(** ** Specification predicates *)

(** The window of active chapters as the spec words it: the oldest
    chapter is not after the newest and they are at most a volume apart. *)
Definition chapter_window (idx : index) : Prop :=
  oldest_virtual_chapter idx <= newest_virtual_chapter idx /\
  newest_virtual_chapter idx - oldest_virtual_chapter idx
    <= chapters_per_volume (volume_geometry idx).

(** The window the code keeps: strictly less than a volume apart, since
    the open chapter shadows one slot of the ring. *)
Definition strict_chapter_window (idx : index) : Prop :=
  oldest_virtual_chapter idx <= newest_virtual_chapter idx /\
  newest_virtual_chapter idx - oldest_virtual_chapter idx
    < chapters_per_volume (volume_geometry idx).

(** Two states of the index with the same chapter bounds and geometry. *)
Definition same_chapters (a b : index) : Prop :=
  oldest_virtual_chapter a = oldest_virtual_chapter b /\
  newest_virtual_chapter a = newest_virtual_chapter b /\
  volume_geometry a = volume_geometry b.

(** An index whose ring of 8 chapters is full to the brim. *)
Definition brimful_index : index :=
  set_newest_virtual_chapter 8 fresh_index.

(** A volume that holds the chapters 0 to [highest]; the master index
    knows no name and every call succeeds. *)
Definition holding (highest : Z) (replay_required : bool) : collaborators :=
  scripted (UDS_SUCCESS, (0, highest, false)) (UDS_SUCCESS, replay_required)
    no_record false UDS_SUCCESS false false no_triage UDS_SUCCESS LOC_IN_DENSE.

(** A volume on which the chapters 3 to 20 are found, more than a ring of
    8 chapters holds; the saved state is read and asks for a replay, the
    master index knows no name and every call succeeds. *)
Definition overgrown : collaborators :=
  scripted (UDS_SUCCESS, (3, 20, false)) (UDS_SUCCESS, true) no_record false
    UDS_SUCCESS false false no_triage UDS_SUCCESS LOC_IN_DENSE.

(** The calls of [free_index]. *)
Definition free_index_events (idx : index) : list event :=
  EvFreeChapterWriter
    :: match master_index idx with
       | Some _ => [EvFreeMasterIndex; EvReleaseIndex]
       | None => [EvReleaseIndex]
       end.

(** The calls of [make_index] before it looks at the load type. *)
Definition make_index_preamble (zone_count : nat) (lt : load_type)
  : list event :=
  [EvAllocateIndex zone_count lt;
   EvMakeMasterIndex zone_count;
   EvAddIndexStateComponent MASTER_INDEX_INFO;
   EvAddIndexStateComponent INDEX_PAGE_MAP_INFO;
   EvMakeChapterWriter].

(** [make_index] got through its allocations: starting on the history
    [tr], each of the five calls before the load succeeded; [idx] is the
    index at that point and [tr'] the history. *)
Definition make_index_prepared (E : collaborators) (zone_count : nat)
    (lt : load_type) (lc : option IndexLoadStatus) (tr : trace)
    (idx : index) (tr' : trace) : Prop :=
  exists (idx0 : index) (mi : nat),
    allocate_index E tr zone_count lt = (UDS_SUCCESS, idx0) /\
    makeMasterIndex E (tr ++ firstn 1 (make_index_preamble zone_count lt))
      zone_count = (UDS_SUCCESS, mi) /\
    add_index_state_component E
      (tr ++ firstn 2 (make_index_preamble zone_count lt)) MASTER_INDEX_INFO
      = UDS_SUCCESS /\
    add_index_state_component E
      (tr ++ firstn 3 (make_index_preamble zone_count lt))
      INDEX_PAGE_MAP_INFO = UDS_SUCCESS /\
    make_chapter_writer E
      (tr ++ firstn 4 (make_index_preamble zone_count lt)) = UDS_SUCCESS /\
    idx = set_master_index (Some mi) (set_load_context lc idx0) /\
    tr' = tr ++ make_index_preamble zone_count lt.

(** A volume holding chapters 0 to 2 whose saved state cannot be read:
    [load_index_state] fails with [failure]. *)
Definition unreadable (failure : status) : collaborators :=
  scripted (UDS_SUCCESS, (0, 2, false)) (failure, false) no_record false
    UDS_SUCCESS false false no_triage UDS_SUCCESS LOC_IN_DENSE.

(** The index that [make_index] has in hand after its allocations on the
    scripted collaborators. *)
Definition prepared_index : index := set_master_index (Some 1%nat) fresh_index.

(** What [replay_record] makes of the result of
    [setMasterIndexRecordChapter] or [putMasterIndexRecord]. *)
Definition replay_status (result : status) : status :=
  match result with
  | UDS_DUPLICATE_NAME | UDS_OVERFLOW => UDS_SUCCESS
  | _ => result
  end.

(** Every lookup in the master index finds [record]; the zone confirms
    the name or not ([in_zone]); every change of the master index answers
    [master_result]; the geometry is dense and every chapter lies in
    [region]. *)
Definition indexed (record : MasterIndexRecord) (in_zone : bool)
    (master_result : status) (region : IndexRegion) : collaborators :=
  scripted (UDS_SUCCESS, (0, 0, true)) (UDS_SUCCESS, false) record in_zone
    master_result false false no_triage UDS_SUCCESS region.

(** A single-zone sparse index in which the name of every request is a
    hook of the sparse chapter 4 and the barrier message for that chapter
    fails; the master index holds no record and no cache holds the name. *)
Definition barrier_failing : collaborators :=
  scripted (UDS_SUCCESS, (0, 0, true)) (UDS_SUCCESS, false) no_record false
    UDS_SUCCESS false true (mk_triage true 4) UDS_CORRUPT_DATA LOC_IN_DENSE.

(** No lookup of the collaborators [E] locates any name: the master index
    never finds a record and the sparse cache never finds a name. *)
Definition locates_nothing (E : collaborators) : Prop :=
  (forall (tr : trace) (name : uds_chunk_name),
     isFound (snd (getMasterIndexRecord E tr name)) = false) /\
  (forall (tr : trace) (zone : index_zone) (request : Request) (vcn : Z),
     snd (searchSparseCacheInZone E tr zone request vcn) = false).

(** The step of [dispatch_index_zone_request] before the location is
    reset: the barrier synthesized for a request that was not requeued. *)
Definition barrier_step (E : collaborators) (idx : index) (zone : index_zone)
    (request : Request) : M status :=
  if negb (requeued request)
  then simulate_index_zone_barrier_message E idx zone request
  else ret UDS_SUCCESS.

(** *** More collaborators

    Collaborators that differ from [E] in the answers of one call. *)

Definition with_finish_checkpointing
    (answer : trace -> index -> status * index)
    (E : collaborators) : collaborators :=
  mk_collaborators (allocate_index E) (makeMasterIndex E)
    (add_index_state_component E) (make_chapter_writer E)
    (load_index_state E) (save_index_state E) answer
    (findVolumeChapterBoundaries E) (setActiveChapters E)
    (load_context_status E) (wait_ended_by_freeing E) (get_last_update E)
    (getPage E) (update_index_page_map E) (searchVolumePageCache E)
    (getMasterIndexRecord E) (setMasterIndexRecordChapter E)
    (putMasterIndexRecord E) (removeMasterIndexRecord E)
    (lookupMasterIndexName E) (getRecordFromZone E)
    (searchSparseCacheInZone E) (putRecordInZone E) (removeFromOpenChapter
    E) (executeSparseCacheBarrierMessage E) (isMasterIndexSample E)
    (is_sparse E) (is_chapter_sparse E) (isZoneChapterSparse E)
    (computeIndexRegion E) (mapToPhysicalPage E) (makeUnrecoverable E)
    (logUnrecoverable E) (BYTES_PER_RECORD E) (UDS_CHUNK_NAME_SIZE E).

Definition with_save_index_state
    (answer : trace -> status)
    (E : collaborators) : collaborators :=
  mk_collaborators (allocate_index E) (makeMasterIndex E)
    (add_index_state_component E) (make_chapter_writer E)
    (load_index_state E) answer (finish_checkpointing E)
    (findVolumeChapterBoundaries E) (setActiveChapters E)
    (load_context_status E) (wait_ended_by_freeing E) (get_last_update E)
    (getPage E) (update_index_page_map E) (searchVolumePageCache E)
    (getMasterIndexRecord E) (setMasterIndexRecordChapter E)
    (putMasterIndexRecord E) (removeMasterIndexRecord E)
    (lookupMasterIndexName E) (getRecordFromZone E)
    (searchSparseCacheInZone E) (putRecordInZone E) (removeFromOpenChapter
    E) (executeSparseCacheBarrierMessage E) (isMasterIndexSample E)
    (is_sparse E) (is_chapter_sparse E) (isZoneChapterSparse E)
    (computeIndexRegion E) (mapToPhysicalPage E) (makeUnrecoverable E)
    (logUnrecoverable E) (BYTES_PER_RECORD E) (UDS_CHUNK_NAME_SIZE E).

(** A volume whose boundaries are reported as [boundaries]; the saved
    state asks for a replay and the master index knows no name. *)
Definition bounded (boundaries : status * (Z * Z * bool)) : collaborators :=
  scripted boundaries (UDS_SUCCESS, true) no_record false UDS_SUCCESS false
    false no_triage UDS_SUCCESS LOC_IN_DENSE.

Definition with_allocate_index
    (answer : trace -> nat -> load_type -> status * index)
    (E : collaborators) : collaborators :=
  mk_collaborators answer (makeMasterIndex E) (add_index_state_component
    E) (make_chapter_writer E) (load_index_state E) (save_index_state E)
    (finish_checkpointing E) (findVolumeChapterBoundaries E)
    (setActiveChapters E) (load_context_status E) (wait_ended_by_freeing
    E) (get_last_update E) (getPage E) (update_index_page_map E)
    (searchVolumePageCache E) (getMasterIndexRecord E)
    (setMasterIndexRecordChapter E) (putMasterIndexRecord E)
    (removeMasterIndexRecord E) (lookupMasterIndexName E)
    (getRecordFromZone E) (searchSparseCacheInZone E) (putRecordInZone E)
    (removeFromOpenChapter E) (executeSparseCacheBarrierMessage E)
    (isMasterIndexSample E) (is_sparse E) (is_chapter_sparse E)
    (isZoneChapterSparse E) (computeIndexRegion E) (mapToPhysicalPage E)
    (makeUnrecoverable E) (logUnrecoverable E) (BYTES_PER_RECORD E)
    (UDS_CHUNK_NAME_SIZE E).

Definition with_makeMasterIndex
    (answer : trace -> nat -> status * nat)
    (E : collaborators) : collaborators :=
  mk_collaborators (allocate_index E) answer (add_index_state_component E)
    (make_chapter_writer E) (load_index_state E) (save_index_state E)
    (finish_checkpointing E) (findVolumeChapterBoundaries E)
    (setActiveChapters E) (load_context_status E) (wait_ended_by_freeing
    E) (get_last_update E) (getPage E) (update_index_page_map E)
    (searchVolumePageCache E) (getMasterIndexRecord E)
    (setMasterIndexRecordChapter E) (putMasterIndexRecord E)
    (removeMasterIndexRecord E) (lookupMasterIndexName E)
    (getRecordFromZone E) (searchSparseCacheInZone E) (putRecordInZone E)
    (removeFromOpenChapter E) (executeSparseCacheBarrierMessage E)
    (isMasterIndexSample E) (is_sparse E) (is_chapter_sparse E)
    (isZoneChapterSparse E) (computeIndexRegion E) (mapToPhysicalPage E)
    (makeUnrecoverable E) (logUnrecoverable E) (BYTES_PER_RECORD E)
    (UDS_CHUNK_NAME_SIZE E).

Definition with_make_chapter_writer
    (answer : trace -> status)
    (E : collaborators) : collaborators :=
  mk_collaborators (allocate_index E) (makeMasterIndex E)
    (add_index_state_component E) answer (load_index_state E)
    (save_index_state E) (finish_checkpointing E)
    (findVolumeChapterBoundaries E) (setActiveChapters E)
    (load_context_status E) (wait_ended_by_freeing E) (get_last_update E)
    (getPage E) (update_index_page_map E) (searchVolumePageCache E)
    (getMasterIndexRecord E) (setMasterIndexRecordChapter E)
    (putMasterIndexRecord E) (removeMasterIndexRecord E)
    (lookupMasterIndexName E) (getRecordFromZone E)
    (searchSparseCacheInZone E) (putRecordInZone E) (removeFromOpenChapter
    E) (executeSparseCacheBarrierMessage E) (isMasterIndexSample E)
    (is_sparse E) (is_chapter_sparse E) (isZoneChapterSparse E)
    (computeIndexRegion E) (mapToPhysicalPage E) (makeUnrecoverable E)
    (logUnrecoverable E) (BYTES_PER_RECORD E) (UDS_CHUNK_NAME_SIZE E).

(** An index directory that did not exist before [make_index]. *)
Definition absent_index : index :=
  mk_index false false LOAD_UNDEFINED None 1 [mk_index_zone 0 0] 0 0 0 0 None
    LOOKUP_NORMAL small_geometry.

Definition with_getPage
    (answer : trace -> Z -> Z -> CacheProbeType -> status * (list byte * delta_index_page))
    (E : collaborators) : collaborators :=
  mk_collaborators (allocate_index E) (makeMasterIndex E)
    (add_index_state_component E) (make_chapter_writer E)
    (load_index_state E) (save_index_state E) (finish_checkpointing E)
    (findVolumeChapterBoundaries E) (setActiveChapters E)
    (load_context_status E) (wait_ended_by_freeing E) (get_last_update E)
    answer (update_index_page_map E) (searchVolumePageCache E)
    (getMasterIndexRecord E) (setMasterIndexRecordChapter E)
    (putMasterIndexRecord E) (removeMasterIndexRecord E)
    (lookupMasterIndexName E) (getRecordFromZone E)
    (searchSparseCacheInZone E) (putRecordInZone E) (removeFromOpenChapter
    E) (executeSparseCacheBarrierMessage E) (isMasterIndexSample E)
    (is_sparse E) (is_chapter_sparse E) (isZoneChapterSparse E)
    (computeIndexRegion E) (mapToPhysicalPage E) (makeUnrecoverable E)
    (logUnrecoverable E) (BYTES_PER_RECORD E) (UDS_CHUNK_NAME_SIZE E).

(** An index whose chapters have three index pages, and a volume whose
    index page number [p] covers the delta lists [10 * p] to
    [10 * p + 9] of every chapter. *)
Definition three_page_index : index :=
  mk_index true false LOAD_UNDEFINED None 1 [mk_index_zone 0 0] 0 0 0 0 None
    LOOKUP_NORMAL (mk_geometry 8 4 3 1 2).

Definition paged : collaborators :=
  with_getPage
    (fun _ _ page _ =>
       (UDS_SUCCESS,
        ([], mk_delta_index_page (10 * page) (10 * page + 9))))
    quiet.

(** An index under a load context, and collaborators whose embedder asks
    for a suspension and then frees the index. *)
Definition watched_index : index :=
  set_newest_virtual_chapter 3 (set_load_context (Some INDEX_OPENING)
                                  fresh_index).

Definition freeing : collaborators :=
  mk_collaborators (allocate_index quiet) (makeMasterIndex quiet)
    (add_index_state_component quiet) (make_chapter_writer quiet)
    (load_index_state quiet) (save_index_state quiet)
    (finish_checkpointing quiet) (findVolumeChapterBoundaries quiet)
    (setActiveChapters quiet) (fun _ => INDEX_SUSPENDING) (fun _ => true)
    (get_last_update quiet) (getPage quiet) (update_index_page_map quiet)
    (searchVolumePageCache quiet) (getMasterIndexRecord quiet)
    (setMasterIndexRecordChapter quiet) (putMasterIndexRecord quiet)
    (removeMasterIndexRecord quiet) (lookupMasterIndexName quiet)
    (getRecordFromZone quiet) (searchSparseCacheInZone quiet)
    (putRecordInZone quiet) (removeFromOpenChapter quiet)
    (executeSparseCacheBarrierMessage quiet) (isMasterIndexSample quiet)
    (is_sparse quiet) (is_chapter_sparse quiet) (isZoneChapterSparse quiet)
    (computeIndexRegion quiet) (mapToPhysicalPage quiet)
    (makeUnrecoverable quiet) (logUnrecoverable quiet)
    (BYTES_PER_RECORD quiet) (UDS_CHUNK_NAME_SIZE quiet).

(** The calls of the request engine that only look something up. *)
Definition is_lookup (e : event) : bool :=
  match e with
  | EvGetMasterIndexRecord _ | EvGetRecordFromZone _ _ _
  | EvSearchSparseCacheInZone _ _ _ => true
  | _ => false
  end.

(** The calls [search_index_zone] may make for [request] in [zone]: the
    lookups of the request's name in that zone, with the whole sparse
    cache searched; a master-index record pointed at the zone's newest
    chapter; the request's name put into the zone's open chapter, with the
    old metadata only when the request is not an update. *)
Definition search_call (zone : index_zone) (request : Request) (e : event)
  : Prop :=
  match e with
  | EvGetMasterIndexRecord name => name = chunkName request
  | EvGetRecordFromZone z name _ => z = id zone /\ name = chunkName request
  | EvSearchSparseCacheInZone z name vcn =>
      z = id zone /\ name = chunkName request /\ vcn = UINT64_MAX
  | EvSetMasterIndexRecordChapter _ vcn
  | EvPutMasterIndexRecord _ vcn => vcn = newestVirtualChapter zone
  | EvPutRecordInZone z name metadata =>
      z = id zone /\ name = chunkName request /\
      (metadata = OLD_METADATA -> action request <> REQUEST_UPDATE)
  | _ => False
  end.

Definition with_searchSparseCacheInZone
    (answer : trace -> index_zone -> Request -> Z -> status * bool)
    (E : collaborators) : collaborators :=
  mk_collaborators (allocate_index E) (makeMasterIndex E)
    (add_index_state_component E) (make_chapter_writer E)
    (load_index_state E) (save_index_state E) (finish_checkpointing E)
    (findVolumeChapterBoundaries E) (setActiveChapters E)
    (load_context_status E) (wait_ended_by_freeing E) (get_last_update E)
    (getPage E) (update_index_page_map E) (searchVolumePageCache E)
    (getMasterIndexRecord E) (setMasterIndexRecordChapter E)
    (putMasterIndexRecord E) (removeMasterIndexRecord E)
    (lookupMasterIndexName E) (getRecordFromZone E) answer
    (putRecordInZone E) (removeFromOpenChapter E)
    (executeSparseCacheBarrierMessage E) (isMasterIndexSample E)
    (is_sparse E) (is_chapter_sparse E) (isZoneChapterSparse E)
    (computeIndexRegion E) (mapToPhysicalPage E) (makeUnrecoverable E)
    (logUnrecoverable E) (BYTES_PER_RECORD E) (UDS_CHUNK_NAME_SIZE E).

(** A sparse index whose master index knows no name, while the sparse
    cache answers every search with [cached]. *)
Definition sparse_cached (cached : status * bool) : collaborators :=
  with_searchSparseCacheInZone (fun _ _ _ _ => cached)
    (scripted (UDS_SUCCESS, (0, 0, true)) (UDS_SUCCESS, false) no_record
       false UDS_SUCCESS false true no_triage UDS_SUCCESS LOC_IN_DENSE).

(** The master index cannot be read. *)
Definition lookup_failing : collaborators :=
  mk_collaborators (allocate_index quiet) (makeMasterIndex quiet)
    (add_index_state_component quiet) (make_chapter_writer quiet)
    (load_index_state quiet) (save_index_state quiet)
    (finish_checkpointing quiet) (findVolumeChapterBoundaries quiet)
    (setActiveChapters quiet) (load_context_status quiet)
    (wait_ended_by_freeing quiet) (get_last_update quiet) (getPage quiet)
    (update_index_page_map quiet) (searchVolumePageCache quiet)
    (fun _ _ => (UDS_CORRUPT_DATA, no_record))
    (setMasterIndexRecordChapter quiet) (putMasterIndexRecord quiet)
    (removeMasterIndexRecord quiet) (lookupMasterIndexName quiet)
    (getRecordFromZone quiet) (searchSparseCacheInZone quiet)
    (putRecordInZone quiet) (removeFromOpenChapter quiet)
    (executeSparseCacheBarrierMessage quiet) (isMasterIndexSample quiet)
    (is_sparse quiet) (is_chapter_sparse quiet) (isZoneChapterSparse quiet)
    (computeIndexRegion quiet) (mapToPhysicalPage quiet)
    (makeUnrecoverable quiet) (logUnrecoverable quiet)
    (BYTES_PER_RECORD quiet) (UDS_CHUNK_NAME_SIZE quiet).

(** [emits allowed m]: whatever the history, the computation [m] only adds
    calls that [allowed] accepts. *)
Definition emits {A : Type} (allowed : event -> bool) (m : M A) : Prop :=
  forall tr : trace,
    exists added : list event,
      snd (m tr) = tr ++ added /\ forallb allowed added = true.

(** The calls of a replay: it reads the load context, the volume and the
    master index, and it changes the master index and the index page map
    only. *)
Definition is_replay_call (e : event) : bool :=
  match e with
  | EvSetMasterIndexOpenChapter _ | EvGetLastUpdate
  | EvLoadContextLocked | EvLoadContextSuspended
  | EvPrefetchVolumePages _ _ | EvGetPage _ _ _
  | EvUpdateIndexPageMap _ _ _ _
  | EvGetMasterIndexRecord _ | EvSearchVolumePageCache _ _
  | EvSetMasterIndexRecordChapter _ _ | EvPutMasterIndexRecord _ _ => true
  | _ => false
  end.

(** The calls of a load or a rebuild: those of a replay, the reading of
    the saved state, the search for the boundaries of the volume and the
    update of the zones. *)
Definition is_load_call (e : event) : bool :=
  match e with
  | EvLoadIndexState | EvFindVolumeChapterBoundaries _
  | EvSetActiveChapters _ => true
  | _ => is_replay_call e
  end.

(** The calls of a removal. *)
Definition is_remove_call (e : event) : bool :=
  match e with
  | EvGetMasterIndexRecord _ | EvGetRecordFromZone _ _ _
  | EvRemoveMasterIndexRecord _ | EvRemoveFromOpenChapter _ _ => true
  | _ => false
  end.

(** ** vdoResume.c

    The resume of a VDO is an admin operation: [resume_callback] is run
    once for each phase, on the thread that [get_thread_id_for_phase]
    names, and each run launches one step that later runs the callback
    again.  The functions are embedded over the two things they read and
    write, the state of the VDO and the phase counter of the admin
    completion; a call that leaves vdoResume.c is an event, and the two
    values a run takes from outside (the answer of [start_resuming], the
    result found in the completion) are arguments of the run. *)

Inductive vdo_state : Type :=
| VDO_DIRTY | VDO_NEW | VDO_CLEAN | VDO_READ_ONLY_MODE | VDO_FORCE_REBUILD
| VDO_RECOVERING | VDO_REPLAYING | VDO_REBUILD_FOR_UPGRADE
| VDO_STATE_UNKNOWN (code : Z).

Inductive vdo_result : Type :=
| VDO_SUCCESS | UDS_BAD_STATE | VDO_FAILURE (code : Z).

(** vdoResume.c:37, [resume_phase]. *)
Definition RESUME_PHASE_START : Z := 0.
Definition RESUME_PHASE_ALLOW_READ_ONLY_MODE : Z := 1.
Definition RESUME_PHASE_DEPOT : Z := 2.
Definition RESUME_PHASE_JOURNAL : Z := 3.
Definition RESUME_PHASE_BLOCK_MAP : Z := 4.
Definition RESUME_PHASE_LOGICAL_ZONES : Z := 5.
Definition RESUME_PHASE_PACKER : Z := 6.
Definition RESUME_PHASE_END : Z := 7.

Inductive resume_event : Type :=
| RvAssertAdminOperationType
| RvAssertAdminPhaseThread
| RvStartResuming
| RvSetVdoState (state : vdo_state)
| RvSaveVdoComponentsAsync
| RvCompleteCompletion
| RvFinishCompletion (result : vdo_result)
| RvResetAdminSubTask
| RvSetCompletionResult (result : vdo_result)
| RvAllowReadOnlyModeEntry
| RvResumeSlabDepot
| RvResumeRecoveryJournal
| RvResumeBlockMap
| RvResumeLogicalZones
| RvResumePacker
| RvFinishResumingWithResult (result : vdo_result).

(** The state of the VDO ([get_vdo_state], [set_vdo_state]) and the phase
    of the admin completion, an [unsigned int] counter. *)
Record resuming : Type := mk_resuming {
  state_of_vdo : vdo_state;
  phase : Z
}.

(** vdoResume.c:84 [write_super_block]. *)
Definition write_super_block (state : vdo_state)
  : vdo_state * list resume_event :=
  match state with
  | VDO_CLEAN | VDO_NEW =>
      (VDO_DIRTY, [RvSetVdoState VDO_DIRTY; RvSaveVdoComponentsAsync])
  | VDO_DIRTY | VDO_READ_ONLY_MODE | VDO_FORCE_REBUILD | VDO_RECOVERING
  | VDO_REBUILD_FOR_UPGRADE => (state, [RvCompleteCompletion])
  | VDO_REPLAYING | VDO_STATE_UNKNOWN _ =>
      (state, [RvFinishCompletion UDS_BAD_STATE])
  end.

(** vdoResume.c:114 [resume_callback].  [may_start] is what
    [start_resuming] answers and [completion_result] is the value of
    [completion->result] when the function reads it. *)
Definition resume_callback (may_start : bool)
    (completion_result : vdo_result) (r : resuming)
  : resuming * list resume_event :=
  let asserted := [RvAssertAdminOperationType; RvAssertAdminPhaseThread] in
  let current := phase r in
  let r := mk_resuming (state_of_vdo r) (wrap32 (phase r + 1)) in
  let launch (step : resume_event) :=
    (r, asserted ++ [RvResetAdminSubTask; step]) in
  if current =? RESUME_PHASE_START then
    if may_start then
      let '(state, written) := write_super_block (state_of_vdo r) in
      (mk_resuming state (phase r), asserted ++ RvStartResuming :: written)
    else (r, asserted ++ [RvStartResuming])
  else if current =? RESUME_PHASE_ALLOW_READ_ONLY_MODE
  then launch RvAllowReadOnlyModeEntry
  else if current =? RESUME_PHASE_DEPOT then launch RvResumeSlabDepot
  else if current =? RESUME_PHASE_JOURNAL then launch RvResumeRecoveryJournal
  else if current =? RESUME_PHASE_BLOCK_MAP then launch RvResumeBlockMap
  else if current =? RESUME_PHASE_LOGICAL_ZONES
  then launch RvResumeLogicalZones
  else if current =? RESUME_PHASE_PACKER then launch RvResumePacker
  else if current =? RESUME_PHASE_END
  then (r, asserted ++ [RvFinishResumingWithResult completion_result])
  else
    (r, asserted ++ [RvResetAdminSubTask; RvSetCompletionResult UDS_BAD_STATE;
                     RvFinishResumingWithResult completion_result]).

(** Successive runs of [resume_callback], one for each pair of outside
    values, the oldest first. *)
Fixpoint resume_callbacks (outside : list (bool * vdo_result)) (r : resuming)
  : resuming * list resume_event :=
  match outside with
  | [] => (r, [])
  | (may_start, completion_result) :: rest =>
      let '(r1, events1) := resume_callback may_start completion_result r in
      let '(r2, events2) := resume_callbacks rest r1 in
      (r2, events1 ++ events2)
  end.

(** The steps a resume launches on the parts of the VDO. *)
Definition is_resume_step (e : resume_event) : bool :=
  match e with
  | RvAllowReadOnlyModeEntry | RvResumeSlabDepot | RvResumeRecoveryJournal
  | RvResumeBlockMap | RvResumeLogicalZones | RvResumePacker => true
  | _ => false
  end.

Definition is_finish_resuming (e : resume_event) : bool :=
  match e with
  | RvFinishResumingWithResult _ => true
  | _ => false
  end.

(** The calls that hand the sub-task completion on. *)
Definition hands_completion_on (e : resume_event) : bool :=
  match e with
  | RvSaveVdoComponentsAsync | RvCompleteCompletion
  | RvFinishCompletion _ => true
  | _ => false
  end.

(** ** Properties *)

(** Proof steps on the call monad: [answer H] uses the answer [H] of the
    collaborator whose call is next and brings the history back to the
    form [tr ++ events]. *)
Ltac flatten_trace := rewrite <- ?app_assoc; cbn [app].
Ltac answer H := rewrite H; cbv beta iota; flatten_trace.
Ltac run := unfold bind, call, ret; cbv beta iota; flatten_trace.

(** *** Sentinel of the checkpoint tracking *)

Lemma set_lookupMode_restore (idx : index) (m : IndexLookupMode) :
  set_lookupMode (lookupMode idx) (set_lookupMode m idx) = idx.
Proof. destruct idx; reflexivity. Qed.

(** What [load_index] does once [load_index_state] has reported that a
    replay is required and the caller allows it: the replay starts from
    the last checkpoint, or from chapter 0 when the last checkpoint is the
    sentinel. *)
Lemma load_index_replay (E : collaborators) (idx idx1 : index) (tr : trace) :
  load_index_state E tr idx = (UDS_SUCCESS, true, idx1) ->
  load_index E idx true tr =
    (let '(result, idx2, tr2) :=
       replay_index_from_checkpoint E idx1
         (if last_checkpoint idx1 =? NO_LAST_CHECKPOINT then 0
          else last_checkpoint idx1)
         (tr ++ [EvLoadIndexState]) in
     match result with
     | UDS_SUCCESS =>
         let '(idx3, tr3) :=
           set_active_chapters_from E 0 (zone_count idx2) idx2 tr2 in
         (UDS_SUCCESS, set_loaded_type LOAD_REPLAY idx3, tr3)
     | _ => (result, idx2, tr2)
     end).
Proof.
  intros Hload. unfold load_index, bind, call, ret. rewrite Hload.
  cbv beta iota. cbn [andb negb].
  destruct (last_checkpoint idx1 =? NO_LAST_CHECKPOINT); cbn [negb];
    match goal with
    | |- context [replay_index_from_checkpoint E idx1 ?c ?t] =>
        destruct (replay_index_from_checkpoint E idx1 c t)
          as [[result idx2] tr2]
    end;
    destruct result; try reflexivity;
    destruct (set_active_chapters_from E 0 _ idx2 tr2); reflexivity.
Qed.

(** C1.  The sentinel is [UINT_MAX], the largest 32-bit value, and not the
    largest 64-bit value: [begin_save] with open chapter 0 stores
    4294967295; the genuine checkpoint of open chapter 4294967296 is the same
    number; and [load_index] takes a last checkpoint of 2^64 - 1 for a
    chapter, so that the replay of a volume holding chapters 0 to 2 starts
    at chapter 2^64 - 1 and visits no chapter, while from the 32-bit
    sentinel it starts at chapter 0. *)
Theorem no_last_checkpoint_is_32_bit :
  NO_LAST_CHECKPOINT = 4294967295 /\
  NO_LAST_CHECKPOINT <> UINT64_MAX /\
  last_checkpoint (begin_save fresh_index false 0) = 4294967295 /\
  last_checkpoint (begin_save fresh_index false 4294967296)
    = last_checkpoint (begin_save fresh_index false 0) /\
  snd (load_index (holding 2 true)
         (set_last_checkpoint UINT64_MAX fresh_index) true [])
    = [EvLoadIndexState;
       EvFindVolumeChapterBoundaries LOOKUP_FOR_REBUILD;
       EvSetMasterIndexOpenChapter 3;
       EvSetMasterIndexOpenChapter 18446744073709551615;
       EvGetLastUpdate;
       EvSetMasterIndexOpenChapter 3;
       EvGetLastUpdate;
       EvSetActiveChapters 0] /\
  firstn 4
    (snd (load_index (holding 2 true)
            (set_last_checkpoint NO_LAST_CHECKPOINT fresh_index) true []))
    = [EvLoadIndexState;
       EvFindVolumeChapterBoundaries LOOKUP_FOR_REBUILD;
       EvSetMasterIndexOpenChapter 3;
       EvSetMasterIndexOpenChapter 0].
Proof.
  repeat split; try reflexivity.
  vm_compute. discriminate.
Qed.

(** *** The window of active chapters *)

Lemma strict_chapter_window_weaken (idx : index) :
  strict_chapter_window idx -> chapter_window idx.
Proof. unfold strict_chapter_window, chapter_window. lia. Qed.

Lemma wrap64_small (z : Z) : 0 <= z < 2 ^ 64 -> wrap64 z = z.
Proof. intros H. unfold wrap64. apply Z.mod_small. exact H. Qed.

Lemma same_chapters_refl (a : index) : same_chapters a a.
Proof. unfold same_chapters. auto. Qed.

Lemma same_chapters_trans (a b c : index) :
  same_chapters a b -> same_chapters b c -> same_chapters a c.
Proof.
  unfold same_chapters. intros (H1 & H2 & H3) (H4 & H5 & H6).
  repeat split; congruence.
Qed.

Lemma same_chapters_strict (a b : index) :
  same_chapters a b -> strict_chapter_window a -> strict_chapter_window b.
Proof.
  unfold same_chapters, strict_chapter_window.
  intros (H1 & H2 & H3). rewrite H1, H2, H3. auto.
Qed.

Lemma advance_active_chapters_strict (idx : index) :
  0 < chapters_per_volume (volume_geometry idx) ->
  0 <= oldest_virtual_chapter idx ->
  newest_virtual_chapter idx < UINT64_MAX ->
  strict_chapter_window idx ->
  strict_chapter_window (advance_active_chapters idx).
Proof.
  unfold strict_chapter_window, UINT64_MAX. intros Hc Ho Hn [Hle Hlt].
  unfold advance_active_chapters, are_same_physical_chapter,
    map_to_physical_chapter.
  destruct idx as [ex hs lt lc zc zs o n l p mi lm g]. cbn in *.
  rewrite wrap64_small by lia.
  destruct (Z.eqb_spec ((n + 1) mod chapters_per_volume g)
              (o mod chapters_per_volume g)) as [Heq | Hne]; cbn.
  - rewrite wrap64_small by lia. lia.
  - split; [lia |].
    assert (n + 1 - o <> chapters_per_volume g) as Hd.
    { intros Hd. apply Hne.
      replace (n + 1) with (o + 1 * chapters_per_volume g) by lia.
      apply Z_mod_plus_full. }
    lia.
Qed.

Lemma set_active_chapters_from_same (E : collaborators) (n i : nat)
    (idx : index) (tr : trace) :
  same_chapters idx (fst (set_active_chapters_from E i n idx tr)).
Proof.
  revert i idx tr. induction n as [| n IH]; intros i idx tr.
  - apply same_chapters_refl.
  - cbn [set_active_chapters_from]. unfold bind, call.
    eapply same_chapters_trans; [| apply IH].
    unfold same_chapters. destruct idx; cbn. auto.
Qed.

Lemma check_for_suspend_same (E : collaborators) (idx : index) (tr : trace) :
  same_chapters idx (snd (fst (check_for_suspend E idx tr))).
Proof.
  unfold check_for_suspend, bind, call, ret.
  destruct (load_context idx); [| apply same_chapters_refl].
  destruct (load_context_status E tr); cbn;
    unfold same_chapters; destruct idx; cbn; auto.
Qed.

Lemma replay_chapters_from_same (E : collaborators) (n : nat) (idx : index)
    (old : IndexLookupMode) (from_vcn upto_vcn vcn : Z) (tr : trace) :
  same_chapters idx
    (snd (fst (replay_chapters_from E idx old from_vcn upto_vcn vcn n tr))).
Proof.
  revert idx vcn tr. induction n as [| n IH]; intros idx vcn tr.
  - apply same_chapters_refl.
  - cbn [replay_chapters_from]. unfold bind at 1.
    pose proof (check_for_suspend_same E idx tr) as Hs.
    destruct (check_for_suspend E idx tr) as [[stop idx1] tr1].
    cbn [fst snd] in Hs. cbv beta iota.
    destruct stop; [exact Hs |].
    unfold bind, call, ret.
    match goal with
    | |- context [rebuild_index_page_map E idx1 vcn ?t] =>
        destruct (rebuild_index_page_map E idx1 vcn t) as [result tr2]
    end.
    assert (same_chapters idx (set_lookupMode old idx1)) as Hrestore.
    { eapply same_chapters_trans; [exact Hs |].
      unfold same_chapters. destruct idx1; cbn. auto. }
    destruct result; try exact Hrestore.
    match goal with
    | |- context [replay_record_pages_from E idx1 vcn ?c ?b ?j ?m ?t] =>
        destruct (replay_record_pages_from E idx1 vcn c b j m t)
          as [returned tr3]
    end.
    destruct returned; [exact Hrestore |].
    eapply same_chapters_trans; [exact Hs | apply IH].
Qed.

Lemma replay_volume_same (E : collaborators) (idx : index) (from_vcn : Z)
    (tr : trace) :
  same_chapters idx (snd (fst (replay_volume E idx from_vcn tr))).
Proof.
  unfold replay_volume, bind, call, ret.
  match goal with
  | |- context [replay_chapters_from E ?i ?o ?f ?u ?v ?n ?t] =>
      pose proof (replay_chapters_from_same E n i o f u v t) as Hs;
      destruct (replay_chapters_from E i o f u v n t) as [[returned idx1] tr1]
  end.
  cbn [fst snd] in Hs.
  assert (same_chapters idx idx1) as Hs1.
  { eapply same_chapters_trans; [| exact Hs].
    unfold same_chapters. destruct idx; cbn. auto. }
  destruct returned; cbn [fst snd]; [exact Hs1 |].
  eapply same_chapters_trans; [exact Hs1 |].
  unfold same_chapters. destruct idx1; cbn. auto.
Qed.

Lemma replay_boundaries_strict (E : collaborators) (idx : index)
    (last_checkpoint_chapter lowest highest : Z) (tr : trace) :
  findVolumeChapterBoundaries E tr LOOKUP_FOR_REBUILD
    = (UDS_SUCCESS, (lowest, highest, false)) ->
  0 <= lowest -> lowest <= highest -> highest < UINT64_MAX ->
  highest - lowest < chapters_per_volume (volume_geometry idx) ->
  strict_chapter_window
    (snd (fst (replay_index_from_checkpoint E idx last_checkpoint_chapter tr))).
Proof.
  unfold UINT64_MAX. intros Hfind Hlo Hle Hhi Hspan.
  unfold replay_index_from_checkpoint, bind, call.
  cbn [lookupMode set_lookupMode]. rewrite Hfind. cbv beta iota.
  destruct (Z.gtb_spec lowest highest) as [Hgt | _]; [lia |].
  eapply same_chapters_strict; [apply replay_volume_same |].
  unfold strict_chapter_window, wrap64.
  destruct idx as [ex hs lt lc zc zs o n l p mi lm g]. cbn in *.
  match goal with
  | |- context [if ?a =? ?b then _ else _] =>
      destruct (Z.eqb_spec a b) as [Heq | Hne]
  end; cbn; Z.div_mod_to_equations; lia.
Qed.

Lemma rebuild_boundaries_strict (E : collaborators) (idx idx' : index)
    (result : status) (lowest highest : Z) (is_empty : bool)
    (tr tr' : trace) :
  findVolumeChapterBoundaries E tr LOOKUP_FOR_REBUILD
    = (result, (lowest, highest, is_empty)) ->
  0 <= lowest -> highest < UINT64_MAX ->
  0 < chapters_per_volume (volume_geometry idx) ->
  rebuild_index E idx tr = (UDS_SUCCESS, idx', tr') ->
  strict_chapter_window idx'.
Proof.
  unfold UINT64_MAX. intros Hfind Hlo Hhi Hcpv.
  unfold rebuild_index, bind, call.
  cbn [lookupMode set_lookupMode]. rewrite Hfind. cbv beta iota.
  unfold logFatalWithStringError, ret.
  destruct result; try discriminate.
  destruct (Z.gtb_spec lowest highest) as [Hgt | Hle]; [discriminate |].
  match goal with
  | |- context [if wrap64 (?n - ?o) >? ?c then _ else _] =>
      destruct (Z.gtb_spec (wrap64 (n - o)) c) as [Hbig | Hfit];
        [discriminate |]
  end.
  destruct is_empty.
  - intros Heq. injection Heq as <- _.
    unfold strict_chapter_window.
    destruct idx as [ex hs lt lc zc zs o n l p mi lm g]. cbn in *. lia.
  - match goal with
    | |- context [replay_volume E ?i ?f ?t] =>
        pose proof (replay_volume_same E i f t) as Hs;
        destruct (replay_volume E i f t) as [[r idx2] tr2]
    end.
    cbn [fst snd] in Hs. destruct r; try discriminate.
    pose proof (set_active_chapters_from_same E (zone_count idx2) 0 idx2 tr2)
      as Hz.
    destruct (set_active_chapters_from E 0 (zone_count idx2) idx2 tr2)
      as [idx3 tr3].
    cbn [fst] in Hz. intros Heq. injection Heq as <- _.
    assert (same_chapters idx3 (set_loaded_type LOAD_REBUILD idx3)) as Hl.
    { unfold same_chapters. destruct idx3; cbn. auto. }
    eapply same_chapters_strict; [exact Hl |].
    eapply same_chapters_strict; [exact Hz |].
    eapply same_chapters_strict; [exact Hs |].
    clear Hs Hz Hl. revert Hfit.
    unfold strict_chapter_window, wrap64.
    destruct idx as [ex hs lt lc zc zs o n l p mi lm g]. cbn in *.
    match goal with
    | |- context [if ?a =? ?b then _ else _] =>
        destruct (Z.eqb_spec a b) as [Heq | Hne]
    end; cbn; intros Hfit; Z.div_mod_to_equations; lia.
Qed.

(** [replay_index_from_checkpoint] does not look at the span of the
    boundaries: when they are wider than the ring it sets the chapter
    bounds to them all the same and goes on to replay, whatever the replay
    then returns. *)
Lemma replay_index_from_checkpoint_unchecked (E : collaborators)
    (idx : index) (last_checkpoint_chapter lowest highest : Z) (tr : trace) :
  findVolumeChapterBoundaries E tr LOOKUP_FOR_REBUILD
    = (UDS_SUCCESS, (lowest, highest, false)) ->
  0 <= lowest -> lowest <= highest -> highest < UINT64_MAX ->
  0 <= chapters_per_volume (volume_geometry idx) ->
  chapters_per_volume (volume_geometry idx) < highest + 1 - lowest ->
  let replayed :=
    snd (fst (replay_index_from_checkpoint E idx last_checkpoint_chapter tr))
  in
  oldest_virtual_chapter replayed = lowest /\
  newest_virtual_chapter replayed = highest + 1 /\
  ~ chapter_window replayed.
Proof.
  unfold UINT64_MAX. intros Hfind Hlo Hle Hhi Hcpv Hwide. cbv zeta.
  unfold replay_index_from_checkpoint, bind, call.
  cbn [lookupMode set_lookupMode]. rewrite Hfind. cbv beta iota.
  destruct (Z.gtb_spec lowest highest) as [Hgt | _]; [lia |].
  match goal with
  | |- context [replay_volume E ?i ?f ?t] =>
      pose proof (replay_volume_same E i f t) as (Ho & Hn & Hg);
      destruct (replay_volume E i f t) as [[r idx2] tr2]
  end.
  cbn [fst snd] in *. unfold chapter_window.
  rewrite <- Ho, <- Hn, <- Hg. clear Ho Hn Hg.
  destruct idx as [ex hs lt lc zc zs o n l p mi lm g]. cbn in *.
  rewrite (wrap64_small (highest + 1)) by lia.
  rewrite (wrap64_small (lowest + chapters_per_volume g)) by lia.
  destruct (Z.eqb_spec (highest + 1) (lowest + chapters_per_volume g))
    as [Heq | Hne]; [lia |].
  cbn. repeat split; lia.
Qed.

(** C4.  The window is not kept by [replay_index_from_checkpoint].  On a
    ring of 8 chapters and a volume whose boundaries are found as the
    chapters 3 to 20, [replay_index_from_checkpoint] sets the chapter bounds
    to 3 and 21, replays and succeeds: [make_index], asked to load with a
    rebuild allowed, hands out an index loaded by replay whose newest
    chapter is 18 past its oldest, outside the window
    [newest - oldest <= chapters_per_volume].  [rebuild_index], given the
    same index and the same volume, rejects these boundaries with
    [UDS_CORRUPT_COMPONENT]. *)
Theorem replay_index_from_checkpoint_overfills :
  (exists (idx : index) (tr : trace),
     replay_index_from_checkpoint overgrown fresh_index 0 []
       = (UDS_SUCCESS, idx, tr) /\
     oldest_virtual_chapter idx = 3 /\
     newest_virtual_chapter idx = 21 /\
     chapters_per_volume (volume_geometry idx) = 8 /\
     ~ chapter_window idx) /\
  (exists (idx : index) (tr : trace),
     make_index overgrown 1 LOAD_REBUILD None [] = (UDS_SUCCESS, Some idx, tr) /\
     loaded_type idx = LOAD_REPLAY /\
     oldest_virtual_chapter idx = 3 /\
     newest_virtual_chapter idx = 21 /\
     chapters_per_volume (volume_geometry idx) = 8 /\
     ~ chapter_window idx) /\
  fst (fst (rebuild_index overgrown fresh_index [])) = UDS_CORRUPT_COMPONENT.
Proof.
  split; [| split].
  - eexists. eexists. split; [vm_compute; reflexivity |].
    repeat (split; [reflexivity |]).
    intros [_ H]. vm_compute in H. apply H. reflexivity.
  - eexists. eexists. split; [vm_compute; reflexivity |].
    repeat (split; [reflexivity |]).
    intros [_ H]. vm_compute in H. apply H. reflexivity.
  - vm_compute. reflexivity.
Qed.

(** *** Replay from a checkpoint *)

(** C5.  When the boundaries of the volume are found ([lowest <= highest],
    chapter numbers below 2^64 - 1, [chapters_per_volume] an unsigned
    int): on a non-empty volume [replay_index_from_checkpoint] sets
    [oldest = lowest] and [newest = highest + 1], moves [oldest] one up
    when [newest = lowest + chapters_per_volume], and goes on as
    [replay_volume] from [max last_checkpoint_chapter oldest]; on an empty
    volume with a non-zero [newest_virtual_chapter] it fails with
    [UDS_CORRUPT_COMPONENT] and leaves the index as it was. *)
Theorem replay_index_from_checkpoint_boundaries (E : collaborators)
    (idx : index) (last_checkpoint_chapter lowest highest : Z)
    (is_empty : bool) (tr : trace) :
  findVolumeChapterBoundaries E tr LOOKUP_FOR_REBUILD
    = (UDS_SUCCESS, (lowest, highest, is_empty)) ->
  0 <= lowest -> lowest <= highest -> highest < UINT64_MAX ->
  0 <= chapters_per_volume (volume_geometry idx) <= UINT_MAX ->
  (is_empty = false ->
   let newest := highest + 1 in
   let oldest :=
     if newest =? lowest + chapters_per_volume (volume_geometry idx)
     then lowest + 1 else lowest in
   replay_index_from_checkpoint E idx last_checkpoint_chapter tr
     = replay_volume E
         (set_oldest_virtual_chapter oldest
            (set_newest_virtual_chapter newest idx))
         (Z.max last_checkpoint_chapter oldest)
         (tr ++ [EvFindVolumeChapterBoundaries LOOKUP_FOR_REBUILD])) /\
  (is_empty = true -> newest_virtual_chapter idx <> 0 ->
   replay_index_from_checkpoint E idx last_checkpoint_chapter tr
     = (UDS_CORRUPT_COMPONENT, idx,
        tr ++ [EvFindVolumeChapterBoundaries LOOKUP_FOR_REBUILD])).
Proof.
  unfold UINT64_MAX, UINT_MAX. intros Hfind Hlo Hle Hhi Hcpv.
  unfold replay_index_from_checkpoint, bind, call, ret.
  cbn [lookupMode set_lookupMode]. rewrite Hfind. cbv beta iota.
  destruct (Z.gtb_spec lowest highest) as [Hgt | _]; [lia |].
  split.
  - intros ->. cbv zeta.
    assert (wrap64 (highest + 1) = highest + 1) as Hw by
      (apply wrap64_small; lia).
    assert ((highest + 1
             =? wrap64 (lowest + chapters_per_volume (volume_geometry idx)))
            = (highest + 1
               =? lowest + chapters_per_volume (volume_geometry idx)))
      as Hfull.
    { unfold wrap64.
      destruct (Z.eqb_spec (highest + 1)
                  (lowest + chapters_per_volume (volume_geometry idx)))
        as [Heq | Hne].
      - apply Z.eqb_eq. rewrite Z.mod_small; lia.
      - apply Z.eqb_neq. Z.div_mod_to_equations. lia. }
    destruct idx as [ex hs lt lc zc zs o n l p mi lm g].
    cbn [set_lookupMode set_oldest_virtual_chapter set_newest_virtual_chapter
         volume_geometry oldest_virtual_chapter newest_virtual_chapter
         existed has_saved_open_chapter loaded_type load_context zone_count
         zones last_checkpoint prev_checkpoint master_index lookupMode] in *.
    rewrite Hw, Hfull.
    destruct (highest + 1 =? lowest + chapters_per_volume g);
      cbn [set_oldest_virtual_chapter set_newest_virtual_chapter
           volume_geometry oldest_virtual_chapter newest_virtual_chapter
           existed has_saved_open_chapter loaded_type load_context zone_count
           zones last_checkpoint prev_checkpoint master_index lookupMode];
      rewrite ?(wrap64_small (lowest + 1)) by lia;
      match goal with
      | |- context [if ?a <? ?b then _ else _] =>
          destruct (Z.ltb_spec a b);
            [rewrite Z.max_r by lia | rewrite Z.max_l by lia]; reflexivity
      end.
  - intros -> Hnewest.
    destruct (Z.eqb_spec (newest_virtual_chapter
                            (set_lookupMode (lookupMode idx)
                               (set_lookupMode LOOKUP_FOR_REBUILD idx))) 0)
      as [Hz | _].
    + exfalso. apply Hnewest. destruct idx; exact Hz.
    + cbn [negb]. rewrite set_lookupMode_restore. reflexivity.
Qed.

Lemma replay_index_from_checkpoint_boundaries_witness :
  replay_index_from_checkpoint (holding 7 true) fresh_index 3 []
    = replay_volume (holding 7 true)
        (set_oldest_virtual_chapter 1
           (set_newest_virtual_chapter 8 fresh_index))
        3 [EvFindVolumeChapterBoundaries LOOKUP_FOR_REBUILD] /\
  replay_index_from_checkpoint quiet brimful_index 3 []
    = (UDS_CORRUPT_COMPONENT, brimful_index,
       [EvFindVolumeChapterBoundaries LOOKUP_FOR_REBUILD]).
Proof.
  assert (0 <= 0) as H0 by (vm_compute; discriminate).
  assert (0 <= 7) as H07 by (vm_compute; discriminate).
  assert (0 <= 8 <= UINT_MAX) as H8
    by (split; vm_compute; discriminate).
  split.
  - exact (proj1
             (replay_index_from_checkpoint_boundaries (holding 7 true)
                fresh_index 3 0 7 false [] eq_refl H0 H07 eq_refl H8)
             eq_refl).
  - refine (proj2
              (replay_index_from_checkpoint_boundaries quiet brimful_index
                 3 0 0 true [] eq_refl H0 H0 eq_refl H8)
              eq_refl _).
    vm_compute. discriminate.
Defined.

(** *** Loading in [make_index] *)

Lemma free_index_trace (idx : index) (tr : trace) :
  free_index idx tr = (tt, tr ++ free_index_events idx).
Proof.
  unfold free_index, free_index_events, bind, call, ret.
  destruct (master_index idx); cbv beta iota;
    rewrite <- !app_assoc; reflexivity.
Qed.

(** Past its allocations, [make_index] for the load types [LOAD_LOAD] and
    [LOAD_REBUILD] on an index that existed is: [load_index], allowing a
    replay when the load type is [LOAD_REBUILD]; the switch on its result;
    the common end. *)
Lemma make_index_load_phase (E : collaborators) (zone_count : nat)
    (lt : load_type) (lc : option IndexLoadStatus) (tr tr' : trace)
    (idx : index) :
  make_index_prepared E zone_count lt lc tr idx tr' ->
  lt = LOAD_LOAD \/ lt = LOAD_REBUILD ->
  existed idx = true ->
  make_index E zone_count lt lc tr =
    (let '(result, idx1, tr1) :=
       load_index E idx (load_type_eqb lt LOAD_REBUILD) tr' in
     let '(result, idx2, tr2) := after_load_index E lt result idx1 tr1 in
     finish_make_index E result idx2 tr2).
Proof.
  intros (idx0 & mi & Ha & Hm & Hc1 & Hc2 & Hw & -> & ->) Hlt Hex.
  unfold make_index_preamble in *. cbn [firstn] in *.
  unfold make_index, bind, call, ret.
  answer Ha. answer Hm. answer Hc1. answer Hc2. answer Hw.
  rewrite Hex. cbn [negb].
  destruct Hlt as [-> | ->]; cbn [load_type_eqb orb];
    match goal with
    | |- context [load_index E ?i ?b ?t] =>
        destruct (load_index E i b t) as [[result idx1] tr1]
    end;
    match goal with
    | |- context [after_load_index E ?l ?r ?i ?t] =>
        destruct (after_load_index E l r i t) as [[result2 idx2] tr2]
    end; reflexivity.
Qed.

(** C2.  Let [load_index_state] report that a replay is required.  Then
    [load_index] without the permission to replay fails with
    [UDS_INDEX_NOT_SAVED_CLEANLY]; with the permission, when
    [replay_index_from_checkpoint] succeeds, it succeeds with
    [loaded_type = LOAD_REPLAY].  [make_index] gives the permission for
    [LOAD_REBUILD] and withholds it for [LOAD_LOAD]: for [LOAD_LOAD] it
    fails on [UDS_INDEX_NOT_SAVED_CLEANLY], freeing the index; for
    [LOAD_REBUILD] with a successful replay it returns an index loaded by
    replay. *)
Theorem replay_needs_permission (E : collaborators) (nzones : nat)
    (lt : load_type) (lc : option IndexLoadStatus) (tr0 tr tr2 : trace)
    (idx idx1 idx2 : index) :
  load_index_state E tr idx = (UDS_SUCCESS, true, idx1) ->
  (load_index E idx false tr
     = (UDS_INDEX_NOT_SAVED_CLEANLY, idx1, tr ++ [EvLoadIndexState])) /\
  (replay_index_from_checkpoint E idx1
     (if last_checkpoint idx1 =? NO_LAST_CHECKPOINT then 0
      else last_checkpoint idx1)
     (tr ++ [EvLoadIndexState]) = (UDS_SUCCESS, idx2, tr2) ->
   exists (idx3 : index) (tr3 : trace),
     load_index E idx true tr = (UDS_SUCCESS, idx3, tr3) /\
     loaded_type idx3 = LOAD_REPLAY) /\
  (make_index_prepared E nzones lt lc tr0 idx tr ->
   existed idx = true ->
   (lt = LOAD_LOAD ->
    make_index E nzones lt lc tr0
      = (logUnrecoverable E UDS_INDEX_NOT_SAVED_CLEANLY, None,
         tr ++ EvLoadIndexState :: free_index_events idx1)) /\
   (lt = LOAD_REBUILD ->
    replay_index_from_checkpoint E idx1
      (if last_checkpoint idx1 =? NO_LAST_CHECKPOINT then 0
       else last_checkpoint idx1)
      (tr ++ [EvLoadIndexState]) = (UDS_SUCCESS, idx2, tr2) ->
    exists (idx3 : index) (tr3 : trace),
      make_index E nzones lt lc tr0 = (UDS_SUCCESS, Some idx3, tr3) /\
      loaded_type idx3 = LOAD_REPLAY)).
Proof.
  intros Hstate.
  assert (load_index E idx false tr
          = (UDS_INDEX_NOT_SAVED_CLEANLY, idx1, tr ++ [EvLoadIndexState]))
    as Hrefused.
  { unfold load_index. run. answer Hstate. reflexivity. }
  assert (replay_index_from_checkpoint E idx1
            (if last_checkpoint idx1 =? NO_LAST_CHECKPOINT then 0
             else last_checkpoint idx1)
            (tr ++ [EvLoadIndexState]) = (UDS_SUCCESS, idx2, tr2) ->
          exists (idx3 : index) (tr3 : trace),
            load_index E idx true tr = (UDS_SUCCESS, idx3, tr3) /\
            loaded_type idx3 = LOAD_REPLAY) as Hreplayed.
  { intros Hreplay. rewrite (load_index_replay E idx idx1 tr Hstate).
    rewrite Hreplay.
    destruct (set_active_chapters_from E 0 (zone_count idx2) idx2 tr2)
      as [idx3 tr3].
    exists (set_loaded_type LOAD_REPLAY idx3), tr3.
    split; [reflexivity | destruct idx3; reflexivity]. }
  split; [exact Hrefused |]. split; [exact Hreplayed |].
  intros Hprepared Hexisted. split.
  - intros ->.
    rewrite (make_index_load_phase E nzones LOAD_LOAD lc tr0 tr idx
               Hprepared (or_introl eq_refl) Hexisted).
    cbn [load_type_eqb]. rewrite Hrefused.
    unfold after_load_index, finish_make_index. cbn [load_type_eqb]. run.
    rewrite free_index_trace. flatten_trace. reflexivity.
  - intros -> Hreplay.
    destruct (Hreplayed Hreplay) as (idx3 & tr3 & Hload & Htype).
    rewrite (make_index_load_phase E nzones LOAD_REBUILD lc tr0 tr idx
               Hprepared (or_intror eq_refl) Hexisted).
    cbn [load_type_eqb]. rewrite Hload.
    unfold after_load_index, finish_make_index. run.
    destruct (load_context idx3); cbv beta iota; eexists; eexists;
      (split; [reflexivity |]); rewrite <- Htype; destruct idx3; reflexivity.
Qed.

Lemma scripted_prepared (E : collaborators) (lt : load_type) :
  allocate_index E = (fun _ _ _ => (UDS_SUCCESS, fresh_index)) ->
  makeMasterIndex E = (fun _ _ => (UDS_SUCCESS, 1%nat)) ->
  add_index_state_component E = (fun _ _ => UDS_SUCCESS) ->
  make_chapter_writer E = (fun _ => UDS_SUCCESS) ->
  make_index_prepared E 1 lt None [] prepared_index (make_index_preamble 1 lt).
Proof.
  intros Ha Hm Hc Hw. exists fresh_index, 1%nat.
  rewrite Ha, Hm, Hc, Hw. repeat split; reflexivity.
Defined.

Lemma replay_needs_permission_witness :
  load_index (holding 2 true) prepared_index false
    (make_index_preamble 1 LOAD_LOAD)
    = (UDS_INDEX_NOT_SAVED_CLEANLY, prepared_index,
       make_index_preamble 1 LOAD_LOAD ++ [EvLoadIndexState]) /\
  make_index (holding 2 true) 1 LOAD_LOAD None []
    = (UDS_OTHER 131072, None,
       make_index_preamble 1 LOAD_LOAD
         ++ EvLoadIndexState :: free_index_events prepared_index) /\
  exists (idx3 : index) (tr3 : trace),
    make_index (holding 2 true) 1 LOAD_REBUILD None []
      = (UDS_SUCCESS, Some idx3, tr3) /\
    loaded_type idx3 = LOAD_REPLAY.
Proof.
  pose (E := holding 2 true).
  pose (replayed lt :=
          replay_index_from_checkpoint E prepared_index 0
            (make_index_preamble 1 lt ++ [EvLoadIndexState])).
  pose proof
    (fun lt =>
       replay_needs_permission E 1 lt None [] (make_index_preamble 1 lt)
         (snd (replayed lt)) prepared_index prepared_index
         (snd (fst (replayed lt))) eq_refl) as H.
  destruct (H LOAD_LOAD) as (Hrefused & _ & Hmake).
  destruct (Hmake (scripted_prepared E LOAD_LOAD eq_refl eq_refl eq_refl
                     eq_refl) eq_refl) as (Hload & _).
  destruct (H LOAD_REBUILD) as (_ & _ & Hmake').
  destruct (Hmake' (scripted_prepared E LOAD_REBUILD eq_refl eq_refl eq_refl
                      eq_refl) eq_refl) as (_ & Hrebuild).
  split; [exact Hrefused |]. split; [exact (Hload eq_refl) |].
  apply (Hrebuild eq_refl). vm_compute. reflexivity.
Defined.

(** C3.  In [make_index] with load type [LOAD_REBUILD], past the
    allocations: when [load_index] fails with [ENOMEM], the only calls
    that follow are those of [free_index], so [rebuild_index] is not
    called, and the function returns the error through [logUnrecoverable];
    when [load_index] succeeds, [make_index] goes straight to its end;
    for every other result it goes on with [rebuild_index]. *)
Theorem no_rebuild_on_ENOMEM (E : collaborators) (nzones : nat)
    (lc : option IndexLoadStatus) (tr0 tr tr1 : trace) (idx idx1 : index)
    (result : status) :
  make_index_prepared E nzones LOAD_REBUILD lc tr0 idx tr ->
  existed idx = true ->
  load_index E idx true tr = (result, idx1, tr1) ->
  (result = ENOMEM ->
   make_index E nzones LOAD_REBUILD lc tr0
     = (logUnrecoverable E ENOMEM, None, tr1 ++ free_index_events idx1)) /\
  (result = UDS_SUCCESS ->
   make_index E nzones LOAD_REBUILD lc tr0
     = finish_make_index E UDS_SUCCESS idx1 tr1) /\
  (result <> UDS_SUCCESS -> result <> ENOMEM ->
   make_index E nzones LOAD_REBUILD lc tr0
     = (let '(result2, idx2, tr2) := rebuild_index E idx1 tr1 in
        finish_make_index E result2 idx2 tr2)).
Proof.
  intros Hprepared Hexisted Hload.
  rewrite (make_index_load_phase E nzones LOAD_REBUILD lc tr0 tr idx
             Hprepared (or_intror eq_refl) Hexisted).
  cbn [load_type_eqb]. rewrite Hload.
  split; [| split].
  - intros ->. unfold after_load_index, finish_make_index. run.
    rewrite free_index_trace. reflexivity.
  - intros ->. reflexivity.
  - intros Hfailed Hmemory. unfold after_load_index.
    cbn [load_type_eqb]. unfold ret.
    destruct result; try reflexivity; contradiction.
Qed.

Lemma no_rebuild_on_ENOMEM_witness :
  make_index (unreadable ENOMEM) 1 LOAD_REBUILD None []
    = (UDS_OTHER 131072, None,
       make_index_preamble 1 LOAD_REBUILD
         ++ EvLoadIndexState :: free_index_events prepared_index).
Proof.
  pose (E := unreadable ENOMEM).
  exact (proj1
           (no_rebuild_on_ENOMEM E 1 None []
              (make_index_preamble 1 LOAD_REBUILD)
              (make_index_preamble 1 LOAD_REBUILD ++ [EvLoadIndexState])
              prepared_index prepared_index ENOMEM
              (scripted_prepared E LOAD_REBUILD eq_refl eq_refl eq_refl
                 eq_refl)
              eq_refl eq_refl)
           eq_refl).
Defined.

(** *** Replaying a record *)

Ltac case_put :=
  match goal with
  | |- context [putMasterIndexRecord ?E ?t ?r ?v] =>
      destruct (putMasterIndexRecord E t r v); cbv beta iota;
        flatten_trace; reflexivity
  end.

Ltac case_set :=
  match goal with
  | |- context [setMasterIndexRecordChapter ?E ?t ?r ?v] =>
      destruct (setMasterIndexRecordChapter E t r v); cbv beta iota;
        flatten_trace; reflexivity
  end.


(** C6.  [replay_record] returns success at once, with no call at all,
    for a name that is not a sample in a chapter that will be sparse.
    Otherwise, after a successful lookup: a collision record of the same
    chapter ends the function with success and no further call; a found
    record that is not a collision and points at the same chapter is put
    ([putMasterIndexRecord], not [setMasterIndexRecordChapter]); a
    collision record of another chapter is updated; a name not found is
    put; a found non-collision record of another chapter is updated or
    put as [searchVolumePageCache] says.  The status returned after a put
    or an update is the result of that call with [UDS_DUPLICATE_NAME] and
    [UDS_OVERFLOW] turned into success and every other result
    unchanged. *)
Theorem replay_record_cases (E : collaborators) (idx : index)
    (name : uds_chunk_name) (vcn : Z) (sparse : bool) (tr : trace)
    (record : MasterIndexRecord) :
  (sparse = true -> isMasterIndexSample E name = false ->
   replay_record E idx name vcn sparse tr = (UDS_SUCCESS, tr)) /\
  (sparse && negb (isMasterIndexSample E name) = false ->
   getMasterIndexRecord E tr name = (UDS_SUCCESS, record) ->
   let tr1 := tr ++ [EvGetMasterIndexRecord name] in
   let put :=
     (replay_status (putMasterIndexRecord E tr1 record vcn),
      tr ++ [EvGetMasterIndexRecord name; EvPutMasterIndexRecord record vcn])
   in
   let set :=
     (replay_status (setMasterIndexRecordChapter E tr1 record vcn),
      tr ++ [EvGetMasterIndexRecord name;
             EvSetMasterIndexRecordChapter record vcn]) in
   (isFound record = true -> isCollision record = true ->
    virtualChapter record = vcn ->
    replay_record E idx name vcn sparse tr = (UDS_SUCCESS, tr1)) /\
   (isFound record = true -> isCollision record = false ->
    virtualChapter record = vcn ->
    replay_record E idx name vcn sparse tr = put) /\
   (isFound record = true -> isCollision record = true ->
    virtualChapter record <> vcn ->
    replay_record E idx name vcn sparse tr = set) /\
   (isFound record = false ->
    replay_record E idx name vcn sparse tr = put) /\
   (isFound record = true -> isCollision record = false ->
    virtualChapter record <> vcn ->
    forall update_record : bool,
      searchVolumePageCache E tr1 name (virtualChapter record)
        = (UDS_SUCCESS, update_record) ->
      let tr2 :=
        tr ++ [EvGetMasterIndexRecord name;
               EvSearchVolumePageCache name (virtualChapter record)] in
      replay_record E idx name vcn sparse tr
        = if update_record
          then (replay_status (setMasterIndexRecordChapter E tr2 record vcn),
                tr2 ++ [EvSetMasterIndexRecordChapter record vcn])
          else (replay_status (putMasterIndexRecord E tr2 record vcn),
                tr2 ++ [EvPutMasterIndexRecord record vcn]))) /\
  (replay_status UDS_DUPLICATE_NAME = UDS_SUCCESS /\
   replay_status UDS_OVERFLOW = UDS_SUCCESS /\
   forall result : status,
     result <> UDS_DUPLICATE_NAME -> result <> UDS_OVERFLOW ->
     replay_status result = result).
Proof.
  split; [| split].
  - intros -> Hsample. unfold replay_record. rewrite Hsample. reflexivity.
  - intros Hkept Hlookup. unfold replay_record. rewrite Hkept. run.
    answer Hlookup. cbv zeta.
    repeat split.
    + intros -> -> ->. rewrite Z.eqb_refl. reflexivity.
    + intros -> -> ->. rewrite Z.eqb_refl. cbv beta iota.
      case_put.
    + intros -> -> Hother. apply Z.eqb_neq in Hother. rewrite Hother.
      cbv beta iota.
      case_set.
    + intros ->. cbv beta iota.
      case_put.
    + intros -> -> Hother update_record Hsearch.
      apply Z.eqb_neq in Hother. rewrite Hother. cbv beta iota.
      answer Hsearch.
      destruct update_record; cbv beta iota; flatten_trace.
      * case_set.
      * case_put.
  - repeat split. intros result Hdup Hover.
    destruct result; try reflexivity; contradiction.
Qed.

Lemma replay_record_cases_witness :
  replay_record quiet fresh_index some_name 3 true [] = (UDS_SUCCESS, []) /\
  replay_record (indexed (mk_record true true 3) false UDS_SUCCESS LOC_IN_DENSE)
    fresh_index some_name 3 false []
    = (UDS_SUCCESS, [EvGetMasterIndexRecord some_name]) /\
  replay_record
    (indexed (mk_record true false 3) false UDS_DUPLICATE_NAME LOC_IN_DENSE)
    fresh_index some_name 3 false []
    = (UDS_SUCCESS,
       [EvGetMasterIndexRecord some_name;
        EvPutMasterIndexRecord (mk_record true false 3) 3]) /\
  replay_record
    (indexed (mk_record true true 2) false UDS_CORRUPT_DATA LOC_IN_DENSE)
    fresh_index some_name 3 false []
    = (UDS_CORRUPT_DATA,
       [EvGetMasterIndexRecord some_name;
        EvSetMasterIndexRecordChapter (mk_record true true 2) 3]) /\
  replay_record (indexed no_record false UDS_OVERFLOW LOC_IN_DENSE)
    fresh_index some_name 3 false []
    = (UDS_SUCCESS,
       [EvGetMasterIndexRecord some_name;
        EvPutMasterIndexRecord no_record 3]) /\
  replay_record
    (indexed (mk_record true false 2) true UDS_SUCCESS LOC_IN_DENSE)
    fresh_index some_name 3 false []
    = (UDS_SUCCESS,
       [EvGetMasterIndexRecord some_name;
        EvSearchVolumePageCache some_name 2;
        EvSetMasterIndexRecordChapter (mk_record true false 2) 3]).
Proof.
  assert (2 <> 3) as H23 by discriminate.
  split; [| split; [| split; [| split; [| split]]]].
  - exact (proj1 (replay_record_cases quiet fresh_index some_name 3 true []
                    no_record) eq_refl eq_refl).
  - destruct (replay_record_cases
                (indexed (mk_record true true 3) false UDS_SUCCESS
                   LOC_IN_DENSE)
                fresh_index some_name 3 false [] (mk_record true true 3))
      as (_ & H & _).
    exact (proj1 (H eq_refl eq_refl) eq_refl eq_refl eq_refl).
  - destruct (replay_record_cases
                (indexed (mk_record true false 3) false UDS_DUPLICATE_NAME
                   LOC_IN_DENSE)
                fresh_index some_name 3 false [] (mk_record true false 3))
      as (_ & H & _).
    exact (proj1 (proj2 (H eq_refl eq_refl)) eq_refl eq_refl eq_refl).
  - destruct (replay_record_cases
                (indexed (mk_record true true 2) false UDS_CORRUPT_DATA
                   LOC_IN_DENSE)
                fresh_index some_name 3 false [] (mk_record true true 2))
      as (_ & H & _).
    exact (proj1 (proj2 (proj2 (H eq_refl eq_refl))) eq_refl eq_refl H23).
  - destruct (replay_record_cases
                (indexed no_record false UDS_OVERFLOW LOC_IN_DENSE)
                fresh_index some_name 3 false [] no_record)
      as (_ & H & _).
    exact (proj1 (proj2 (proj2 (proj2 (H eq_refl eq_refl)))) eq_refl).
  - destruct (replay_record_cases
                (indexed (mk_record true false 2) true UDS_SUCCESS
                   LOC_IN_DENSE)
                fresh_index some_name 3 false [] (mk_record true false 2))
      as (_ & H & _).
    exact (proj2 (proj2 (proj2 (proj2 (H eq_refl eq_refl)))) eq_refl eq_refl
             H23 true eq_refl).
Defined.

(** *** Searching a zone *)

(** C7.  In [search_index_zone], let the master index find a record.  If
    the request is a [REQUEST_QUERY] and either the zone confirms the name
    and the update flag is off, or the zone does not confirm it and the
    record is a collision record (an overflow record), the function
    returns success after its two lookups: no
    [setMasterIndexRecordChapter], no [putMasterIndexRecord] and no
    [putRecordInZone] is called.  The location of the request is set only
    when the zone confirmed the name. *)
Theorem search_query_is_read_only (E : collaborators) (idx : index)
    (zone : index_zone) (request : Request) (tr : trace)
    (record : MasterIndexRecord) (found : bool) :
  getMasterIndexRecord E tr (chunkName request) = (UDS_SUCCESS, record) ->
  isFound record = true ->
  getRecordFromZone E (tr ++ [EvGetMasterIndexRecord (chunkName request)])
    zone request (virtualChapter record) = (UDS_SUCCESS, found) ->
  action request = REQUEST_QUERY ->
  (found = true /\ update request = false)
  \/ (found = false /\ isCollision record = true) ->
  search_index_zone E idx zone request tr
    = (UDS_SUCCESS,
       (if found
        then set_location (computeIndexRegion E zone (virtualChapter record))
               request
        else request),
       tr ++ [EvGetMasterIndexRecord (chunkName request);
              EvGetRecordFromZone (id zone) (chunkName request)
                (virtualChapter record)]).
Proof.
  intros Hlookup Hfound Hzone Hquery Hcase.
  unfold search_index_zone. run. answer Hlookup.
  rewrite Hfound. answer Hzone.
  destruct Hcase as [[-> Hupdate] | [-> Hcollision]].
  - cbn [orb set_location action update]. rewrite Hquery, Hupdate.
    reflexivity.
  - rewrite Hcollision, Hquery.
    cbn [orb andb negb is_action]. rewrite orb_true_r. reflexivity.
Qed.

Lemma search_query_is_read_only_witness :
  search_index_zone
    (indexed (mk_record true false 2) true UDS_SUCCESS
       LOC_IN_OPEN_CHAPTER)
    fresh_index zone0 (some_request REQUEST_QUERY false) []
    = (UDS_SUCCESS,
       set_location LOC_IN_OPEN_CHAPTER (some_request REQUEST_QUERY false),
       [EvGetMasterIndexRecord some_name;
        EvGetRecordFromZone 0 some_name 2]) /\
  search_index_zone
    (indexed (mk_record true true 2) false UDS_SUCCESS LOC_IN_DENSE)
    fresh_index zone0 (some_request REQUEST_QUERY true) []
    = (UDS_SUCCESS, some_request REQUEST_QUERY true,
       [EvGetMasterIndexRecord some_name;
        EvGetRecordFromZone 0 some_name 2]).
Proof.
  split.
  - exact (search_query_is_read_only
             (indexed (mk_record true false 2) true UDS_SUCCESS
       LOC_IN_OPEN_CHAPTER)
             fresh_index zone0 (some_request REQUEST_QUERY false) []
             (mk_record true false 2) true eq_refl eq_refl eq_refl eq_refl
             (or_introl (conj eq_refl eq_refl))).
  - exact (search_query_is_read_only
             (indexed (mk_record true true 2) false UDS_SUCCESS LOC_IN_DENSE)
             fresh_index zone0 (some_request REQUEST_QUERY true) []
             (mk_record true true 2) false eq_refl eq_refl eq_refl eq_refl
             (or_intror (conj eq_refl eq_refl))).
Defined.

(** Histories that extend a common start: the events added to [tr] split
    the same way as the whole history. *)
Lemma trace_extension (tr before events rest : trace) :
  (length tr <= length before)%nat ->
  tr ++ events = before ++ rest ->
  exists middle : trace, before = tr ++ middle /\ events = middle ++ rest.
Proof.
  revert before. induction tr as [| e tr IH]; intros before Hlen Heq.
  - exists before. split; [reflexivity | exact Heq].
  - destruct before as [| b before]; cbn in Hlen; [lia |].
    cbn in Heq. injection Heq as -> Heq.
    destruct (IH before ltac:(lia) Heq) as (middle & -> & ->).
    exists middle. split; reflexivity.
Qed.

(** Finds where, in an explicit list of events, the event of [H] sits. *)
Ltac locate H middle :=
  first
    [ discriminate H
    | destruct middle as [| ? middle]; cbn [app] in H;
      [ try discriminate H; injection H as H ?
      | try discriminate H; injection H as ? H; locate H middle ] ].

(** Case analysis on an innermost scrutinee of the goal. *)
Ltac case_scrutinee :=
  match goal with
  | |- context [match ?x with _ => _ end] =>
      lazymatch x with
      | context [match _ with _ => _ end] => fail
      | _ => destruct x eqn:?; cbv beta iota; flatten_trace
      end
  end.

(** C8.  Take any run of [search_index_zone] and any call of
    [setMasterIndexRecordChapter] or [putMasterIndexRecord] made during
    it that answered [UDS_OVERFLOW].  Then the function returns success
    and that call is the last one of the run: [putRecordInZone] is not
    called. *)
Theorem search_overflow_is_swallowed (E : collaborators) (idx : index)
    (zone : index_zone) (request request' : Request) (tr tr' : trace)
    (result : status) (before rest : trace) (record : MasterIndexRecord)
    (chapter : Z) :
  search_index_zone E idx zone request tr = (result, request', tr') ->
  (length tr <= length before)%nat ->
  (tr' = before ++ EvSetMasterIndexRecordChapter record chapter :: rest /\
   setMasterIndexRecordChapter E before record chapter = UDS_OVERFLOW)
  \/ (tr' = before ++ EvPutMasterIndexRecord record chapter :: rest /\
      putMasterIndexRecord E before record chapter = UDS_OVERFLOW) ->
  result = UDS_SUCCESS /\ rest = [].
Proof.
  intros Hrun Hlen Hcase. revert Hrun.
  unfold search_index_zone, finish_search. run.
  repeat case_scrutinee;
    intros Hrun; injection Hrun as <- <- <-;
    destruct Hcase as [[Htrace Hoverflow] | [Htrace Hoverflow]];
    destruct (trace_extension _ _ _ _ Hlen Htrace) as (middle & -> & Hevents);
    locate Hevents middle; subst;
    try discriminate; try congruence;
    split; reflexivity.
Qed.

Lemma search_overflow_is_swallowed_witness :
  search_index_zone
    (indexed (mk_record true false 2) true UDS_OVERFLOW LOC_IN_DENSE)
    fresh_index zone0 (some_request REQUEST_INDEX false) []
    = (UDS_SUCCESS, some_request REQUEST_INDEX false,
       [EvGetMasterIndexRecord some_name;
        EvGetRecordFromZone 0 some_name 2;
        EvSetMasterIndexRecordChapter (mk_record true false 2) 5]) /\
  search_index_zone (indexed no_record false UDS_OVERFLOW LOC_IN_DENSE)
    fresh_index zone0 (some_request REQUEST_INDEX false) []
    = (UDS_SUCCESS, some_request REQUEST_INDEX false,
       [EvGetMasterIndexRecord some_name;
        EvPutMasterIndexRecord no_record 5]) /\
  (UDS_SUCCESS = UDS_SUCCESS /\ @nil event = []) /\
  (UDS_SUCCESS = UDS_SUCCESS /\ @nil event = []).
Proof.
  split; [reflexivity |]. split; [reflexivity |]. split.
  - refine (search_overflow_is_swallowed
              (indexed (mk_record true false 2) true UDS_OVERFLOW LOC_IN_DENSE)
              fresh_index zone0 (some_request REQUEST_INDEX false)
              (some_request REQUEST_INDEX false) []
              [EvGetMasterIndexRecord some_name;
               EvGetRecordFromZone 0 some_name 2;
               EvSetMasterIndexRecordChapter (mk_record true false 2) 5]
              UDS_SUCCESS
              [EvGetMasterIndexRecord some_name;
               EvGetRecordFromZone 0 some_name 2]
              [] (mk_record true false 2) 5 eq_refl _
              (or_introl (conj eq_refl eq_refl))).
    cbn. lia.
  - refine (search_overflow_is_swallowed
              (indexed no_record false UDS_OVERFLOW LOC_IN_DENSE)
              fresh_index zone0 (some_request REQUEST_INDEX false)
              (some_request REQUEST_INDEX false) []
              [EvGetMasterIndexRecord some_name;
               EvPutMasterIndexRecord no_record 5]
              UDS_SUCCESS [EvGetMasterIndexRecord some_name]
              [] no_record 5 eq_refl _
              (or_intror (conj eq_refl eq_refl))).
    cbn. lia.
Defined.

(** *** Removing from a zone *)

(** C9.  After a successful lookup in the master index,
    [remove_from_index_zone] returns success with the request untouched
    and no further call when no record is found, and, for a record that
    is not a collision, with the request untouched and only the zone
    lookup made when the zone does not confirm the name.  Otherwise (a
    collision record, or a name the zone confirms) it sets
    [request.location] to the region of the record's chapter and calls
    [removeMasterIndexRecord]; when that succeeds and the region is the
    open chapter it also calls [removeFromOpenChapter] and returns the
    assertion that the name was there; when the region is another one it
    returns success; when the removal fails it returns that failure. *)
Theorem remove_from_index_zone_cases (E : collaborators) (idx : index)
    (zone : index_zone) (request : Request) (tr : trace)
    (record : MasterIndexRecord) :
  getMasterIndexRecord E tr (chunkName request) = (UDS_SUCCESS, record) ->
  let name := chunkName request in
  let chapter := virtualChapter record in
  let tr1 := tr ++ [EvGetMasterIndexRecord name] in
  (isFound record = false ->
   remove_from_index_zone E idx zone request tr
     = (UDS_SUCCESS, request, tr1)) /\
  (isFound record = true -> isCollision record = false ->
   getRecordFromZone E tr1 zone request chapter = (UDS_SUCCESS, false) ->
   remove_from_index_zone E idx zone request tr
     = (UDS_SUCCESS, request,
        tr ++ [EvGetMasterIndexRecord name;
               EvGetRecordFromZone (id zone) name chapter])) /\
  (isFound record = true ->
   (isCollision record = false ->
    getRecordFromZone E tr1 zone request chapter = (UDS_SUCCESS, true)) ->
   let tr2 :=
     tr ++ EvGetMasterIndexRecord name
        :: (if isCollision record then []
            else [EvGetRecordFromZone (id zone) name chapter]) in
   let region := computeIndexRegion E zone chapter in
   let located := set_location region request in
   (removeMasterIndexRecord E tr2 record = UDS_SUCCESS ->
    region = LOC_IN_OPEN_CHAPTER ->
    remove_from_index_zone E idx zone request tr
      = (ASSERT (removeFromOpenChapter E
                   (tr2 ++ [EvRemoveMasterIndexRecord record]) zone name),
         located,
         tr2 ++ [EvRemoveMasterIndexRecord record;
                 EvRemoveFromOpenChapter (id zone) name])) /\
   (removeMasterIndexRecord E tr2 record = UDS_SUCCESS ->
    region <> LOC_IN_OPEN_CHAPTER ->
    remove_from_index_zone E idx zone request tr
      = (UDS_SUCCESS, located, tr2 ++ [EvRemoveMasterIndexRecord record])) /\
   (removeMasterIndexRecord E tr2 record <> UDS_SUCCESS ->
    remove_from_index_zone E idx zone request tr
      = (removeMasterIndexRecord E tr2 record, located,
         tr2 ++ [EvRemoveMasterIndexRecord record]))).
Proof.
  intros Hlookup name chapter tr1. subst name chapter tr1.
  unfold remove_from_index_zone. run. answer Hlookup.
  split; [| split].
  - intros ->. reflexivity.
  - intros -> -> Hzone. cbn [negb]. answer Hzone. reflexivity.
  - intros -> Hconfirmed. cbn [negb].
    assert (forall tr2 : trace,
              let region := computeIndexRegion E zone (virtualChapter record) in
              let located := set_location region request in
              (removeMasterIndexRecord E tr2 record = UDS_SUCCESS ->
               region = LOC_IN_OPEN_CHAPTER ->
               remove_located E zone request record tr2
                 = (ASSERT (removeFromOpenChapter E
                              (tr2 ++ [EvRemoveMasterIndexRecord record])
                              zone (chunkName request)),
                    located,
                    tr2 ++ [EvRemoveMasterIndexRecord record;
                            EvRemoveFromOpenChapter (id zone)
                              (chunkName request)])) /\
              (removeMasterIndexRecord E tr2 record = UDS_SUCCESS ->
               region <> LOC_IN_OPEN_CHAPTER ->
               remove_located E zone request record tr2
                 = (UDS_SUCCESS, located,
                    tr2 ++ [EvRemoveMasterIndexRecord record])) /\
              (removeMasterIndexRecord E tr2 record <> UDS_SUCCESS ->
               remove_located E zone request record tr2
                 = (removeMasterIndexRecord E tr2 record, located,
                    tr2 ++ [EvRemoveMasterIndexRecord record]))) as Hlocated.
    { intros tr2 region located. subst region located.
      unfold remove_located. run. cbn [location set_location chunkName].
      split; [| split].
      - intros -> ->. cbn [is_location]. run.
        match goal with
        | |- context [removeFromOpenChapter E ?t zone ?n] =>
            destruct (removeFromOpenChapter E t zone n)
        end; reflexivity.
      - intros -> Hregion.
        destruct (computeIndexRegion E zone (virtualChapter record));
          try reflexivity; contradiction.
      - intros Hfailed.
        destruct (removeMasterIndexRecord E tr2 record);
          try reflexivity; contradiction. }
    destruct (isCollision record).
    + cbn [negb app].
      pose proof
        (Hlocated (tr ++ [EvGetMasterIndexRecord (chunkName request)]))
        as Hhere.
      cbv zeta in Hhere. rewrite <- ?app_assoc in Hhere.
      exact Hhere.
    + cbn [negb app]. answer (Hconfirmed eq_refl). cbn [negb].
      pose proof
        (Hlocated
           (tr ++ [EvGetMasterIndexRecord (chunkName request);
                   EvGetRecordFromZone (id zone) (chunkName request)
                     (virtualChapter record)]))
        as Hhere.
      cbv zeta in Hhere. rewrite <- ?app_assoc in Hhere.
      exact Hhere.
Qed.

Lemma remove_from_index_zone_cases_witness :
  remove_from_index_zone quiet fresh_index zone0
    (some_request REQUEST_DELETE false) []
    = (UDS_SUCCESS, some_request REQUEST_DELETE false,
       [EvGetMasterIndexRecord some_name]) /\
  remove_from_index_zone
    (indexed (mk_record true false 2) false UDS_SUCCESS LOC_IN_OPEN_CHAPTER)
    fresh_index zone0 (some_request REQUEST_DELETE false) []
    = (UDS_SUCCESS, some_request REQUEST_DELETE false,
       [EvGetMasterIndexRecord some_name;
        EvGetRecordFromZone 0 some_name 2]) /\
  remove_from_index_zone
    (indexed (mk_record true true 2) false UDS_SUCCESS LOC_IN_OPEN_CHAPTER)
    fresh_index zone0 (some_request REQUEST_DELETE false) []
    = (UDS_SUCCESS,
       set_location LOC_IN_OPEN_CHAPTER (some_request REQUEST_DELETE false),
       [EvGetMasterIndexRecord some_name;
        EvRemoveMasterIndexRecord (mk_record true true 2);
        EvRemoveFromOpenChapter 0 some_name]) /\
  remove_from_index_zone
    (indexed (mk_record true false 2) true UDS_SUCCESS LOC_IN_SPARSE)
    fresh_index zone0 (some_request REQUEST_DELETE false) []
    = (UDS_SUCCESS,
       set_location LOC_IN_SPARSE (some_request REQUEST_DELETE false),
       [EvGetMasterIndexRecord some_name;
        EvGetRecordFromZone 0 some_name 2;
        EvRemoveMasterIndexRecord (mk_record true false 2)]) /\
  remove_from_index_zone
    (indexed (mk_record true true 2) false UDS_CORRUPT_DATA LOC_IN_DENSE)
    fresh_index zone0 (some_request REQUEST_DELETE false) []
    = (UDS_CORRUPT_DATA, some_request REQUEST_DELETE false,
       [EvGetMasterIndexRecord some_name;
        EvRemoveMasterIndexRecord (mk_record true true 2)]).
Proof.
  assert (LOC_IN_SPARSE <> LOC_IN_OPEN_CHAPTER) as Hsparse by discriminate.
  assert (UDS_CORRUPT_DATA <> UDS_SUCCESS) as Hfailed by discriminate.
  split; [| split; [| split; [| split]]].
  - exact (proj1
             (remove_from_index_zone_cases quiet fresh_index zone0
                (some_request REQUEST_DELETE false) [] no_record eq_refl)
             eq_refl).
  - exact (proj1 (proj2
             (remove_from_index_zone_cases
                (indexed (mk_record true false 2) false UDS_SUCCESS
                   LOC_IN_OPEN_CHAPTER)
                fresh_index zone0 (some_request REQUEST_DELETE false) []
                (mk_record true false 2) eq_refl))
             eq_refl eq_refl eq_refl).
  - refine (proj1
              (proj2 (proj2
                 (remove_from_index_zone_cases
                    (indexed (mk_record true true 2) false UDS_SUCCESS
                       LOC_IN_OPEN_CHAPTER)
                    fresh_index zone0 (some_request REQUEST_DELETE false) []
                    (mk_record true true 2) eq_refl))
                 eq_refl _)
              eq_refl eq_refl).
    discriminate.
  - exact (proj1 (proj2
             (proj2 (proj2
                (remove_from_index_zone_cases
                   (indexed (mk_record true false 2) true UDS_SUCCESS
                      LOC_IN_SPARSE)
                   fresh_index zone0 (some_request REQUEST_DELETE false) []
                   (mk_record true false 2) eq_refl))
                eq_refl (fun _ => eq_refl)))
             eq_refl Hsparse).
  - refine (proj2 (proj2
              (proj2 (proj2
                 (remove_from_index_zone_cases
                    (indexed (mk_record true true 2) false UDS_CORRUPT_DATA
                       LOC_IN_DENSE)
                    fresh_index zone0 (some_request REQUEST_DELETE false) []
                    (mk_record true true 2) eq_refl))
                 eq_refl _))
              Hfailed).
    discriminate.
Defined.

(** *** The location reported by the dispatcher *)

Lemma barrier_step_ignores_location (E : collaborators) (idx : index)
    (zone : index_zone) (request : Request) (stale : IndexRegion)
    (tr : trace) :
  barrier_step E idx zone (set_location stale request) tr
    = barrier_step E idx zone request tr.
Proof. destruct request; reflexivity. Qed.

Lemma search_index_zone_keeps_location (E : collaborators) (idx : index)
    (zone : index_zone) (request : Request) (tr : trace) :
  locates_nothing E ->
  location (snd (fst (search_index_zone E idx zone request tr)))
    = location request.
Proof.
  intros [Hmaster Hsparse]. unfold search_index_zone, finish_search. run.
  pose proof (Hmaster tr (chunkName request)) as Hrecord.
  destruct (getMasterIndexRecord E tr (chunkName request)) as [result record].
  cbn [snd] in Hrecord. cbv beta iota. rewrite Hrecord.
  destruct result; try reflexivity. cbv beta iota. cbn [andb orb].
  destruct (negb (isMasterIndexSample E (chunkName request))
            && is_sparse E (volume_geometry idx)).
  - match goal with
    | |- context [searchSparseCacheInZone E ?t zone request ?v] =>
        pose proof (Hsparse t zone request v) as Hcache;
        destruct (searchSparseCacheInZone E t zone request v)
          as [result found]
    end.
    cbn [snd] in Hcache. subst found. cbv beta iota.
    repeat case_scrutinee; reflexivity.
  - cbv beta iota. repeat case_scrutinee; reflexivity.
Qed.

Lemma remove_from_index_zone_keeps_location (E : collaborators) (idx : index)
    (zone : index_zone) (request : Request) (tr : trace) :
  locates_nothing E ->
  location (snd (fst (remove_from_index_zone E idx zone request tr)))
    = location request.
Proof.
  intros [Hmaster _]. unfold remove_from_index_zone. run.
  pose proof (Hmaster tr (chunkName request)) as Hrecord.
  destruct (getMasterIndexRecord E tr (chunkName request)) as [result record].
  cbn [snd] in Hrecord. cbv beta iota. rewrite Hrecord.
  destruct result; reflexivity.
Qed.

(** C10, as the code has it.  When the barrier step of
    [dispatch_index_zone_request] succeeds (the request was requeued, or
    [simulate_index_zone_barrier_message] returned success) the action
    runs on the request with its location set to [LOC_UNAVAILABLE]: the
    outcome does not depend on the location the request came in with, and
    when no lookup locates the name the request comes back with
    [LOC_UNAVAILABLE].  When the barrier step fails the function returns
    that failure and leaves the request as it came. *)
Theorem dispatch_resets_location (E : collaborators) (idx : index)
    (zone : index_zone) (request : Request) (tr tr1 : trace)
    (result : status) :
  barrier_step E idx zone request tr = (result, tr1) ->
  (result = UDS_SUCCESS ->
   dispatch_index_zone_request E idx zone request tr
     = (let fresh := set_location LOC_UNAVAILABLE request in
        match action request with
        | REQUEST_INDEX | REQUEST_UPDATE | REQUEST_QUERY =>
            let '(result, request', tr') :=
              search_index_zone E idx zone fresh tr1 in
            (makeUnrecoverable E result, request', tr')
        | REQUEST_DELETE =>
            let '(result, request', tr') :=
              remove_from_index_zone E idx zone fresh tr1 in
            (makeUnrecoverable E result, request', tr')
        | REQUEST_INVALID _ => (UDS_INVALID_ARGUMENT, fresh, tr1)
        end) /\
   (forall stale : IndexRegion,
      dispatch_index_zone_request E idx zone (set_location stale request) tr
        = dispatch_index_zone_request E idx zone request tr) /\
   (locates_nothing E ->
    location (snd (fst (dispatch_index_zone_request E idx zone request tr)))
      = LOC_UNAVAILABLE)) /\
  (result <> UDS_SUCCESS ->
   dispatch_index_zone_request E idx zone request tr = (result, request, tr1)).
Proof.
  intros Hbarrier.
  assert (forall r : Request,
            barrier_step E idx zone r tr = (UDS_SUCCESS, tr1) ->
            dispatch_index_zone_request E idx zone r tr
              = (let fresh := set_location LOC_UNAVAILABLE r in
                 match action r with
                 | REQUEST_INDEX | REQUEST_UPDATE | REQUEST_QUERY =>
                     let '(result, request', tr') :=
                       search_index_zone E idx zone fresh tr1 in
                     (makeUnrecoverable E result, request', tr')
                 | REQUEST_DELETE =>
                     let '(result, request', tr') :=
                       remove_from_index_zone E idx zone fresh tr1 in
                     (makeUnrecoverable E result, request', tr')
                 | REQUEST_INVALID _ => (UDS_INVALID_ARGUMENT, fresh, tr1)
                 end)) as Hrun.
  { intros r Hr. unfold dispatch_index_zone_request, bind.
    unfold barrier_step in Hr. rewrite Hr. cbv beta iota zeta.
    cbn [action set_location].
    destruct (action r); unfold ret; cbv beta iota;
      try reflexivity.
    - destruct (search_index_zone E idx zone _ tr1) as [[s q] t].
      reflexivity.
    - destruct (search_index_zone E idx zone _ tr1) as [[s q] t].
      reflexivity.
    - destruct (search_index_zone E idx zone _ tr1) as [[s q] t].
      reflexivity.
    - destruct (remove_from_index_zone E idx zone _ tr1) as [[s q] t].
      reflexivity. }
  split.
  - intros ->. split; [exact (Hrun request Hbarrier) |]. split.
    + intros stale.
      rewrite (Hrun request Hbarrier).
      rewrite (Hrun (set_location stale request))
        by (rewrite barrier_step_ignores_location; exact Hbarrier).
      destruct request; reflexivity.
    + intros Hnothing. rewrite (Hrun request Hbarrier). cbv zeta.
      destruct (action request).
      * pose proof (search_index_zone_keeps_location E idx zone
                      (set_location LOC_UNAVAILABLE request) tr1 Hnothing)
          as Hkept.
        destruct (search_index_zone E idx zone _ tr1) as [[s q] t].
        exact Hkept.
      * pose proof (search_index_zone_keeps_location E idx zone
                      (set_location LOC_UNAVAILABLE request) tr1 Hnothing)
          as Hkept.
        destruct (search_index_zone E idx zone _ tr1) as [[s q] t].
        exact Hkept.
      * pose proof (search_index_zone_keeps_location E idx zone
                      (set_location LOC_UNAVAILABLE request) tr1 Hnothing)
          as Hkept.
        destruct (search_index_zone E idx zone _ tr1) as [[s q] t].
        exact Hkept.
      * pose proof (remove_from_index_zone_keeps_location E idx zone
                      (set_location LOC_UNAVAILABLE request) tr1 Hnothing)
          as Hkept.
        destruct (remove_from_index_zone E idx zone _ tr1) as [[s q] t].
        exact Hkept.
      * reflexivity.
  - intros Hfailed. unfold dispatch_index_zone_request, bind.
    unfold barrier_step in Hbarrier. rewrite Hbarrier.
    destruct result; try reflexivity. contradiction.
Qed.

Lemma dispatch_resets_location_witness :
  dispatch_index_zone_request quiet fresh_index zone0
    (some_request REQUEST_QUERY false) []
    = (UDS_SUCCESS,
       set_location LOC_UNAVAILABLE (some_request REQUEST_QUERY false),
       [EvGetMasterIndexRecord some_name]) /\
  location
    (snd (fst (dispatch_index_zone_request quiet fresh_index zone0
                 (some_request REQUEST_QUERY false) [])))
    = LOC_UNAVAILABLE /\
  dispatch_index_zone_request barrier_failing fresh_index zone0
    (some_request REQUEST_DELETE false) []
    = (UDS_CORRUPT_DATA, some_request REQUEST_DELETE false,
       [EvLookupMasterIndexName some_name;
        EvExecuteSparseCacheBarrierMessage 0 4]).
Proof.
  assert (locates_nothing quiet) as Hnothing
    by (split; intros; reflexivity).
  assert (UDS_CORRUPT_DATA <> UDS_SUCCESS) as Hfailed by discriminate.
  destruct (dispatch_resets_location quiet fresh_index zone0
              (some_request REQUEST_QUERY false) [] [] UDS_SUCCESS eq_refl)
    as [Hpassed _].
  destruct (Hpassed eq_refl) as (Hrun & _ & Hlocation).
  split; [exact Hrun |]. split; [exact (Hlocation Hnothing) |].
  exact (proj2
           (dispatch_resets_location barrier_failing fresh_index zone0
              (some_request REQUEST_DELETE false) []
              [EvLookupMasterIndexName some_name;
               EvExecuteSparseCacheBarrierMessage 0 4]
              UDS_CORRUPT_DATA eq_refl)
           Hfailed).
Defined.

(** C10, as the claim words it, fails: on a single-zone sparse index whose
    barrier message fails, a query for a name that no lookup locates comes
    back from [dispatch_index_zone_request] with the location it came in
    with, [LOC_IN_DENSE], and not with [LOC_UNAVAILABLE]. *)
Lemma dispatch_keeps_stale_location :
  locates_nothing barrier_failing /\
  location (some_request REQUEST_QUERY false) = LOC_IN_DENSE /\
  dispatch_index_zone_request barrier_failing fresh_index zone0
    (some_request REQUEST_QUERY false) []
    = (UDS_CORRUPT_DATA, some_request REQUEST_QUERY false,
       [EvLookupMasterIndexName some_name;
        EvExecuteSparseCacheBarrierMessage 0 4]) /\
  location
    (snd (fst (dispatch_index_zone_request barrier_failing fresh_index zone0
                 (some_request REQUEST_QUERY false) [])))
    <> LOC_UNAVAILABLE.
Proof.
  split; [split; intros; reflexivity |].
  split; [reflexivity |]. split; [reflexivity |].
  cbn. discriminate.
Qed.

(** ** Further properties of index.c *)

(** *** The sliding window *)

Lemma advance_active_chapters_step (idx : index) :
  0 < chapters_per_volume (volume_geometry idx) ->
  0 <= oldest_virtual_chapter idx ->
  newest_virtual_chapter idx < UINT64_MAX ->
  strict_chapter_window idx ->
  let idx' := advance_active_chapters idx in
  newest_virtual_chapter idx' = newest_virtual_chapter idx + 1 /\
  oldest_virtual_chapter idx'
    = Z.max (oldest_virtual_chapter idx)
        (newest_virtual_chapter idx + 1
         - (chapters_per_volume (volume_geometry idx) - 1)) /\
  volume_geometry idx' = volume_geometry idx.
Proof.
  unfold strict_chapter_window, UINT64_MAX. intros Hc Ho Hn [Hle Hlt].
  unfold advance_active_chapters, are_same_physical_chapter,
    map_to_physical_chapter.
  destruct idx as [ex hs lt lc zc zs o n l p mi lm g]. cbn in *.
  rewrite wrap64_small by lia.
  destruct (Z.eqb_spec ((n + 1) mod chapters_per_volume g)
              (o mod chapters_per_volume g)) as [Heq | Hne]; cbn.
  - rewrite wrap64_small by lia.
    assert (n + 1 - o = chapters_per_volume g) as Hfull.
    { assert ((n + 1 - o) mod chapters_per_volume g = 0) as Hzero.
      { rewrite Zminus_mod, Heq, Z.sub_diag. apply Z.mod_0_l. lia. }
      destruct (Z.eq_dec (n + 1 - o) (chapters_per_volume g)) as [| Hless];
        [assumption |].
      rewrite Z.mod_small in Hzero by lia. lia. }
    repeat split; lia.
  - assert (n + 1 - o <> chapters_per_volume g) as Hroom.
    { intros Hfull. apply Hne.
      replace (n + 1) with (o + 1 * chapters_per_volume g) by lia.
      apply Z_mod_plus_full. }
    repeat split; lia.
Qed.

(** X1.  Closing [k] chapters in a row: from an index whose window is
    strict, [k] calls of [advance_active_chapters] move the newest chapter
    up by [k] and leave the oldest chapter at the larger of where it was
    and [newest + k - (chapters_per_volume - 1)]; the window stays
    strict. *)
Theorem advance_active_chapters_slides (idx : index) (k : nat) :
  0 < chapters_per_volume (volume_geometry idx) ->
  0 <= oldest_virtual_chapter idx ->
  newest_virtual_chapter idx + Z.of_nat k <= UINT64_MAX ->
  strict_chapter_window idx ->
  let idx' := Nat.iter k advance_active_chapters idx in
  newest_virtual_chapter idx' = newest_virtual_chapter idx + Z.of_nat k /\
  oldest_virtual_chapter idx'
    = Z.max (oldest_virtual_chapter idx)
        (newest_virtual_chapter idx + Z.of_nat k
         - (chapters_per_volume (volume_geometry idx) - 1)) /\
  strict_chapter_window idx'.
Proof.
  intros Hc Ho. induction k as [| k IH]; intros Hn Hstrict; cbv zeta.
  - cbn [Nat.iter nat_rect]. unfold strict_chapter_window in *.
    repeat split; lia.
  - change (Nat.iter (S k) advance_active_chapters idx)
      with (advance_active_chapters (Nat.iter k advance_active_chapters idx)).
    destruct (IH ltac:(lia) Hstrict) as (Hnew & Hold & Hwindow).
    cbv zeta in *.
    set (mid := Nat.iter k advance_active_chapters idx) in *.
    assert (volume_geometry mid = volume_geometry idx) as Hgeo.
    { subst mid. clear. induction k as [| k IHk]; [reflexivity |].
      change (Nat.iter (S k) advance_active_chapters idx)
        with (advance_active_chapters
                (Nat.iter k advance_active_chapters idx)).
      rewrite <- IHk. unfold advance_active_chapters.
      destruct (are_same_physical_chapter _ _ _);
        destruct (Nat.iter k advance_active_chapters idx); reflexivity. }
    assert (0 < chapters_per_volume (volume_geometry mid)) as Hc'
      by (rewrite Hgeo; exact Hc).
    assert (0 <= oldest_virtual_chapter mid) as Ho' by lia.
    assert (newest_virtual_chapter mid < UINT64_MAX) as Hn' by lia.
    destruct (advance_active_chapters_step mid Hc' Ho' Hn' Hwindow)
      as (Hnew' & Hold' & _).
    cbv zeta in *.
    split; [lia |]. split.
    + rewrite Hold', Hgeo, Hold, Hnew. lia.
    + apply advance_active_chapters_strict; assumption.
Qed.

Lemma advance_active_chapters_slides_witness :
  newest_virtual_chapter (Nat.iter 10 advance_active_chapters fresh_index)
    = 10 /\
  oldest_virtual_chapter (Nat.iter 10 advance_active_chapters fresh_index)
    = 3.
Proof.
  assert (0 < 8) as Hc by reflexivity.
  assert (0 <= 0) as Ho by (vm_compute; discriminate).
  assert (0 + Z.of_nat 10 <= UINT64_MAX) as Hn by (vm_compute; discriminate).
  assert (strict_chapter_window fresh_index) as Hs
    by (split; [vm_compute; discriminate | reflexivity]).
  destruct (advance_active_chapters_slides fresh_index 10 Hc Ho Hn Hs)
    as (Hnew & Hold & _).
  split; [exact Hnew | exact Hold].
Defined.

(** X2.  The open chapter shadows no chapter of the window: after
    [advance_active_chapters] on a strict window, any two different
    chapters between the oldest and the newest lie in different physical
    chapters of the ring. *)
Theorem advance_active_chapters_no_shadow (idx : index) (a b : Z) :
  0 < chapters_per_volume (volume_geometry idx) ->
  0 <= oldest_virtual_chapter idx ->
  newest_virtual_chapter idx < UINT64_MAX ->
  strict_chapter_window idx ->
  let idx' := advance_active_chapters idx in
  oldest_virtual_chapter idx' <= a -> a < b ->
  b <= newest_virtual_chapter idx' ->
  are_same_physical_chapter (volume_geometry idx') a b = false.
Proof.
  intros Hc Ho Hn Hstrict idx' Ha Hab Hb.
  pose proof (advance_active_chapters_strict idx Hc Ho Hn Hstrict)
    as [_ Hlt].
  destruct (advance_active_chapters_step idx Hc Ho Hn Hstrict)
    as (_ & _ & Hgeo).
  fold idx' in Hlt, Hgeo. rewrite Hgeo in *.
  unfold are_same_physical_chapter, map_to_physical_chapter.
  apply Z.eqb_neq. intros Hsame.
  assert ((b - a) mod chapters_per_volume (volume_geometry idx) = 0)
    as Hzero.
  { rewrite Zminus_mod, Hsame, Z.sub_diag. apply Z.mod_0_l. lia. }
  rewrite Z.mod_small in Hzero by lia. lia.
Qed.

Lemma advance_active_chapters_no_shadow_witness :
  are_same_physical_chapter small_geometry 2 8 = false.
Proof.
  assert (0 < 8) as Hc by reflexivity.
  assert (0 <= 0) as Ho by (vm_compute; discriminate).
  assert (strict_chapter_window
            (set_newest_virtual_chapter 7 fresh_index)) as Hs
    by (split; [vm_compute; discriminate | reflexivity]).
  refine (advance_active_chapters_no_shadow
            (set_newest_virtual_chapter 7 fresh_index) 2 8 Hc Ho eq_refl Hs
            _ eq_refl _); vm_compute; discriminate.
Defined.

(** *** Saving and loading *)

(** X3.  [save_index] has three outcomes.  When [finish_checkpointing]
    fails, its result is returned with the index as
    [finish_checkpointing] left it, and [save_index_state] is not called.
    Otherwise the result is that of [save_index_state] and the previous
    checkpoint becomes the last checkpoint that [finish_checkpointing]
    left; on success the last checkpoint is the chapter before the newest
    one (the sentinel when the newest is 0) and the open chapter counts as
    saved; on failure the last checkpoint is put back to what
    [finish_checkpointing] left and the saved flag is left alone. *)
Theorem save_index_outcomes (E : collaborators) (idx : index) (tr : trace) :
  let tr1 := tr ++ [EvWaitForIdleChapterWriter; EvFinishCheckpointing] in
  let checkpointed :=
    finish_checkpointing E (tr ++ [EvWaitForIdleChapterWriter]) idx in
  let idx1 := snd checkpointed in
  let saved := save_index_state E tr1 in
  (fst checkpointed <> UDS_SUCCESS ->
   save_index E idx tr = (fst checkpointed, idx1, tr1)) /\
  (fst checkpointed = UDS_SUCCESS ->
   exists idx' : index,
     save_index E idx tr = (saved, idx', tr1 ++ [EvSaveIndexState]) /\
     prev_checkpoint idx' = last_checkpoint idx1 /\
     same_chapters idx1 idx' /\
     (saved = UDS_SUCCESS ->
      last_checkpoint idx'
        = (if newest_virtual_chapter idx1 =? 0 then NO_LAST_CHECKPOINT
           else newest_virtual_chapter idx1 - 1) /\
      has_saved_open_chapter idx' = true) /\
     (saved <> UDS_SUCCESS ->
      last_checkpoint idx' = last_checkpoint idx1 /\
      has_saved_open_chapter idx' = has_saved_open_chapter idx1)).
Proof.
  cbv zeta. unfold save_index. run.
  destruct (finish_checkpointing E (tr ++ [EvWaitForIdleChapterWriter]) idx)
    as [result idx1].
  cbn [fst snd]. split.
  - intros Hfailed. destruct result; try reflexivity; contradiction.
  - intros ->. cbv beta iota. flatten_trace.
    destruct (save_index_state E
                (tr ++ [EvWaitForIdleChapterWriter; EvFinishCheckpointing]))
      eqn:Hsaved;
      eexists; (split; [reflexivity |]);
      unfold begin_save, same_chapters; destruct idx1; cbn;
      repeat split; intros; try reflexivity; try discriminate;
      contradiction.
Qed.

Lemma save_index_outcomes_witness :
  save_index
    (with_finish_checkpointing
       (fun _ i => (UDS_CORRUPT_DATA, set_last_checkpoint 5 i)) quiet)
    brimful_index []
    = (UDS_CORRUPT_DATA, set_last_checkpoint 5 brimful_index,
       [EvWaitForIdleChapterWriter; EvFinishCheckpointing]) /\
  last_checkpoint (snd (fst (save_index quiet brimful_index []))) = 7 /\
  last_checkpoint
    (snd (fst (save_index
                 (with_finish_checkpointing
                    (fun _ i => (UDS_SUCCESS, set_last_checkpoint 5 i))
                    (with_save_index_state (fun _ => ENOMEM) quiet))
                 brimful_index [])))
    = 5.
Proof.
  assert (UDS_CORRUPT_DATA <> UDS_SUCCESS) as Hc by discriminate.
  assert (ENOMEM <> UDS_SUCCESS) as Hm by discriminate.
  split; [| split].
  - exact (proj1
             (save_index_outcomes
                (with_finish_checkpointing
                   (fun _ i => (UDS_CORRUPT_DATA, set_last_checkpoint 5 i))
                   quiet)
                brimful_index []) Hc).
  - destruct (proj2 (save_index_outcomes quiet brimful_index []) eq_refl)
      as (idx' & Hrun & _ & _ & Hsaved & _).
    rewrite Hrun. exact (proj1 (Hsaved eq_refl)).
  - destruct (proj2
                (save_index_outcomes
                   (with_finish_checkpointing
                      (fun _ i => (UDS_SUCCESS, set_last_checkpoint 5 i))
                      (with_save_index_state (fun _ => ENOMEM) quiet))
                   brimful_index []) eq_refl)
      as (idx' & Hrun & _ & _ & _ & Hfailed).
    rewrite Hrun. exact (proj1 (Hfailed Hm)).
Defined.

(** X4.  The checkpoint survives a save and a load: when the saved state
    carries the last checkpoint that [begin_save] recorded for an open
    chapter other than 0 and 2^32, a load that needs a replay hands the
    chapter before that open chapter to [replay_index_from_checkpoint]; for
    the open chapter 0 it hands over chapter 0. *)
Theorem checkpoint_round_trip (E : collaborators) (idx idx1 saved : index)
    (checkpoint : bool) (open_chapter : Z) (tr : trace) :
  0 <= open_chapter <= UINT64_MAX ->
  open_chapter <> 2 ^ 32 ->
  load_index_state E tr idx = (UDS_SUCCESS, true, idx1) ->
  last_checkpoint idx1
    = last_checkpoint (begin_save saved checkpoint open_chapter) ->
  load_index E idx true tr =
    (let '(result, idx2, tr2) :=
       replay_index_from_checkpoint E idx1 (Z.max 0 (open_chapter - 1))
         (tr ++ [EvLoadIndexState]) in
     match result with
     | UDS_SUCCESS =>
         let '(idx3, tr3) :=
           set_active_chapters_from E 0 (zone_count idx2) idx2 tr2 in
         (UDS_SUCCESS, set_loaded_type LOAD_REPLAY idx3, tr3)
     | _ => (result, idx2, tr2)
     end).
Proof.
  unfold UINT64_MAX. intros Hrange Hclash Hstate Hsaved.
  rewrite (load_index_replay E idx idx1 tr Hstate). rewrite Hsaved.
  replace (last_checkpoint (begin_save saved checkpoint open_chapter))
    with (if open_chapter =? 0 then NO_LAST_CHECKPOINT else open_chapter - 1)
    by (unfold begin_save; destruct saved; reflexivity).
  destruct (Z.eqb_spec open_chapter 0) as [-> | Hopen].
  - rewrite Z.eqb_refl. reflexivity.
  - destruct (Z.eqb_spec (open_chapter - 1) NO_LAST_CHECKPOINT) as [Heq | _].
    + exfalso. unfold NO_LAST_CHECKPOINT, UINT_MAX in Heq. lia.
    + rewrite Z.max_r by lia. reflexivity.
Qed.

Lemma checkpoint_round_trip_witness :
  firstn 4
    (snd (load_index (holding 7 true)
            (begin_save fresh_index false 6) true []))
    = [EvLoadIndexState;
       EvFindVolumeChapterBoundaries LOOKUP_FOR_REBUILD;
       EvSetMasterIndexOpenChapter 8;
       EvSetMasterIndexOpenChapter 5].
Proof.
  assert (0 <= 6 <= UINT64_MAX) as Hrange
    by (split; vm_compute; discriminate).
  assert (6 <> 2 ^ 32) as Hclash by discriminate.
  rewrite (checkpoint_round_trip (holding 7 true)
             (begin_save fresh_index false 6)
             (begin_save fresh_index false 6) fresh_index false 6 []
             Hrange Hclash eq_refl eq_refl).
  vm_compute. reflexivity.
Defined.

Lemma set_active_chapters_from_trace (E : collaborators) (n i : nat)
    (idx : index) (tr : trace) :
  snd (set_active_chapters_from E i n idx tr)
    = tr ++ map EvSetActiveChapters (seq i n).
Proof.
  revert i idx tr. induction n as [| n IH]; intros i idx tr.
  - cbn. rewrite app_nil_r. reflexivity.
  - cbn [set_active_chapters_from seq map]. unfold bind, call.
    rewrite IH. rewrite <- app_assoc. reflexivity.
Qed.

(** X5.  [load_index] without a replay.  A failure of [load_index_state]
    is returned as it is and nothing else is called.  When
    [load_index_state] succeeds and no replay is required, the load
    succeeds whether or not a replay was allowed: the volume is not
    consulted, [setActiveChapters] is called once for each zone in order,
    the chapter bounds are those [load_index_state] left, and
    [loaded_type] is [LOAD_LOAD]. *)
Theorem load_index_without_replay (E : collaborators) (idx idx1 : index)
    (allow_replay replay_required : bool) (result : status) (tr : trace) :
  load_index_state E tr idx = (result, replay_required, idx1) ->
  (result <> UDS_SUCCESS ->
   load_index E idx allow_replay tr
     = (result, idx1, tr ++ [EvLoadIndexState])) /\
  (result = UDS_SUCCESS -> replay_required = false ->
   exists idx2 : index,
     load_index E idx allow_replay tr
       = (UDS_SUCCESS, idx2,
          tr ++ EvLoadIndexState
             :: map EvSetActiveChapters (seq 0 (zone_count idx1))) /\
     loaded_type idx2 = LOAD_LOAD /\
     same_chapters idx1 idx2).
Proof.
  intros Hstate. unfold load_index. run. answer Hstate. split.
  - intros Hfailed. destruct result; try reflexivity; contradiction.
  - intros -> ->. cbn [andb]. unfold ret. cbv beta iota.
    pose proof (set_active_chapters_from_trace E (zone_count idx1) 0 idx1
                  (tr ++ [EvLoadIndexState])) as Htrace.
    pose proof (set_active_chapters_from_same E (zone_count idx1) 0 idx1
                  (tr ++ [EvLoadIndexState])) as Hsame.
    destruct (set_active_chapters_from E 0 (zone_count idx1) idx1
                (tr ++ [EvLoadIndexState])) as [idx2 tr2].
    cbn [fst snd] in Htrace, Hsame. subst tr2. flatten_trace.
    exists (set_loaded_type LOAD_LOAD idx2).
    split; [reflexivity |]. split; [destruct idx2; reflexivity |].
    eapply same_chapters_trans; [exact Hsame |].
    unfold same_chapters. destruct idx2; cbn. auto.
Qed.

Lemma load_index_without_replay_witness :
  load_index (unreadable UDS_CORRUPT_DATA) fresh_index true []
    = (UDS_CORRUPT_DATA, fresh_index, [EvLoadIndexState]) /\
  exists idx2 : index,
    load_index (holding 7 false) fresh_index false []
      = (UDS_SUCCESS, idx2, [EvLoadIndexState; EvSetActiveChapters 0]) /\
    loaded_type idx2 = LOAD_LOAD /\
    same_chapters fresh_index idx2.
Proof.
  assert (UDS_CORRUPT_DATA <> UDS_SUCCESS) as Hc by discriminate.
  split.
  - exact (proj1
             (load_index_without_replay (unreadable UDS_CORRUPT_DATA)
                fresh_index fresh_index true false UDS_CORRUPT_DATA []
                eq_refl) Hc).
  - exact (proj2
             (load_index_without_replay (holding 7 false) fresh_index
                fresh_index false false UDS_SUCCESS [] eq_refl)
             eq_refl eq_refl).
Defined.

(** X6.  [replay_index_from_checkpoint] without a replay.  When the
    boundaries of the volume cannot be found the failure is returned;
    boundaries with [lowest > highest] give [UDS_CORRUPT_COMPONENT]; an
    empty volume under an index whose newest chapter is 0 gives success.
    In all three cases the only call made is
    [findVolumeChapterBoundaries], in the lookup mode for rebuild, and the
    index comes back as it was, its lookup mode restored. *)
Theorem replay_index_from_checkpoint_without_replay (E : collaborators)
    (idx : index) (last_checkpoint_chapter lowest highest : Z)
    (is_empty : bool) (result : status) (tr : trace) :
  findVolumeChapterBoundaries E tr LOOKUP_FOR_REBUILD
    = (result, (lowest, highest, is_empty)) ->
  let tr1 := tr ++ [EvFindVolumeChapterBoundaries LOOKUP_FOR_REBUILD] in
  (result <> UDS_SUCCESS ->
   replay_index_from_checkpoint E idx last_checkpoint_chapter tr
     = (result, idx, tr1)) /\
  (result = UDS_SUCCESS -> highest < lowest ->
   replay_index_from_checkpoint E idx last_checkpoint_chapter tr
     = (UDS_CORRUPT_COMPONENT, idx, tr1)) /\
  (result = UDS_SUCCESS -> lowest <= highest -> is_empty = true ->
   newest_virtual_chapter idx = 0 ->
   replay_index_from_checkpoint E idx last_checkpoint_chapter tr
     = (UDS_SUCCESS, idx, tr1)).
Proof.
  intros Hfind. cbv zeta. unfold replay_index_from_checkpoint. run.
  cbn [lookupMode set_lookupMode]. answer Hfind.
  rewrite set_lookupMode_restore.
  split; [| split].
  - intros Hfailed. destruct result; try reflexivity; contradiction.
  - intros -> Hcrossed.
    destruct (Z.gtb_spec lowest highest); [reflexivity | lia].
  - intros -> Hordered -> Hnew.
    destruct (Z.gtb_spec lowest highest); [lia |].
    rewrite Hnew. reflexivity.
Qed.

Lemma replay_index_from_checkpoint_without_replay_witness :
  replay_index_from_checkpoint
    (bounded (UDS_CORRUPT_DATA, (0, 0, false)))
    fresh_index 0 []
    = (UDS_CORRUPT_DATA, fresh_index,
       [EvFindVolumeChapterBoundaries LOOKUP_FOR_REBUILD]) /\
  replay_index_from_checkpoint
    (bounded (UDS_SUCCESS, (5, 2, false)))
    fresh_index 0 []
    = (UDS_CORRUPT_COMPONENT, fresh_index,
       [EvFindVolumeChapterBoundaries LOOKUP_FOR_REBUILD]) /\
  replay_index_from_checkpoint quiet fresh_index 0 []
    = (UDS_SUCCESS, fresh_index,
       [EvFindVolumeChapterBoundaries LOOKUP_FOR_REBUILD]).
Proof.
  assert (UDS_CORRUPT_DATA <> UDS_SUCCESS) as Hc by discriminate.
  assert (0 <= 0) as H0 by (vm_compute; discriminate).
  split; [| split].
  - exact (proj1
             (replay_index_from_checkpoint_without_replay
                (bounded (UDS_CORRUPT_DATA, (0, 0, false))) fresh_index 0
                0 0 false UDS_CORRUPT_DATA [] eq_refl) Hc).
  - exact (proj1 (proj2
             (replay_index_from_checkpoint_without_replay
                (bounded (UDS_SUCCESS, (5, 2, false))) fresh_index 0
                5 2 false UDS_SUCCESS [] eq_refl)) eq_refl eq_refl).
  - exact (proj2 (proj2
             (replay_index_from_checkpoint_without_replay quiet fresh_index
                0 0 0 true UDS_SUCCESS [] eq_refl))
             eq_refl H0 eq_refl eq_refl).
Defined.

(** *** Rebuilding *)

(** X7.  [rebuild_index] on an empty volume: with boundaries found and in
    order, the index is reset to chapters 0 to 0, the master index is told
    that chapter 0 is open, nothing is replayed, no zone is touched and the
    function succeeds with [loaded_type = LOAD_EMPTY]. *)
Theorem rebuild_index_empty_volume (E : collaborators) (idx : index)
    (lowest highest : Z) (tr : trace) :
  findVolumeChapterBoundaries E tr LOOKUP_FOR_REBUILD
    = (UDS_SUCCESS, (lowest, highest, true)) ->
  lowest <= highest ->
  0 <= chapters_per_volume (volume_geometry idx) ->
  rebuild_index E idx tr
    = (UDS_SUCCESS,
       set_loaded_type LOAD_EMPTY
         (set_newest_virtual_chapter 0 (set_oldest_virtual_chapter 0 idx)),
       tr ++ [EvFindVolumeChapterBoundaries LOOKUP_FOR_REBUILD;
              EvSetMasterIndexOpenChapter 0]).
Proof.
  intros Hfind Hordered Hcpv. unfold rebuild_index. run.
  cbn [lookupMode set_lookupMode]. answer Hfind.
  destruct (Z.gtb_spec lowest highest); [lia |].
  destruct idx as [ex hs lt lc zc zs o n l p mi lm g]. cbn in *.
  destruct (Z.gtb_spec 0 (chapters_per_volume g)); [lia |].
  rewrite <- app_assoc. reflexivity.
Qed.

Lemma rebuild_index_empty_volume_witness :
  rebuild_index quiet brimful_index []
    = (UDS_SUCCESS,
       set_loaded_type LOAD_EMPTY
         (set_newest_virtual_chapter 0
            (set_oldest_virtual_chapter 0 brimful_index)),
       [EvFindVolumeChapterBoundaries LOOKUP_FOR_REBUILD;
        EvSetMasterIndexOpenChapter 0]).
Proof.
  assert (0 <= 0) as H0 by (vm_compute; discriminate).
  assert (0 <= 8) as H8 by (vm_compute; discriminate).
  exact (rebuild_index_empty_volume quiet brimful_index 0 0 [] eq_refl H0 H8).
Defined.

(** X8.  [rebuild_index] gives up before any replay in three cases, with
    [findVolumeChapterBoundaries] its only call: the failure to find the
    boundaries is returned with the index untouched; boundaries with
    [lowest > highest] give [UDS_CORRUPT_COMPONENT] with the index
    untouched; and boundaries of a non-empty volume that span more than
    [chapters_per_volume] chapters give [UDS_CORRUPT_COMPONENT] too, but
    only after the chapter bounds of the index were overwritten with
    them. *)
Theorem rebuild_index_rejects_boundaries (E : collaborators) (idx : index)
    (lowest highest : Z) (is_empty : bool) (result : status) (tr : trace) :
  findVolumeChapterBoundaries E tr LOOKUP_FOR_REBUILD
    = (result, (lowest, highest, is_empty)) ->
  let tr1 := tr ++ [EvFindVolumeChapterBoundaries LOOKUP_FOR_REBUILD] in
  (result <> UDS_SUCCESS -> rebuild_index E idx tr = (result, idx, tr1)) /\
  (result = UDS_SUCCESS -> highest < lowest ->
   rebuild_index E idx tr = (UDS_CORRUPT_COMPONENT, idx, tr1)) /\
  (result = UDS_SUCCESS -> is_empty = false ->
   0 <= lowest -> lowest <= highest -> highest < UINT64_MAX ->
   0 <= chapters_per_volume (volume_geometry idx) ->
   chapters_per_volume (volume_geometry idx) < highest + 1 - lowest ->
   rebuild_index E idx tr
     = (UDS_CORRUPT_COMPONENT,
        set_oldest_virtual_chapter lowest
          (set_newest_virtual_chapter (highest + 1) idx),
        tr1)).
Proof.
  intros Hfind. cbv zeta. unfold rebuild_index. run.
  cbn [lookupMode set_lookupMode]. answer Hfind.
  split; [| split].
  - intros Hfailed. rewrite set_lookupMode_restore.
    destruct result; try reflexivity; contradiction.
  - intros -> Hcrossed. rewrite set_lookupMode_restore.
    destruct (Z.gtb_spec lowest highest); [reflexivity | lia].
  - unfold UINT64_MAX. intros -> -> Hlow Hordered Hhigh Hcpv Hwide.
    destruct (Z.gtb_spec lowest highest); [lia |].
    destruct idx as [ex hs lt lc zc zs o n l p mi lm g].
    cbn [set_lookupMode set_oldest_virtual_chapter set_newest_virtual_chapter
         volume_geometry oldest_virtual_chapter newest_virtual_chapter
         existed has_saved_open_chapter loaded_type load_context zone_count
         zones last_checkpoint prev_checkpoint master_index lookupMode] in *.
    rewrite (wrap64_small (highest + 1)) by lia.
    rewrite (wrap64_small (lowest + chapters_per_volume g)) by lia.
    destruct (Z.eqb_spec (highest + 1) (lowest + chapters_per_volume g));
      [lia |].
    cbn [set_lookupMode set_oldest_virtual_chapter set_newest_virtual_chapter
         volume_geometry oldest_virtual_chapter newest_virtual_chapter
         existed has_saved_open_chapter loaded_type load_context zone_count
         zones last_checkpoint prev_checkpoint master_index lookupMode].
    rewrite (wrap64_small (highest + 1 - lowest)) by lia.
    destruct (Z.gtb_spec (highest + 1 - lowest) (chapters_per_volume g));
      [reflexivity | lia].
Qed.

Lemma rebuild_index_rejects_boundaries_witness :
  rebuild_index (bounded (UDS_CORRUPT_DATA, (0, 0, false))) fresh_index []
    = (UDS_CORRUPT_DATA, fresh_index,
       [EvFindVolumeChapterBoundaries LOOKUP_FOR_REBUILD]) /\
  rebuild_index (bounded (UDS_SUCCESS, (5, 2, false))) fresh_index []
    = (UDS_CORRUPT_COMPONENT, fresh_index,
       [EvFindVolumeChapterBoundaries LOOKUP_FOR_REBUILD]) /\
  rebuild_index (bounded (UDS_SUCCESS, (3, 20, false))) fresh_index []
    = (UDS_CORRUPT_COMPONENT,
       set_oldest_virtual_chapter 3
         (set_newest_virtual_chapter 21 fresh_index),
       [EvFindVolumeChapterBoundaries LOOKUP_FOR_REBUILD]).
Proof.
  assert (UDS_CORRUPT_DATA <> UDS_SUCCESS) as Hc by discriminate.
  assert (0 <= 3) as H3 by (vm_compute; discriminate).
  assert (3 <= 20) as H20 by (vm_compute; discriminate).
  assert (0 <= 8) as H8 by (vm_compute; discriminate).
  split; [| split].
  - exact (proj1
             (rebuild_index_rejects_boundaries
                (bounded (UDS_CORRUPT_DATA, (0, 0, false))) fresh_index
                0 0 false UDS_CORRUPT_DATA [] eq_refl) Hc).
  - exact (proj1 (proj2
             (rebuild_index_rejects_boundaries
                (bounded (UDS_SUCCESS, (5, 2, false))) fresh_index
                5 2 false UDS_SUCCESS [] eq_refl)) eq_refl eq_refl).
  - exact (proj2 (proj2
             (rebuild_index_rejects_boundaries
                (bounded (UDS_SUCCESS, (3, 20, false))) fresh_index
                3 20 false UDS_SUCCESS [] eq_refl))
             eq_refl eq_refl H3 H20 eq_refl H8 eq_refl).
Defined.

(** X30.  [rebuild_index] keeps the window of chapters: whatever
    boundaries the volume reports, an index that [rebuild_index] returns
    with success has [oldest <= newest] and
    [newest - oldest < chapters_per_volume], hence also the bound
    [newest - oldest <= chapters_per_volume]; boundaries that would break
    it are refused. *)
Theorem rebuild_index_keeps_window (E : collaborators) (idx idx' : index)
    (result : status) (lowest highest : Z) (is_empty : bool)
    (tr tr' : trace) :
  0 < chapters_per_volume (volume_geometry idx) ->
  findVolumeChapterBoundaries E tr LOOKUP_FOR_REBUILD
    = (result, (lowest, highest, is_empty)) ->
  0 <= lowest -> highest < UINT64_MAX ->
  rebuild_index E idx tr = (UDS_SUCCESS, idx', tr') ->
  strict_chapter_window idx' /\ chapter_window idx' /\
  volume_geometry idx' = volume_geometry idx.
Proof.
  intros Hcpv Hfind Hlo Hhi Hrebuild.
  pose proof (rebuild_boundaries_strict E idx idx' result lowest highest
                is_empty tr tr' Hfind Hlo Hhi Hcpv Hrebuild) as Hstrict.
  split; [exact Hstrict |].
  split; [apply strict_chapter_window_weaken; exact Hstrict |].
  revert Hrebuild. unfold rebuild_index, bind, call.
  cbn [lookupMode set_lookupMode]. rewrite Hfind. cbv beta iota.
  unfold logFatalWithStringError, ret.
  destruct result; try discriminate.
  destruct (lowest >? highest); [discriminate |].
  match goal with
  | |- context [if ?c then _ else _] => destruct c; [discriminate |]
  end.
  destruct is_empty.
  - intros Heq. injection Heq as <- _. destruct idx; reflexivity.
  - match goal with
    | |- context [replay_volume E ?i ?f ?t] =>
        pose proof (replay_volume_same E i f t) as (_ & _ & Hg);
        destruct (replay_volume E i f t) as [[r idx2] tr2]
    end.
    cbn [fst snd] in Hg. destruct r; try discriminate.
    pose proof (set_active_chapters_from_same E (zone_count idx2) 0 idx2 tr2)
      as (_ & _ & Hz).
    destruct (set_active_chapters_from E 0 (zone_count idx2) idx2 tr2)
      as [idx3 tr3].
    cbn [fst] in Hz. intros Heq. injection Heq as <- _.
    transitivity (volume_geometry idx3); [destruct idx3; reflexivity |].
    rewrite <- Hz, <- Hg.
    match goal with
    | |- volume_geometry (if ?c then _ else _) = _ => destruct c
    end; destruct idx; reflexivity.
Qed.

Lemma rebuild_index_keeps_window_witness :
  strict_chapter_window
    (snd (fst (rebuild_index (holding 7 true) fresh_index []))) /\
  chapter_window
    (snd (fst (rebuild_index (holding 7 true) fresh_index []))) /\
  volume_geometry (snd (fst (rebuild_index (holding 7 true) fresh_index [])))
    = volume_geometry fresh_index.
Proof.
  assert (0 <= 0) as H0 by (vm_compute; discriminate).
  assert (7 < UINT64_MAX) as H7 by reflexivity.
  apply (rebuild_index_keeps_window (holding 7 true) fresh_index
           (snd (fst (rebuild_index (holding 7 true) fresh_index [])))
           UDS_SUCCESS 0 7 false []
           (snd (rebuild_index (holding 7 true) fresh_index []))
           eq_refl eq_refl H0 H7).
  vm_compute. reflexivity.
Defined.

(** *** Making an index *)

(** X9.  [make_index] for a load type other than [LOAD_LOAD] and
    [LOAD_REBUILD], past its allocations: the saved state is discarded,
    nothing is loaded and the volume is not consulted; the function
    succeeds with [loaded_type = LOAD_CREATE], no saved open chapter and,
    when there is a load context, its status set to [INDEX_READY]. *)
Theorem make_index_create (E : collaborators) (nzones : nat)
    (lt : load_type) (lc : option IndexLoadStatus) (tr0 tr : trace)
    (idx : index) :
  make_index_prepared E nzones lt lc tr0 idx tr ->
  lt <> LOAD_LOAD -> lt <> LOAD_REBUILD ->
  make_index E nzones lt lc tr0
    = (UDS_SUCCESS,
       Some (set_has_saved_open_chapter false
               (set_load_context
                  (match lc with
                   | Some _ => Some INDEX_READY
                   | None => None
                   end)
                  (set_loaded_type LOAD_CREATE idx))),
       tr ++ EvDiscardIndexStateData
          :: match lc with
             | Some _ => [EvLoadContextReady]
             | None => []
             end).
Proof.
  intros (idx0 & mi & Ha & Hm & Hc1 & Hc2 & Hw & -> & ->) Hload Hrebuild.
  unfold make_index_preamble in *. cbn [firstn] in *.
  unfold make_index. run.
  answer Ha. answer Hm. answer Hc1. answer Hc2. answer Hw.
  assert (load_type_eqb lt LOAD_LOAD || load_type_eqb lt LOAD_REBUILD = false)
    as Hother by (destruct lt; try reflexivity; contradiction).
  rewrite Hother. unfold finish_make_index. run.
  destruct idx0 as [ex hs t c zc zs o n l p m lm g].
  destruct lc; cbn; rewrite <- ?app_assoc; reflexivity.
Qed.

Lemma make_index_create_witness :
  make_index quiet 1 LOAD_CREATE None []
    = (UDS_SUCCESS, Some (set_loaded_type LOAD_CREATE prepared_index),
       make_index_preamble 1 LOAD_CREATE ++ [EvDiscardIndexStateData]).
Proof.
  assert (LOAD_CREATE <> LOAD_LOAD) as Hl by discriminate.
  assert (LOAD_CREATE <> LOAD_REBUILD) as Hr by discriminate.
  exact (make_index_create quiet 1 LOAD_CREATE None []
           (make_index_preamble 1 LOAD_CREATE) prepared_index
           (scripted_prepared quiet LOAD_CREATE eq_refl eq_refl eq_refl
              eq_refl)
           Hl Hr).
Defined.

(** X10.  [make_index] asked to load or to rebuild an index that did not
    exist: past its allocations it frees the index and returns
    [UDS_NO_INDEX], as it is and not through [logUnrecoverable]; the saved
    state is not read and the volume is not consulted. *)
Theorem make_index_no_index (E : collaborators) (nzones : nat)
    (lt : load_type) (lc : option IndexLoadStatus) (tr0 tr : trace)
    (idx : index) :
  make_index_prepared E nzones lt lc tr0 idx tr ->
  lt = LOAD_LOAD \/ lt = LOAD_REBUILD ->
  existed idx = false ->
  make_index E nzones lt lc tr0
    = (UDS_NO_INDEX, None, tr ++ free_index_events idx).
Proof.
  intros (idx0 & mi & Ha & Hm & Hc1 & Hc2 & Hw & -> & ->) Hlt Hex.
  unfold make_index_preamble in *. cbn [firstn] in *.
  unfold make_index. run.
  answer Ha. answer Hm. answer Hc1. answer Hc2. answer Hw.
  rewrite Hex. cbn [negb].
  destruct Hlt as [-> | ->]; cbn [load_type_eqb orb];
    rewrite free_index_trace; rewrite <- ?app_assoc; reflexivity.
Qed.

Lemma make_index_no_index_witness :
  make_index
    (with_allocate_index (fun _ _ _ => (UDS_SUCCESS, absent_index)) quiet)
    1 LOAD_REBUILD None []
    = (UDS_NO_INDEX, None,
       make_index_preamble 1 LOAD_REBUILD
         ++ [EvFreeChapterWriter; EvFreeMasterIndex; EvReleaseIndex]).
Proof.
  refine (make_index_no_index
            (with_allocate_index (fun _ _ _ => (UDS_SUCCESS, absent_index))
               quiet)
            1 LOAD_REBUILD None [] (make_index_preamble 1 LOAD_REBUILD)
            (set_master_index (Some 1%nat) absent_index) _
            (or_intror eq_refl) eq_refl).
  exists absent_index, 1%nat. repeat split; reflexivity.
Defined.

(** X11.  A failure among the allocations of [make_index] ends it: the
    failing result is returned as it is, no index is handed out, nothing is
    loaded, and what was allocated is freed.  After a failure of
    [allocate_index] nothing is freed; after a failure of
    [makeMasterIndex] the index is freed as [allocate_index] left it; after
    a failure of either [add_index_state_component] or of
    [make_chapter_writer] the index is freed with its master index. *)
Theorem make_index_allocation_failures (E : collaborators) (nzones : nat)
    (lt : load_type) (lc : option IndexLoadStatus) (tr : trace) :
  let events := make_index_preamble nzones lt in
  let allocated := allocate_index E tr nzones lt in
  let idx0 := set_load_context lc (snd allocated) in
  let made := makeMasterIndex E (tr ++ firstn 1 events) nzones in
  let idx1 := set_master_index (Some (snd made)) idx0 in
  let added1 :=
    add_index_state_component E (tr ++ firstn 2 events) MASTER_INDEX_INFO in
  let added2 :=
    add_index_state_component E (tr ++ firstn 3 events) INDEX_PAGE_MAP_INFO in
  let writer := make_chapter_writer E (tr ++ firstn 4 events) in
  (fst allocated <> UDS_SUCCESS ->
   make_index E nzones lt lc tr
     = (fst allocated, None, tr ++ firstn 1 events)) /\
  (fst allocated = UDS_SUCCESS ->
   (fst made <> UDS_SUCCESS ->
    make_index E nzones lt lc tr
      = (fst made, None,
         tr ++ firstn 2 events ++ free_index_events idx0)) /\
   (fst made = UDS_SUCCESS ->
    (added1 <> UDS_SUCCESS ->
     make_index E nzones lt lc tr
       = (added1, None,
          tr ++ firstn 3 events ++ free_index_events idx1)) /\
    (added1 = UDS_SUCCESS ->
     (added2 <> UDS_SUCCESS ->
      make_index E nzones lt lc tr
        = (added2, None,
           tr ++ firstn 4 events ++ free_index_events idx1)) /\
     (added2 = UDS_SUCCESS -> writer <> UDS_SUCCESS ->
      make_index E nzones lt lc tr
        = (writer, None, tr ++ events ++ free_index_events idx1))))).
Proof.
  cbv zeta. unfold make_index_preamble. cbn [firstn].
  unfold make_index. run.
  destruct (allocate_index E tr nzones lt) as [allocated idx0].
  cbn [fst snd]. cbv beta iota. split.
  { intros Hfailed. destruct allocated; try reflexivity; contradiction. }
  intros ->. cbv beta iota. flatten_trace.
  destruct (makeMasterIndex E (tr ++ [EvAllocateIndex nzones lt]) nzones)
    as [made mi].
  cbn [fst snd]. cbv beta iota. split.
  { intros Hfailed. destruct made; try contradiction; cbv beta iota;
      rewrite free_index_trace; flatten_trace; reflexivity. }
  intros ->. cbv beta iota. flatten_trace. split.
  { intros Hfailed.
    destruct (add_index_state_component E _ MASTER_INDEX_INFO);
      try contradiction; cbv beta iota;
      rewrite free_index_trace; flatten_trace; reflexivity. }
  intros ->. cbv beta iota. flatten_trace. split.
  { intros Hfailed.
    destruct (add_index_state_component E _ INDEX_PAGE_MAP_INFO);
      try contradiction; cbv beta iota;
      rewrite free_index_trace; flatten_trace; reflexivity. }
  intros -> Hfailed. cbv beta iota. flatten_trace.
  destruct (make_chapter_writer E _);
    try contradiction; cbv beta iota;
    rewrite free_index_trace; flatten_trace; reflexivity.
Qed.

Lemma make_index_allocation_failures_witness :
  make_index
    (with_allocate_index (fun _ _ _ => (ENOMEM, fresh_index)) quiet)
    1 LOAD_LOAD None []
    = (ENOMEM, None, [EvAllocateIndex 1 LOAD_LOAD]) /\
  make_index (with_makeMasterIndex (fun _ _ => (ENOMEM, 0%nat)) quiet)
    1 LOAD_LOAD None []
    = (ENOMEM, None,
       [EvAllocateIndex 1 LOAD_LOAD; EvMakeMasterIndex 1;
        EvFreeChapterWriter; EvReleaseIndex]) /\
  make_index (with_make_chapter_writer (fun _ => ENOMEM) quiet)
    1 LOAD_LOAD None []
    = (ENOMEM, None,
       make_index_preamble 1 LOAD_LOAD
         ++ [EvFreeChapterWriter; EvFreeMasterIndex; EvReleaseIndex]).
Proof.
  assert (ENOMEM <> UDS_SUCCESS) as Hm by discriminate.
  split; [| split].
  - exact (proj1
             (make_index_allocation_failures
                (with_allocate_index (fun _ _ _ => (ENOMEM, fresh_index))
                   quiet)
                1 LOAD_LOAD None []) Hm).
  - exact (proj1
             (proj2
                (make_index_allocation_failures
                   (with_makeMasterIndex (fun _ _ => (ENOMEM, 0%nat)) quiet)
                   1 LOAD_LOAD None []) eq_refl) Hm).
  - exact (proj2
             (proj2
                (proj2
                   (proj2
                      (make_index_allocation_failures
                         (with_make_chapter_writer (fun _ => ENOMEM) quiet)
                         1 LOAD_LOAD None []) eq_refl) eq_refl) eq_refl)
             eq_refl Hm).
Defined.

(** X12.  What [make_index] hands out.  An index is handed out only with
    success; it then has a saved open chapter exactly when its
    [loaded_type] is [LOAD_LOAD], and its load context, if any, is
    [INDEX_READY].  When no index is handed out, either [allocate_index]
    failed and nothing else was called, or the last call made is
    [release_index]: the index was freed. *)
Theorem make_index_hands_out (E : collaborators) (nzones : nat)
    (lt : load_type) (lc : option IndexLoadStatus) (tr tr' : trace)
    (result : status) (made : option index) :
  make_index E nzones lt lc tr = (result, made, tr') ->
  match made with
  | Some idx =>
      result = UDS_SUCCESS /\
      has_saved_open_chapter idx = load_type_eqb (loaded_type idx) LOAD_LOAD /\
      (load_context idx = None \/ load_context idx = Some INDEX_READY)
  | None =>
      tr' = tr ++ [EvAllocateIndex nzones lt] \/
      hd_error (rev tr') = Some EvReleaseIndex
  end.
Proof.
  unfold make_index, finish_make_index, free_index. run.
  repeat case_scrutinee;
    intros Hrun; inversion Hrun; subst; clear Hrun;
    try (left; reflexivity);
    try (right; rewrite rev_app_distr; reflexivity);
    (split; [reflexivity |]);
    repeat match goal with
           | i : index |- _ => destruct i
           end;
    cbn in *; (split; [reflexivity | auto]).
Qed.

Lemma make_index_hands_out_witness :
  has_saved_open_chapter (set_loaded_type LOAD_CREATE prepared_index)
    = false /\
  hd_error
    (rev (snd (make_index (unreadable ENOMEM) 1 LOAD_REBUILD None [])))
    = Some EvReleaseIndex.
Proof.
  split.
  - exact (proj1
             (proj2
                (make_index_hands_out quiet 1 LOAD_CREATE None []
                   (make_index_preamble 1 LOAD_CREATE
                      ++ [EvDiscardIndexStateData])
                   UDS_SUCCESS
                   (Some (set_loaded_type LOAD_CREATE prepared_index))
                   eq_refl))).
  - destruct (make_index_hands_out (unreadable ENOMEM) 1 LOAD_REBUILD None
                []
                (snd (make_index (unreadable ENOMEM) 1 LOAD_REBUILD None []))
                (UDS_OTHER 131072) None eq_refl) as [Hnever | Hfreed].
    + discriminate Hnever.
    + exact Hfreed.
Defined.

(** *** Replaying the volume *)

(** X13.  [replay_volume] from a chapter at or past the newest one replays
    nothing: it tells the master index the open chapter (the newest, the
    start, the newest again), reads the index page map's last update
    twice, succeeds and leaves the index as it was. *)
Theorem replay_volume_empty_range (E : collaborators) (idx : index)
    (from_vcn : Z) (tr : trace) :
  newest_virtual_chapter idx <= from_vcn ->
  replay_volume E idx from_vcn tr
    = (UDS_SUCCESS, idx,
       tr ++ [EvSetMasterIndexOpenChapter (newest_virtual_chapter idx);
              EvSetMasterIndexOpenChapter from_vcn;
              EvGetLastUpdate;
              EvSetMasterIndexOpenChapter (newest_virtual_chapter idx);
              EvGetLastUpdate]).
Proof.
  intros Hpast. unfold replay_volume. run.
  replace (Z.to_nat (newest_virtual_chapter idx - from_vcn)) with O by lia.
  cbn [replay_chapters_from]. run.
  rewrite set_lookupMode_restore. reflexivity.
Qed.

Lemma replay_volume_empty_range_witness :
  replay_volume quiet brimful_index 8 []
    = (UDS_SUCCESS, brimful_index,
       [EvSetMasterIndexOpenChapter 8; EvSetMasterIndexOpenChapter 8;
        EvGetLastUpdate; EvSetMasterIndexOpenChapter 8; EvGetLastUpdate]).
Proof.
  assert (8 <= 8) as H8 by (vm_compute; discriminate).
  exact (replay_volume_empty_range quiet brimful_index 8 [] H8).
Defined.

Lemma replay_chapters_from_unwatched (E : collaborators) (n : nat)
    (idx : index) (old : IndexLookupMode) (from_vcn upto_vcn vcn : Z)
    (tr : trace) :
  load_context idx = None ->
  snd (fst (replay_chapters_from E idx old from_vcn upto_vcn vcn n tr))
    = match fst (fst (replay_chapters_from E idx old from_vcn upto_vcn vcn
                        n tr)) with
      | Some _ => set_lookupMode old idx
      | None => idx
      end.
Proof.
  intros Hnone. revert vcn tr. induction n as [| n IH]; intros vcn tr.
  - reflexivity.
  - cbn [replay_chapters_from]. unfold check_for_suspend.
    rewrite Hnone. unfold bind, call, ret. cbv beta iota.
    match goal with
    | |- context [rebuild_index_page_map E idx vcn ?t] =>
        destruct (rebuild_index_page_map E idx vcn t) as [result tr2]
    end.
    destruct result; try reflexivity.
    match goal with
    | |- context [replay_record_pages_from E idx vcn ?c ?b ?j ?m ?t] =>
        destruct (replay_record_pages_from E idx vcn c b j m t)
          as [returned tr3]
    end.
    destruct returned; [reflexivity | apply IH].
Qed.

(** X14.  Without a load context [replay_volume] returns the index exactly
    as it got it, whatever happens: on success and on every failure the
    lookup mode of the volume is back to what it was and the chapter
    bounds are untouched. *)
Theorem replay_volume_restores_index (E : collaborators) (idx : index)
    (from_vcn : Z) (tr : trace) :
  load_context idx = None ->
  snd (fst (replay_volume E idx from_vcn tr)) = idx.
Proof.
  intros Hnone. unfold replay_volume, bind, call, ret.
  match goal with
  | |- context [replay_chapters_from E ?i ?o ?f ?u ?v ?n ?t] =>
      pose proof (replay_chapters_from_unwatched E n i o f u v t) as Hloop;
      destruct (replay_chapters_from E i o f u v n t)
        as [[returned idx1] tr1]
  end.
  cbn [fst snd] in Hloop.
  rewrite Hloop by (destruct idx; exact Hnone).
  destruct returned; cbn [fst snd]; apply set_lookupMode_restore.
Qed.

Lemma replay_volume_restores_index_witness :
  snd (fst (replay_volume (holding 7 true) brimful_index 2 []))
    = brimful_index.
Proof.
  exact (replay_volume_restores_index (holding 7 true) brimful_index 2 []
           eq_refl).
Defined.

(** X15.  A replay that is told to shut down before its first chapter:
    under a load context whose status is [INDEX_SUSPENDING] and whose wait
    ends with [INDEX_FREEING], [replay_volume] over a non-empty range
    returns [UDS_SHUTTINGDOWN] without reading a page or touching a record,
    and it returns with the lookup mode of the volume still
    [LOOKUP_FOR_REBUILD]. *)
Theorem replay_volume_shutdown (E : collaborators) (idx : index)
    (from_vcn : Z) (seen : IndexLoadStatus) (tr : trace) :
  load_context idx = Some seen ->
  from_vcn < newest_virtual_chapter idx ->
  let tr1 :=
    tr ++ [EvSetMasterIndexOpenChapter (newest_virtual_chapter idx);
           EvSetMasterIndexOpenChapter from_vcn;
           EvGetLastUpdate] in
  load_context_status E tr1 = INDEX_SUSPENDING ->
  wait_ended_by_freeing E (tr1 ++ [EvLoadContextLocked]) = true ->
  replay_volume E idx from_vcn tr
    = (UDS_SHUTTINGDOWN,
       set_load_context (Some INDEX_FREEING)
         (set_lookupMode LOOKUP_FOR_REBUILD idx),
       tr1 ++ [EvLoadContextLocked; EvLoadContextSuspended]).
Proof.
  intros Hwatched Hrange tr1 Hstatus Hfreeing. subst tr1.
  unfold replay_volume. run.
  destruct (Z.to_nat (newest_virtual_chapter idx - from_vcn)) as [| n] eqn:Hn;
    [lia |].
  cbn [replay_chapters_from]. unfold check_for_suspend.
  cbn [load_context set_lookupMode]. rewrite Hwatched. run.
  rewrite Hstatus. cbv beta iota. flatten_trace.
  rewrite <- app_assoc in Hfreeing. cbn [app] in Hfreeing.
  rewrite Hfreeing. reflexivity.
Qed.

Lemma replay_volume_shutdown_witness :
  replay_volume freeing watched_index 0 []
    = (UDS_SHUTTINGDOWN,
       set_load_context (Some INDEX_FREEING)
         (set_lookupMode LOOKUP_FOR_REBUILD watched_index),
       [EvSetMasterIndexOpenChapter 3; EvSetMasterIndexOpenChapter 0;
        EvGetLastUpdate; EvLoadContextLocked; EvLoadContextSuspended]).
Proof.
  exact (replay_volume_shutdown freeing watched_index 0 INDEX_OPENING []
           eq_refl eq_refl eq_refl eq_refl).
Defined.

Lemma rebuild_index_page_map_from_chain (E : collaborators)
    (vcn chapter : Z) (n : nat) (expected first : Z) (tr tr' : trace) :
  (forall (t1 t2 : trace) (page : Z),
     getPage E t1 chapter page CACHE_PROBE_INDEX_FIRST
       = getPage E t2 chapter page CACHE_PROBE_INDEX_FIRST) ->
  0 <= first -> first + Z.of_nat n <= 2 ^ 32 ->
  rebuild_index_page_map_from E vcn chapter expected first n tr
    = (UDS_SUCCESS, tr') ->
  let page k :=
    snd (snd (getPage E [] chapter k CACHE_PROBE_INDEX_FIRST)) in
  ((0 < n)%nat -> lowest_list_number (page first) = expected) /\
  (forall k : Z,
     first <= k -> k + 1 < first + Z.of_nat n ->
     lowest_list_number (page (k + 1))
       = wrap32 (highest_list_number (page k) + 1)).
Proof.
  intros Hstable. cbv zeta.
  revert expected first tr.
  induction n as [| n IH]; intros expected first tr Hfirst Hbound Hrun.
  - split; [lia |]. intros k Hk1 Hk2. lia.
  - cbn [rebuild_index_page_map_from] in Hrun.
    unfold bind, call, ret in Hrun.
    rewrite (Hstable tr [] first) in Hrun.
    destruct (getPage E [] chapter first CACHE_PROBE_INDEX_FIRST)
      as [result [bytes page]] eqn:Hpage.
    cbn [snd]. cbv beta iota in Hrun.
    unfold logErrorWithStringError in Hrun.
    destruct result; try discriminate Hrun.
    destruct (Z.eqb_spec (lowest_list_number page) expected) as [Hlow | Hgap];
      [| discriminate Hrun].
    cbn [negb] in Hrun.
    match type of Hrun with
    | context [update_index_page_map E ?t ?a ?b ?c ?d] =>
        destruct (update_index_page_map E t a b c d)
    end; try discriminate Hrun.
    destruct n as [| m]; [split; [intros _; exact Hlow | intros; lia] |].
    assert (wrap32 (first + 1) = first + 1) as Hnext
      by (unfold wrap32; apply Z.mod_small; lia).
    rewrite Hnext in Hrun.
    assert (0 <= first + 1) as Hfirst' by lia.
    assert (first + 1 + Z.of_nat (S m) <= 2 ^ 32) as Hbound' by lia.
    destruct (IH _ _ _ Hfirst' Hbound' Hrun) as [Hhead Htail].
    split; [intros _; exact Hlow |].
    intros k Hk1 Hk2.
    destruct (Z.eq_dec k first) as [-> | Hlater].
    + rewrite Hpage. cbn [snd]. apply Hhead. lia.
    + apply Htail; lia.
Qed.

(** X16.  What a successful [rebuild_index_page_map] certifies.  On a
    volume whose index pages do not change while they are read, success
    means that the first index page of the chapter starts at delta list 0
    and that every further index page starts at the delta list after the
    last one of the page before it (in [unsigned int] arithmetic): the
    index pages cover consecutive delta lists. *)
Theorem rebuild_index_page_map_certifies (E : collaborators) (idx : index)
    (vcn : Z) (tr tr' : trace) :
  let g := volume_geometry idx in
  let chapter := map_to_physical_chapter g vcn in
  let page k :=
    snd (snd (getPage E [] chapter k CACHE_PROBE_INDEX_FIRST)) in
  (forall (t1 t2 : trace) (p : Z),
     getPage E t1 chapter p CACHE_PROBE_INDEX_FIRST
       = getPage E t2 chapter p CACHE_PROBE_INDEX_FIRST) ->
  0 <= index_pages_per_chapter g <= UINT_MAX ->
  rebuild_index_page_map E idx vcn tr = (UDS_SUCCESS, tr') ->
  (0 < index_pages_per_chapter g -> lowest_list_number (page 0) = 0) /\
  (forall k : Z,
     0 <= k -> k + 1 < index_pages_per_chapter g ->
     lowest_list_number (page (k + 1))
       = wrap32 (highest_list_number (page k) + 1)).
Proof.
  cbv zeta. unfold UINT_MAX. intros Hstable Hpages Hrun.
  unfold rebuild_index_page_map in Hrun.
  destruct (rebuild_index_page_map_from_chain E vcn
              (map_to_physical_chapter (volume_geometry idx) vcn)
              (Z.to_nat (index_pages_per_chapter (volume_geometry idx)))
              0 0 tr tr' Hstable ltac:(lia) ltac:(lia) Hrun)
    as [Hhead Htail].
  split.
  - intros Hsome. apply Hhead. lia.
  - intros k Hk1 Hk2. apply Htail; lia.
Qed.

Lemma rebuild_index_page_map_certifies_witness :
  lowest_list_number
    (snd (snd (getPage paged [] 5 0 CACHE_PROBE_INDEX_FIRST))) = 0 /\
  lowest_list_number
    (snd (snd (getPage paged [] 5 2 CACHE_PROBE_INDEX_FIRST)))
    = wrap32
        (highest_list_number
           (snd (snd (getPage paged [] 5 1 CACHE_PROBE_INDEX_FIRST))) + 1).
Proof.
  assert (0 <= 3 <= UINT_MAX) as Hpages
    by (split; vm_compute; discriminate).
  assert (0 <= 1) as H1 by (vm_compute; discriminate).
  destruct (rebuild_index_page_map_certifies paged three_page_index 13 []
              (snd (rebuild_index_page_map paged three_page_index 13 []))
              (fun _ _ _ => eq_refl) Hpages eq_refl)
    as [Hhead Htail].
  split.
  - exact (Hhead eq_refl).
  - exact (Htail 1 H1 eq_refl).
Defined.

(** *** More on searching a zone *)

Ltac case_request :=
  case_scrutinee;
  cbn [action update set_location chunkName location is_action negb andb
       orb].

(** X17.  A query without the update flag changes nothing: every run of
    [search_index_zone] for a [REQUEST_QUERY] whose update flag is off
    makes lookups only (of the master index, of the zone, of the sparse
    cache), whatever they answer. *)
Theorem search_query_never_mutates (E : collaborators) (idx : index)
    (zone : index_zone) (request request' : Request) (tr tr' : trace)
    (result : status) :
  action request = REQUEST_QUERY -> update request = false ->
  search_index_zone E idx zone request tr = (result, request', tr') ->
  exists lookups : list event,
    tr' = tr ++ lookups /\ forallb is_lookup lookups = true.
Proof.
  destruct request as [name zn act upd rq nmeta ometa loc].
  cbn [action update]. intros -> ->.
  unfold search_index_zone, finish_search. run.
  cbn [action update set_location chunkName location is_action negb andb
       orb].
  repeat case_request;
    intros Hrun; inversion Hrun; subst; clear Hrun;
    eexists; (split; [reflexivity | reflexivity]).
Qed.

Lemma search_query_never_mutates_witness :
  exists lookups : list event,
    [EvGetMasterIndexRecord some_name; EvGetRecordFromZone 0 some_name 2]
      = [] ++ lookups /\
    forallb is_lookup lookups = true.
Proof.
  exact (search_query_never_mutates
           (indexed (mk_record true false 2) true UDS_SUCCESS LOC_IN_DENSE)
           fresh_index zone0 (some_request REQUEST_QUERY false)
           (some_request REQUEST_QUERY false) []
           [EvGetMasterIndexRecord some_name;
            EvGetRecordFromZone 0 some_name 2]
           UDS_SUCCESS eq_refl eq_refl eq_refl).
Defined.

Ltac allowed_call :=
  cbn; repeat split; try reflexivity;
  try (let Hold := fresh in
       let Hupdate := fresh in
       intros Hold; try discriminate Hold; intros Hupdate; subst;
       repeat match goal with
              | H : _ = false |- _ =>
                  cbn in H; rewrite ?orb_true_r in H; discriminate H
              end).

(** X18.  The calls of [search_index_zone].  In every run, every call is
    about the request's own name in the zone it was given: the lookups;
    [setMasterIndexRecordChapter] and [putMasterIndexRecord] only ever
    with the zone's newest chapter; [putRecordInZone] only for that name,
    and with the old metadata only when the request is not an update.
    Nothing is ever removed. *)
Theorem search_index_zone_calls (E : collaborators) (idx : index)
    (zone : index_zone) (request request' : Request) (tr tr' : trace)
    (result : status) :
  search_index_zone E idx zone request tr = (result, request', tr') ->
  exists added : list event,
    tr' = tr ++ added /\ Forall (search_call zone request) added.
Proof.
  destruct request as [name zn act upd rq nmeta ometa loc].
  unfold search_index_zone, finish_search. run.
  cbn [action update set_location chunkName location].
  repeat case_request;
    intros Hrun; inversion Hrun; subst; clear Hrun;
    eexists; (split; [reflexivity |]);
    repeat (apply Forall_cons; [allowed_call |]); apply Forall_nil.
Qed.

Lemma search_index_zone_calls_witness :
  exists added : list event,
    [EvGetMasterIndexRecord some_name;
     EvGetRecordFromZone 0 some_name 2;
     EvSetMasterIndexRecordChapter (mk_record true false 2) 5;
     EvPutRecordInZone 0 some_name OLD_METADATA] = [] ++ added /\
    Forall (search_call zone0 (some_request REQUEST_INDEX false)) added.
Proof.
  exact (search_index_zone_calls
           (indexed (mk_record true false 2) true UDS_SUCCESS LOC_IN_DENSE)
           fresh_index zone0 (some_request REQUEST_INDEX false)
           (some_request REQUEST_INDEX false) []
           [EvGetMasterIndexRecord some_name;
            EvGetRecordFromZone 0 some_name 2;
            EvSetMasterIndexRecordChapter (mk_record true false 2) 5;
            EvPutRecordInZone 0 some_name OLD_METADATA]
           UDS_SUCCESS eq_refl).
Defined.

(** X19.  Indexing a new name.  When the master index has no record of
    the name and the sparse cache is not consulted (the name is a sample,
    or the geometry is dense), a request that is not a query puts a record
    for the zone's newest chapter; if that succeeds the name goes into the
    open chapter with the new metadata and the result is that of
    [putRecordInZone]; any failure of the put other than [UDS_OVERFLOW] is
    returned and the open chapter is left alone.  The location stays as
    it was. *)
Theorem search_inserts_new_name (E : collaborators) (idx : index)
    (zone : index_zone) (request : Request) (tr : trace)
    (record : MasterIndexRecord) :
  getMasterIndexRecord E tr (chunkName request) = (UDS_SUCCESS, record) ->
  isFound record = false ->
  isMasterIndexSample E (chunkName request) = true
  \/ is_sparse E (volume_geometry idx) = false ->
  action request = REQUEST_INDEX \/ action request = REQUEST_UPDATE ->
  let name := chunkName request in
  let chapter := newestVirtualChapter zone in
  let tr1 := tr ++ [EvGetMasterIndexRecord name] in
  let tr2 :=
    tr ++ [EvGetMasterIndexRecord name; EvPutMasterIndexRecord record chapter]
  in
  let put := putMasterIndexRecord E tr1 record chapter in
  (put = UDS_SUCCESS ->
   search_index_zone E idx zone request tr
     = (putRecordInZone E tr2 zone request NEW_METADATA, request,
        tr2 ++ [EvPutRecordInZone (id zone) name NEW_METADATA])) /\
  (put <> UDS_SUCCESS -> put <> UDS_OVERFLOW ->
   search_index_zone E idx zone request tr = (put, request, tr2)).
Proof.
  intros Hlookup Hnone Hdense Haction. cbv zeta.
  unfold search_index_zone, finish_search. run. answer Hlookup.
  rewrite Hnone. cbv beta iota. cbn [andb orb].
  assert (negb (isMasterIndexSample E (chunkName request))
          && is_sparse E (volume_geometry idx) = false) as Hcache.
  { destruct Hdense as [-> | ->]; [reflexivity | apply andb_false_r]. }
  rewrite Hcache. cbv beta iota.
  assert (is_action (action request) REQUEST_QUERY = false) as Hquery
    by (destruct Haction as [-> | ->]; reflexivity).
  rewrite Hquery. cbn [andb negb orb]. flatten_trace.
  split.
  - intros ->. cbv beta iota. flatten_trace. reflexivity.
  - intros Hfailed Hoverflow.
    destruct (putMasterIndexRecord E _ record (newestVirtualChapter zone));
      try reflexivity; contradiction.
Qed.

Lemma search_inserts_new_name_witness :
  search_index_zone quiet fresh_index zone0
    (some_request REQUEST_INDEX false) []
    = (UDS_SUCCESS, some_request REQUEST_INDEX false,
       [EvGetMasterIndexRecord some_name;
        EvPutMasterIndexRecord no_record 5;
        EvPutRecordInZone 0 some_name NEW_METADATA]) /\
  search_index_zone (indexed no_record false ENOMEM LOC_IN_DENSE)
    fresh_index zone0 (some_request REQUEST_UPDATE false) []
    = (ENOMEM, some_request REQUEST_UPDATE false,
       [EvGetMasterIndexRecord some_name;
        EvPutMasterIndexRecord no_record 5]).
Proof.
  assert (ENOMEM <> UDS_SUCCESS) as Hs by discriminate.
  assert (ENOMEM <> UDS_OVERFLOW) as Ho by discriminate.
  split.
  - exact (proj1
             (search_inserts_new_name quiet fresh_index zone0
                (some_request REQUEST_INDEX false) [] no_record eq_refl
                eq_refl (or_intror eq_refl) (or_introl eq_refl))
             eq_refl).
  - exact (proj2
             (search_inserts_new_name
                (indexed no_record false ENOMEM LOC_IN_DENSE) fresh_index
                zone0 (some_request REQUEST_UPDATE false) [] no_record
                eq_refl eq_refl (or_intror eq_refl) (or_intror eq_refl))
             Hs Ho).
Defined.

(** X20.  Finding a name the zone confirms.  The location of the request
    becomes the region of the record's chapter.  If the record already
    points at the zone's newest chapter, a request that is not an update
    is done, with no call after the two lookups, and an update writes the
    new metadata into the open chapter without touching the master index.
    If the record points at another chapter and the request is not a
    query without update, the record is pointed at the newest chapter and,
    when that succeeds, the name goes into the open chapter, with the new
    metadata for an update and the old metadata otherwise. *)
Theorem search_found_name (E : collaborators) (idx : index)
    (zone : index_zone) (request : Request) (tr : trace)
    (record : MasterIndexRecord) :
  getMasterIndexRecord E tr (chunkName request) = (UDS_SUCCESS, record) ->
  isFound record = true ->
  getRecordFromZone E (tr ++ [EvGetMasterIndexRecord (chunkName request)])
    zone request (virtualChapter record) = (UDS_SUCCESS, true) ->
  let name := chunkName request in
  let newest := newestVirtualChapter zone in
  let located :=
    set_location (computeIndexRegion E zone (virtualChapter record)) request
  in
  let tr2 :=
    tr ++ [EvGetMasterIndexRecord name;
           EvGetRecordFromZone (id zone) name (virtualChapter record)] in
  let metadata :=
    if is_action (action request) REQUEST_UPDATE then NEW_METADATA
    else OLD_METADATA in
  (virtualChapter record = newest ->
   (action request = REQUEST_INDEX \/
    action request = REQUEST_QUERY /\ update request = true ->
    search_index_zone E idx zone request tr = (UDS_SUCCESS, located, tr2)) /\
   (action request = REQUEST_UPDATE ->
    search_index_zone E idx zone request tr
      = (putRecordInZone E tr2 zone located NEW_METADATA, located,
         tr2 ++ [EvPutRecordInZone (id zone) name NEW_METADATA]))) /\
  (virtualChapter record <> newest ->
   action request = REQUEST_INDEX \/ action request = REQUEST_UPDATE \/
   action request = REQUEST_QUERY /\ update request = true ->
   setMasterIndexRecordChapter E tr2 record newest = UDS_SUCCESS ->
   let tr3 := tr2 ++ [EvSetMasterIndexRecordChapter record newest] in
   search_index_zone E idx zone request tr
     = (putRecordInZone E tr3 zone located metadata, located,
        tr3 ++ [EvPutRecordInZone (id zone) name metadata])).
Proof.
  intros Hlookup Hfound Hzone. cbv zeta.
  unfold search_index_zone, finish_search. run. answer Hlookup.
  rewrite Hfound. answer Hzone.
  cbn [orb negb andb action update set_location chunkName].
  rewrite andb_false_r. rewrite orb_false_r.
  split.
  - intros Hopen. apply Z.eqb_eq in Hopen. rewrite Hopen. cbn [negb].
    split.
    + intros [-> | [-> ->]]; reflexivity.
    + intros ->. cbn [is_action negb andb]. cbv beta iota. flatten_trace.
      reflexivity.
  - intros Holder Haction Hset. apply Z.eqb_neq in Holder.
    rewrite Holder. cbn [negb].
    destruct Haction as [-> | [-> | [-> ->]]];
      cbn [is_action negb andb]; cbv beta iota; flatten_trace;
      rewrite Hset; cbv beta iota; flatten_trace; reflexivity.
Qed.

Lemma search_found_name_witness :
  search_index_zone
    (indexed (mk_record true false 5) true UDS_SUCCESS LOC_IN_OPEN_CHAPTER)
    fresh_index zone0 (some_request REQUEST_INDEX false) []
    = (UDS_SUCCESS,
       set_location LOC_IN_OPEN_CHAPTER (some_request REQUEST_INDEX false),
       [EvGetMasterIndexRecord some_name;
        EvGetRecordFromZone 0 some_name 5]) /\
  search_index_zone
    (indexed (mk_record true false 5) true UDS_SUCCESS LOC_IN_OPEN_CHAPTER)
    fresh_index zone0 (some_request REQUEST_UPDATE false) []
    = (UDS_SUCCESS,
       set_location LOC_IN_OPEN_CHAPTER (some_request REQUEST_UPDATE false),
       [EvGetMasterIndexRecord some_name;
        EvGetRecordFromZone 0 some_name 5;
        EvPutRecordInZone 0 some_name NEW_METADATA]) /\
  search_index_zone
    (indexed (mk_record true false 2) true UDS_SUCCESS LOC_IN_SPARSE)
    fresh_index zone0 (some_request REQUEST_QUERY true) []
    = (UDS_SUCCESS,
       set_location LOC_IN_SPARSE (some_request REQUEST_QUERY true),
       [EvGetMasterIndexRecord some_name;
        EvGetRecordFromZone 0 some_name 2;
        EvSetMasterIndexRecordChapter (mk_record true false 2) 5;
        EvPutRecordInZone 0 some_name OLD_METADATA]).
Proof.
  assert (2 <> 5) as H25 by discriminate.
  split; [| split].
  - exact (proj1
             (proj1
                (search_found_name
                   (indexed (mk_record true false 5) true UDS_SUCCESS
                      LOC_IN_OPEN_CHAPTER)
                   fresh_index zone0 (some_request REQUEST_INDEX false) []
                   (mk_record true false 5) eq_refl eq_refl eq_refl)
                eq_refl)
             (or_introl eq_refl)).
  - exact (proj2
             (proj1
                (search_found_name
                   (indexed (mk_record true false 5) true UDS_SUCCESS
                      LOC_IN_OPEN_CHAPTER)
                   fresh_index zone0 (some_request REQUEST_UPDATE false) []
                   (mk_record true false 5) eq_refl eq_refl eq_refl)
                eq_refl)
             eq_refl).
  - exact (proj2
             (search_found_name
                (indexed (mk_record true false 2) true UDS_SUCCESS
                   LOC_IN_SPARSE)
                fresh_index zone0 (some_request REQUEST_QUERY true) []
                (mk_record true false 2) eq_refl eq_refl eq_refl)
             H25 (or_intror (or_intror (conj eq_refl eq_refl))) eq_refl).
Defined.

(** X21.  A name found only in the sparse cache.  When the master index
    has no record of a name that is not a sample and the geometry is
    sparse, the whole sparse cache is searched.  On a hit the location of
    the request becomes [LOC_IN_SPARSE]; a query without update stops
    there; any other request puts a record for the newest chapter and,
    when that succeeds, writes the name into the open chapter, with the
    old metadata unless the request is an update.  On a miss a query
    stops, changing nothing, even when its update flag is on. *)
Theorem search_sparse_cache (E : collaborators) (idx : index)
    (zone : index_zone) (request : Request) (tr : trace)
    (record : MasterIndexRecord) (cached : bool) :
  getMasterIndexRecord E tr (chunkName request) = (UDS_SUCCESS, record) ->
  isFound record = false ->
  isMasterIndexSample E (chunkName request) = false ->
  is_sparse E (volume_geometry idx) = true ->
  searchSparseCacheInZone E
    (tr ++ [EvGetMasterIndexRecord (chunkName request)]) zone request
    UINT64_MAX = (UDS_SUCCESS, cached) ->
  let name := chunkName request in
  let newest := newestVirtualChapter zone in
  let tr2 :=
    tr ++ [EvGetMasterIndexRecord name;
           EvSearchSparseCacheInZone (id zone) name UINT64_MAX] in
  let located := set_location LOC_IN_SPARSE request in
  let metadata :=
    if is_action (action request) REQUEST_UPDATE then NEW_METADATA
    else OLD_METADATA in
  (cached = true -> action request = REQUEST_QUERY ->
   update request = false ->
   search_index_zone E idx zone request tr = (UDS_SUCCESS, located, tr2)) /\
  (cached = true ->
   action request = REQUEST_INDEX \/ action request = REQUEST_UPDATE \/
   action request = REQUEST_QUERY /\ update request = true ->
   putMasterIndexRecord E tr2 record newest = UDS_SUCCESS ->
   let tr3 := tr2 ++ [EvPutMasterIndexRecord record newest] in
   search_index_zone E idx zone request tr
     = (putRecordInZone E tr3 zone located metadata, located,
        tr3 ++ [EvPutRecordInZone (id zone) name metadata])) /\
  (cached = false -> action request = REQUEST_QUERY ->
   search_index_zone E idx zone request tr = (UDS_SUCCESS, request, tr2)).
Proof.
  intros Hlookup Hnone Hsample Hsparse Hcache. cbv zeta.
  unfold search_index_zone, finish_search. run. answer Hlookup.
  rewrite Hnone. cbv beta iota. cbn [andb orb].
  rewrite Hsample, Hsparse. cbn [negb andb]. flatten_trace.
  answer Hcache.
  split; [| split].
  - intros -> Hquery Hoff.
    cbn [action update set_location]. rewrite Hquery, Hoff. reflexivity.
  - intros -> Haction Hput.
    cbn [action update set_location chunkName negb orb].
    destruct Haction as [-> | [-> | [-> ->]]];
      cbn [is_action negb andb orb]; cbv beta iota; flatten_trace;
      rewrite Hput; cbv beta iota; flatten_trace; reflexivity.
  - intros -> ->. reflexivity.
Qed.

Lemma search_sparse_cache_witness :
  search_index_zone (sparse_cached (UDS_SUCCESS, true)) fresh_index zone0
    (some_request REQUEST_QUERY false) []
    = (UDS_SUCCESS,
       set_location LOC_IN_SPARSE (some_request REQUEST_QUERY false),
       [EvGetMasterIndexRecord some_name;
        EvSearchSparseCacheInZone 0 some_name UINT64_MAX]) /\
  search_index_zone (sparse_cached (UDS_SUCCESS, true)) fresh_index zone0
    (some_request REQUEST_INDEX false) []
    = (UDS_SUCCESS,
       set_location LOC_IN_SPARSE (some_request REQUEST_INDEX false),
       [EvGetMasterIndexRecord some_name;
        EvSearchSparseCacheInZone 0 some_name UINT64_MAX;
        EvPutMasterIndexRecord no_record 5;
        EvPutRecordInZone 0 some_name OLD_METADATA]) /\
  search_index_zone (sparse_cached (UDS_SUCCESS, false)) fresh_index zone0
    (some_request REQUEST_QUERY true) []
    = (UDS_SUCCESS, some_request REQUEST_QUERY true,
       [EvGetMasterIndexRecord some_name;
        EvSearchSparseCacheInZone 0 some_name UINT64_MAX]).
Proof.
  split; [| split].
  - exact (proj1
             (search_sparse_cache (sparse_cached (UDS_SUCCESS, true))
                fresh_index zone0 (some_request REQUEST_QUERY false) []
                no_record true eq_refl eq_refl eq_refl eq_refl eq_refl)
             eq_refl eq_refl eq_refl).
  - exact (proj1 (proj2
             (search_sparse_cache (sparse_cached (UDS_SUCCESS, true))
                fresh_index zone0 (some_request REQUEST_INDEX false) []
                no_record true eq_refl eq_refl eq_refl eq_refl eq_refl))
             eq_refl (or_introl eq_refl) eq_refl).
  - exact (proj2 (proj2
             (search_sparse_cache (sparse_cached (UDS_SUCCESS, false))
                fresh_index zone0 (some_request REQUEST_QUERY true) []
                no_record false eq_refl eq_refl eq_refl eq_refl eq_refl))
             eq_refl eq_refl).
Defined.

(** X22.  A lookup that fails ends the request.  In [search_index_zone]
    and in [remove_from_index_zone] alike, the failure of
    [getMasterIndexRecord] is returned with the request untouched and no
    further call; in [search_index_zone] the same holds for a failure of
    the sparse-cache search, after the two lookups; nothing is put, set or
    removed. *)
Theorem lookup_failure_ends_request (E : collaborators) (idx : index)
    (zone : index_zone) (request : Request) (tr : trace)
    (record : MasterIndexRecord) (result : status) :
  getMasterIndexRecord E tr (chunkName request) = (result, record) ->
  let name := chunkName request in
  let tr1 := tr ++ [EvGetMasterIndexRecord name] in
  (result <> UDS_SUCCESS ->
   search_index_zone E idx zone request tr = (result, request, tr1) /\
   remove_from_index_zone E idx zone request tr = (result, request, tr1)) /\
  (result = UDS_SUCCESS -> isFound record = false ->
   isMasterIndexSample E name = false ->
   is_sparse E (volume_geometry idx) = true ->
   fst (searchSparseCacheInZone E tr1 zone request UINT64_MAX)
     <> UDS_SUCCESS ->
   search_index_zone E idx zone request tr
     = (fst (searchSparseCacheInZone E tr1 zone request UINT64_MAX),
        request,
        tr ++ [EvGetMasterIndexRecord name;
               EvSearchSparseCacheInZone (id zone) name UINT64_MAX])).
Proof.
  intros Hlookup. cbv zeta. split.
  - intros Hfailed. split.
    + unfold search_index_zone. run. answer Hlookup.
      destruct result; try reflexivity; contradiction.
    + unfold remove_from_index_zone. run. answer Hlookup.
      destruct result; try reflexivity; contradiction.
  - intros -> Hnone Hsample Hsparse Hfailed.
    unfold search_index_zone. run. answer Hlookup.
    rewrite Hnone. cbv beta iota. cbn [andb orb].
    rewrite Hsample, Hsparse. cbn [negb andb]. flatten_trace.
    destruct (searchSparseCacheInZone E _ zone request UINT64_MAX)
      as [failure cached].
    cbn [fst] in *. cbv beta iota. flatten_trace.
    destruct failure; try reflexivity; contradiction.
Qed.

Lemma lookup_failure_ends_request_witness :
  search_index_zone lookup_failing fresh_index zone0
    (some_request REQUEST_INDEX false) []
    = (UDS_CORRUPT_DATA, some_request REQUEST_INDEX false,
       [EvGetMasterIndexRecord some_name]) /\
  remove_from_index_zone lookup_failing fresh_index zone0
    (some_request REQUEST_INDEX false) []
    = (UDS_CORRUPT_DATA, some_request REQUEST_INDEX false,
       [EvGetMasterIndexRecord some_name]) /\
  search_index_zone (sparse_cached (ENOMEM, false)) fresh_index zone0
    (some_request REQUEST_INDEX false) []
    = (ENOMEM, some_request REQUEST_INDEX false,
       [EvGetMasterIndexRecord some_name;
        EvSearchSparseCacheInZone 0 some_name UINT64_MAX]).
Proof.
  assert (UDS_CORRUPT_DATA <> UDS_SUCCESS) as Hc by discriminate.
  assert (ENOMEM <> UDS_SUCCESS) as Hm by discriminate.
  destruct (proj1
              (lookup_failure_ends_request lookup_failing fresh_index zone0
                 (some_request REQUEST_INDEX false) [] no_record
                 UDS_CORRUPT_DATA eq_refl) Hc) as [Hsearch Hremove].
  split; [exact Hsearch |]. split; [exact Hremove |].
  exact (proj2
           (lookup_failure_ends_request (sparse_cached (ENOMEM, false))
              fresh_index zone0 (some_request REQUEST_INDEX false) []
              no_record UDS_SUCCESS eq_refl)
           eq_refl eq_refl eq_refl eq_refl Hm).
Defined.

(** *** The synthesized barrier *)

(** X23.  [simulate_index_zone_barrier_message].  On an index with more
    than one zone, or with a dense geometry, it makes no call and
    succeeds.  On a single-zone sparse index it triages the name; unless
    the name is a hook of a chapter that is sparse in the request's zone
    (and that chapter is not the number 2^64 - 1, which stands for "no
    chapter") it succeeds with no further call; otherwise it executes the
    barrier message for that chapter and returns what the execution
    returns. *)
Theorem barrier_message_outcomes (E : collaborators) (idx : index)
    (zone : index_zone) (request : Request) (tr : trace) :
  let name := chunkName request in
  let triage := lookupMasterIndexName E tr name in
  let chapter := triage_virtualChapter triage in
  let hook :=
    inSampledChapter triage
    && isZoneChapterSparse E (get_request_zone idx request) chapter
    && negb (chapter =? UINT64_MAX) in
  let tr1 := tr ++ [EvLookupMasterIndexName name] in
  ((1 < zone_count idx)%nat \/ is_sparse E (volume_geometry idx) = false ->
   simulate_index_zone_barrier_message E idx zone request tr
     = (UDS_SUCCESS, tr)) /\
  ((zone_count idx <= 1)%nat -> is_sparse E (volume_geometry idx) = true ->
   (hook = false ->
    simulate_index_zone_barrier_message E idx zone request tr
      = (UDS_SUCCESS, tr1)) /\
   (hook = true ->
    simulate_index_zone_barrier_message E idx zone request tr
      = (executeSparseCacheBarrierMessage E tr1 zone chapter,
         tr1 ++ [EvExecuteSparseCacheBarrierMessage (id zone) chapter]))).
Proof.
  cbv zeta. unfold simulate_index_zone_barrier_message, triage_index_request.
  split.
  - intros [Hzones | Hdense].
    + apply Nat.ltb_lt in Hzones. rewrite Hzones. reflexivity.
    + rewrite Hdense. cbn [negb]. rewrite orb_true_r. reflexivity.
  - intros Hsingle Hsparse.
    assert ((1 <? zone_count idx)%nat = false) as Hzones
      by (apply Nat.ltb_ge; exact Hsingle).
    rewrite Hzones, Hsparse. cbn [negb orb]. run.
    destruct (inSampledChapter
                (lookupMasterIndexName E tr (chunkName request)));
      cbn [negb andb]; run.
    + destruct (isZoneChapterSparse E (get_request_zone idx request) _);
        cbn [negb andb]; run.
      * destruct (triage_virtualChapter
                    (lookupMasterIndexName E tr (chunkName request))
                  =? UINT64_MAX);
          cbn [negb]; run; split; intros Hhook;
          try discriminate Hhook; reflexivity.
      * rewrite Z.eqb_refl.
        split; intros Hhook; try discriminate Hhook; reflexivity.
    + rewrite Z.eqb_refl.
      split; intros Hhook; try discriminate Hhook; reflexivity.
Qed.

Lemma barrier_message_outcomes_witness :
  simulate_index_zone_barrier_message quiet fresh_index zone0
    (some_request REQUEST_INDEX false) [] = (UDS_SUCCESS, []) /\
  simulate_index_zone_barrier_message (sparse_cached (UDS_SUCCESS, false))
    fresh_index zone0 (some_request REQUEST_INDEX false) []
    = (UDS_SUCCESS, [EvLookupMasterIndexName some_name]) /\
  simulate_index_zone_barrier_message barrier_failing fresh_index zone0
    (some_request REQUEST_INDEX false) []
    = (UDS_CORRUPT_DATA,
       [EvLookupMasterIndexName some_name;
        EvExecuteSparseCacheBarrierMessage 0 4]).
Proof.
  assert (1 <= 1)%nat as H1 by constructor.
  split; [| split].
  - exact (proj1
             (barrier_message_outcomes quiet fresh_index zone0
                (some_request REQUEST_INDEX false) [])
             (or_intror eq_refl)).
  - exact (proj1
             (proj2
                (barrier_message_outcomes
                   (sparse_cached (UDS_SUCCESS, false)) fresh_index zone0
                   (some_request REQUEST_INDEX false) [])
                H1 eq_refl)
             eq_refl).
  - exact (proj2
             (proj2
                (barrier_message_outcomes barrier_failing fresh_index zone0
                   (some_request REQUEST_INDEX false) [])
                H1 eq_refl)
             eq_refl).
Defined.

(** *** What a replay, a load and a removal never call *)

Lemma emits_ret {A : Type} (allowed : event -> bool) (a : A) :
  emits allowed (ret a).
Proof. intros tr. exists []. rewrite app_nil_r. split; reflexivity. Qed.

Lemma emits_call {R : Type} (allowed : event -> bool) (ev : event)
    (answer : trace -> R) :
  allowed ev = true -> emits allowed (call ev answer).
Proof.
  intros Hev tr. exists [ev]. split; [reflexivity |].
  cbn. rewrite Hev. reflexivity.
Qed.

Lemma emits_bind {A B : Type} (allowed : event -> bool) (m : M A)
    (k : A -> M B) :
  emits allowed m -> (forall a : A, emits allowed (k a)) ->
  emits allowed (bind m k).
Proof.
  intros Hm Hk tr. unfold bind.
  destruct (Hm tr) as (added1 & Htrace1 & Hallowed1).
  destruct (m tr) as [a tr1]. cbn [snd] in Htrace1. subst tr1.
  destruct (Hk a (tr ++ added1)) as (added2 & Htrace2 & Hallowed2).
  exists (added1 ++ added2). rewrite Htrace2, app_assoc.
  split; [reflexivity |]. rewrite forallb_app, Hallowed1, Hallowed2.
  reflexivity.
Qed.

Lemma emits_weaken {A : Type} (allowed allowed' : event -> bool) (m : M A) :
  (forall e : event, allowed e = true -> allowed' e = true) ->
  emits allowed m -> emits allowed' m.
Proof.
  intros Hsub Hm tr. destruct (Hm tr) as (added & Htrace & Hallowed).
  exists added. split; [exact Htrace |].
  apply forallb_forall. intros e Hin. apply Hsub.
  exact (proj1 (forallb_forall allowed added) Hallowed e Hin).
Qed.

(** Breaks a computation down to its calls. *)
Ltac emit :=
  repeat first
    [ apply emits_ret
    | apply emits_call; reflexivity
    | assumption
    | apply emits_bind; [| intros ?]
    | match goal with
      | |- emits _ (match ?x with _ => _ end) => destruct x
      end ].

Lemma replay_record_emits (E : collaborators) (idx : index)
    (name : uds_chunk_name) (vcn : Z) (sparse : bool) :
  emits is_replay_call (replay_record E idx name vcn sparse).
Proof. unfold replay_record. cbv zeta. emit. Qed.

Lemma replay_records_from_emits (E : collaborators) (idx : index) (vcn : Z)
    (sparse : bool) (page : list byte) (n : nat) (k : Z) :
  emits is_replay_call (replay_records_from E idx vcn sparse page k n).
Proof.
  revert k. induction n as [| n IH]; intros k; cbn [replay_records_from].
  - emit.
  - cbv zeta. apply emits_bind; [apply replay_record_emits |].
    intros result. destruct result; try apply emits_ret. apply IH.
Qed.

Lemma replay_record_pages_from_emits (E : collaborators) (idx : index)
    (vcn chapter : Z) (sparse : bool) (n : nat) (j : Z) :
  emits is_replay_call
    (replay_record_pages_from E idx vcn chapter sparse j n).
Proof.
  revert j. induction n as [| n IH]; intros j;
    cbn [replay_record_pages_from].
  - emit.
  - cbv zeta. apply emits_bind; [apply emits_call; reflexivity |].
    intros [result [page ipage]]. destruct result; try apply emits_ret.
    apply emits_bind; [apply replay_records_from_emits |].
    intros returned. destruct returned; [apply emits_ret | apply IH].
Qed.

Lemma rebuild_index_page_map_emits (E : collaborators) (idx : index)
    (vcn : Z) :
  emits is_replay_call (rebuild_index_page_map E idx vcn).
Proof.
  unfold rebuild_index_page_map. cbv zeta.
  generalize (map_to_physical_chapter (volume_geometry idx) vcn) as chapter.
  generalize 0 at 1 as expected. generalize 0 as page.
  induction (Z.to_nat (index_pages_per_chapter (volume_geometry idx)))
    as [| n IH]; intros page expected chapter;
    cbn [rebuild_index_page_map_from].
  - emit.
  - apply emits_bind; [apply emits_call; reflexivity |].
    intros [result [bytes ipage]]. destruct result; try apply emits_ret.
    cbv zeta.
    destruct (negb (lowest_list_number ipage =? expected));
      [apply emits_ret |].
    apply emits_bind; [apply emits_call; reflexivity |].
    intros updated. destruct updated; try apply emits_ret. apply IH.
Qed.

Lemma check_for_suspend_emits (E : collaborators) (idx : index) :
  emits is_replay_call (check_for_suspend E idx).
Proof. unfold check_for_suspend. emit. Qed.

Lemma replay_chapters_from_emits (E : collaborators) (n : nat) (idx : index)
    (old : IndexLookupMode) (from_vcn upto_vcn vcn : Z) :
  emits is_replay_call
    (replay_chapters_from E idx old from_vcn upto_vcn vcn n).
Proof.
  revert idx vcn. induction n as [| n IH]; intros idx vcn;
    cbn [replay_chapters_from].
  - emit.
  - apply emits_bind; [apply check_for_suspend_emits |].
    intros [stop idx1]. destruct stop; [apply emits_ret |]. cbv zeta.
    apply emits_bind; [apply emits_call; reflexivity |]. intros _.
    apply emits_bind; [apply emits_call; reflexivity |]. intros _.
    apply emits_bind; [apply rebuild_index_page_map_emits |].
    intros result. destruct result; try apply emits_ret.
    apply emits_bind; [apply replay_record_pages_from_emits |].
    intros returned. destruct returned; [apply emits_ret | apply IH].
Qed.

Lemma replay_volume_emits (E : collaborators) (idx : index) (from_vcn : Z) :
  emits is_replay_call (replay_volume E idx from_vcn).
Proof.
  unfold replay_volume. cbv zeta.
  apply emits_bind; [apply emits_call; reflexivity |]. intros _.
  apply emits_bind; [apply emits_call; reflexivity |]. intros _.
  apply emits_bind; [apply emits_call; reflexivity |]. intros _.
  apply emits_bind; [apply replay_chapters_from_emits |].
  intros [returned idx1]. destruct returned; emit.
Qed.

(** X24.  A replay writes no record anywhere but in the master index:
    every call of [replay_volume], on every path, is a reading of the load
    context, of the volume or of the master index, or a change of the
    master index (its open chapter, a record put or pointed at a chapter)
    or of the index page map.  The open chapter is never written, no
    record is removed and no state is saved. *)
Theorem replay_volume_calls (E : collaborators) (idx : index)
    (from_vcn : Z) (tr : trace) :
  exists added : list event,
    snd (replay_volume E idx from_vcn tr) = tr ++ added /\
    forallb is_replay_call added = true.
Proof. exact (replay_volume_emits E idx from_vcn tr). Qed.

Lemma set_active_chapters_from_emits (E : collaborators) (n i : nat)
    (idx : index) :
  emits is_load_call (set_active_chapters_from E i n idx).
Proof.
  revert i idx. induction n as [| n IH]; intros i idx;
    cbn [set_active_chapters_from].
  - emit.
  - apply emits_bind; [apply emits_call; reflexivity |].
    intros zone. apply IH.
Qed.

Lemma replay_volume_emits_load (E : collaborators) (idx : index)
    (from_vcn : Z) :
  emits is_load_call (replay_volume E idx from_vcn).
Proof.
  apply (emits_weaken is_replay_call).
  - intros e He. destruct e; try discriminate He; reflexivity.
  - apply replay_volume_emits.
Qed.

(** X25.  Loading and rebuilding are read-only outside the index itself:
    the calls of [load_index] and of [rebuild_index], on every path, are
    the reading of the saved state, the search for the boundaries of the
    volume, the calls of a replay and the update of the zones.  The saved
    state is never written or discarded, the open chapter is never
    written and nothing is freed. *)
Theorem load_and_rebuild_calls (E : collaborators) (idx : index)
    (allow_replay : bool) (tr : trace) :
  (exists added : list event,
     snd (load_index E idx allow_replay tr) = tr ++ added /\
     forallb is_load_call added = true) /\
  (exists added : list event,
     snd (rebuild_index E idx tr) = tr ++ added /\
     forallb is_load_call added = true).
Proof.
  split; revert tr.
  - change (emits is_load_call (load_index E idx allow_replay)).
    unfold load_index.
    apply emits_bind; [apply emits_call; reflexivity |].
    intros [[result replay_required] idx1].
    destruct result; try apply emits_ret.
    destruct (replay_required && negb allow_replay); [apply emits_ret |].
    cbv zeta. apply emits_bind.
    + destruct replay_required; [| apply emits_ret].
      unfold replay_index_from_checkpoint. cbv zeta.
      apply emits_bind; [apply emits_call; reflexivity |].
      intros [result [[lowest highest] is_empty]].
      destruct result; try apply emits_ret.
      destruct (lowest >? highest); [apply emits_ret |].
      destruct is_empty.
      * destruct (negb (newest_virtual_chapter _ =? 0)); apply emits_ret.
      * apply replay_volume_emits_load.
    + intros [result idx2]. destruct result; try apply emits_ret.
      apply emits_bind; [apply set_active_chapters_from_emits |].
      intros idx3. apply emits_ret.
  - change (emits is_load_call (rebuild_index E idx)).
    unfold rebuild_index. cbv zeta.
    apply emits_bind; [apply emits_call; reflexivity |].
    intros [result [[lowest highest] is_empty]].
    destruct result; try apply emits_ret.
    destruct (lowest >? highest); [apply emits_ret |].
    match goal with
    | |- emits _ (if ?c then _ else _) => destruct c; [apply emits_ret |]
    end.
    apply emits_bind; [apply emits_call; reflexivity |]. intros _.
    destruct is_empty; [apply emits_ret |].
    apply emits_bind; [apply replay_volume_emits_load |].
    intros [result idx2]. destruct result; try apply emits_ret.
    apply emits_bind; [apply set_active_chapters_from_emits |].
    intros idx3. apply emits_ret.
Qed.

(** X26.  A removal never adds anything: the calls of
    [remove_from_index_zone], on every path, are the two lookups and the
    two removals (from the master index, from the open chapter); no record
    is put or pointed at another chapter and nothing is written into the
    open chapter. *)
Theorem remove_from_index_zone_calls (E : collaborators) (idx : index)
    (zone : index_zone) (request : Request) (tr : trace) :
  exists added : list event,
    snd (remove_from_index_zone E idx zone request tr) = tr ++ added /\
    forallb is_remove_call added = true.
Proof.
  revert tr.
  change (emits is_remove_call (remove_from_index_zone E idx zone request)).
  unfold remove_from_index_zone, remove_located. cbv zeta. emit.
Qed.

(** ** Properties of vdoResume.c *)

(** X27.  [write_super_block] leaves no VDO marked clean or new: a clean
    or new VDO becomes dirty and its components are saved; in every other
    state the state of the VDO is not set, it stays exactly what it was,
    and nothing is saved.  The completion is handed on exactly once in
    every case; it is completed without a result exactly in the five states
    that need no write, and it is finished with [UDS_BAD_STATE], and with
    no other result, exactly when the VDO is replaying or in a state the
    function does not know. *)
Theorem write_super_block_outcomes (state : vdo_state) :
  let '(state', events) := write_super_block state in
  let unwritten := state <> VDO_CLEAN /\ state <> VDO_NEW in
  state' <> VDO_CLEAN /\ state' <> VDO_NEW /\
  (state = VDO_CLEAN \/ state = VDO_NEW -> state' = VDO_DIRTY) /\
  (unwritten -> state' = state) /\
  (forall s : vdo_state,
     In (RvSetVdoState s) events <-> s = VDO_DIRTY /\ ~ unwritten) /\
  length (filter hands_completion_on events) = 1%nat /\
  (In RvSaveVdoComponentsAsync events <->
   state = VDO_CLEAN \/ state = VDO_NEW) /\
  (In RvCompleteCompletion events <->
   state = VDO_DIRTY \/ state = VDO_READ_ONLY_MODE \/
   state = VDO_FORCE_REBUILD \/ state = VDO_RECOVERING \/
   state = VDO_REBUILD_FOR_UPGRADE) /\
  (forall result : vdo_result,
     In (RvFinishCompletion result) events <->
     result = UDS_BAD_STATE /\
     (state = VDO_REPLAYING \/
      exists code : Z, state = VDO_STATE_UNKNOWN code)).
Proof.
  destruct state; cbn;
    (split; [discriminate |]); (split; [discriminate |]);
    (split; [try reflexivity; intros [H | H]; discriminate |]);
    (split; [try reflexivity; intros [Hc Hn]; congruence |]);
    (split;
     [intros s; split;
      [intros H;
       repeat match goal with
              | H : _ \/ _ |- _ => destruct H
              | H : False |- _ => contradiction
              end;
       try discriminate;
       match goal with
       | H : RvSetVdoState _ = RvSetVdoState _ |- _ =>
           injection H as <-; split; [reflexivity |];
           intros [Hc Hn]; congruence
       end
      | intros [-> Hw]; try (left; reflexivity);
        exfalso; apply Hw; split; discriminate] |]);
    (split; [reflexivity |]);
    (split;
     [split; intros H;
      repeat match goal with
             | H : _ \/ _ |- _ => destruct H
             | H : False |- _ => contradiction
             end;
      try discriminate; auto |]);
    (split;
     [split; intros H;
      repeat match goal with
             | H : _ \/ _ |- _ => destruct H
             | H : False |- _ => contradiction
             end;
      try discriminate; auto 6 |]);
    (intros result; split;
    [intros H;
     repeat match goal with
            | H : _ \/ _ |- _ => destruct H
            | H : False |- _ => contradiction
            end;
     try discriminate;
     match goal with
     | H : RvFinishCompletion _ = RvFinishCompletion _ |- _ =>
         injection H as <-; split; [reflexivity |];
         auto; right; eexists; reflexivity
     end
    | intros [-> H];
      repeat match goal with
             | H : _ \/ _ |- _ => destruct H
             | H : exists _, _ |- _ => destruct H
             end;
      try discriminate; left; reflexivity]).
Qed.

(** X28.  One run of [resume_callback].  The phase counter always moves up
    by one.  [finish_resuming_with_result] is called exactly in the runs
    whose phase is not one of the seven working phases, [RESUME_PHASE_START]
    to [RESUME_PHASE_PACKER]; a step on a part of the VDO is launched
    exactly in the six working phases after the start, one step per run;
    and the state of the VDO can change only in the start phase, and then
    only if [start_resuming] allowed the resume. *)
Theorem resume_callback_phases (may_start : bool)
    (completion_result : vdo_result) (r : resuming) :
  let '(r', events) := resume_callback may_start completion_result r in
  phase r' = wrap32 (phase r + 1) /\
  (existsb is_finish_resuming events
   = negb ((RESUME_PHASE_START <=? phase r)
           && (phase r <=? RESUME_PHASE_PACKER))) /\
  (length (filter is_resume_step events)
   = if (RESUME_PHASE_ALLOW_READ_ONLY_MODE <=? phase r)
        && (phase r <=? RESUME_PHASE_PACKER)
     then 1%nat else 0%nat) /\
  (phase r <> RESUME_PHASE_START \/ may_start = false ->
   state_of_vdo r' = state_of_vdo r).
Proof.
  unfold resume_callback, RESUME_PHASE_START,
    RESUME_PHASE_ALLOW_READ_ONLY_MODE, RESUME_PHASE_DEPOT,
    RESUME_PHASE_JOURNAL, RESUME_PHASE_BLOCK_MAP,
    RESUME_PHASE_LOGICAL_ZONES, RESUME_PHASE_PACKER, RESUME_PHASE_END.
  destruct r as [state current]. cbn [phase state_of_vdo]. cbv zeta.
  repeat match goal with
         | |- context [if ?a =? ?b then _ else _] =>
             destruct (Z.eqb_spec a b); [subst |]
         end;
    try (destruct may_start; [destruct state |]); cbn;
    repeat split; try reflexivity;
    try (intros [H | H]; try discriminate H; try reflexivity; contradiction);
    try (destruct (Z.leb_spec 0 current); destruct (Z.leb_spec current 6);
         cbn; try reflexivity; lia);
    try (destruct (Z.leb_spec 1 current); destruct (Z.leb_spec current 6);
         cbn; try reflexivity; lia).
Qed.

(** X29.  A whole resume.  Eight successive runs of [resume_callback]
    from [RESUME_PHASE_START], the first of them allowed by
    [start_resuming]: the parts of the VDO are resumed in the order
    read-only notifier, slab depot, recovery journal, block map, logical
    zones, packer; [finish_resuming_with_result] is called once, as the
    very last call, with the result found in the completion by the last
    run; and the VDO is not left marked clean or new. *)
Theorem resume_walks_the_phases (state : vdo_state)
    (b1 b2 b3 b4 b5 b6 b7 : bool)
    (c0 c1 c2 c3 c4 c5 c6 c7 : vdo_result) :
  let '(r, events) :=
    resume_callbacks
      [(true, c0); (b1, c1); (b2, c2); (b3, c3); (b4, c4); (b5, c5);
       (b6, c6); (b7, c7)]
      (mk_resuming state RESUME_PHASE_START) in
  filter is_resume_step events
    = [RvAllowReadOnlyModeEntry; RvResumeSlabDepot; RvResumeRecoveryJournal;
       RvResumeBlockMap; RvResumeLogicalZones; RvResumePacker] /\
  filter is_finish_resuming events = [RvFinishResumingWithResult c7] /\
  hd_error (rev events) = Some (RvFinishResumingWithResult c7) /\
  phase r = 8 /\
  state_of_vdo r <> VDO_CLEAN /\ state_of_vdo r <> VDO_NEW.
Proof.
  destruct state; cbn; repeat split; try reflexivity; discriminate.
Qed.
